(** * Message analysis route: response parser and rule-based fallback analyzer

    A shallow embedding of [src/app/api/analyze/route.ts]:
    - [parseAnalysisResponse] (the response parser), with the run-time
      services it calls: the [String.prototype] methods, the regular
      expressions it uses, [JSON.parse] and [parseInt];
    - [analyzeWithFallback] (the rule-based analyzer).

    A string is its sequence of UTF-16 code units, each a number [N].
    TypeScript types are erased at run time, so the fields of an
    [AnalysisResult] are run-time values ([JsValue]). *)

From Stdlib Require Import String Ascii List Bool ZArith NArith Lia.
From Stdlib Require Import DecimalString.
From Stdlib Require Import SpecFloat.
Import ListNotations.

Local Open Scope N_scope.
Local Open Scope list_scope.

(** ** Strings, and the [String.prototype] methods used by the route *)

Definition jsstring : Type := list N.

(** A string literal of the source (ASCII text) as code units. *)
Definition u (s : string) : jsstring := map N_of_ascii (list_ascii_of_string s).

Module Js.

Definition between (lo hi c : N) : bool := (lo <=? c) && (c <=? hi).

(** [String.prototype.toLowerCase], one code unit at a time.  Exact on
    U+0000..U+00FF, and on the two code points outside ASCII whose lower
    case contains an ASCII letter (U+0130, U+212A).  Every other code
    point has a lower case without ASCII units; the route looks at the
    lowered message only through [includes] with ASCII needles, so these
    are left as they are. *)
Definition toLowerCase_unit (c : N) : list N :=
  if between 65 90 c || (between 192 222 c && negb (c =? 215))
  then [c + 32]
  else if c =? 304 then [105; 775]
  else if c =? 8490 then [107]
  else [c].

Definition toLowerCase (s : jsstring) : jsstring := flat_map toLowerCase_unit s.

(** Canonicalize of an ignore-case regular expression without the unicode
    flag, on a pattern unit or an input unit: the upper case, kept only
    when it is one code unit and does not move a unit of 128 or more
    below 128.  Only ASCII letters are moved onto ASCII units; the
    patterns of the route are ASCII, so this is all they can observe. *)
Definition canonicalize (c : N) : N :=
  if between 97 122 c then c - 32 else c.

(** One pattern unit against one input unit, with or without flag [i]. *)
Definition unit_eqb (ignoreCase : bool) (p c : N) : bool :=
  if ignoreCase then canonicalize p =? canonicalize c else p =? c.

(** A literal pattern matched at the start of the input. *)
Fixpoint matches_at (ignoreCase : bool) (p s : jsstring) : bool :=
  match p, s with
  | [], _ => true
  | _ :: _, [] => false
  | a :: p', b :: s' => unit_eqb ignoreCase a b && matches_at ignoreCase p' s'
  end.

(** A literal pattern matched anywhere in the input (unanchored search). *)
Fixpoint search (ignoreCase : bool) (p s : jsstring) : bool :=
  matches_at ignoreCase p s
  || match s with
     | [] => false
     | _ :: s' => search ignoreCase p s'
     end.

(** [String.prototype.includes]. *)
Definition includes (s needle : jsstring) : bool := search false needle s.

(** [Array.prototype.some]. *)
Definition some {A : Type} (l : list A) (f : A -> bool) : bool := existsb f l.

(** [RegExp.prototype.test] for an alternation of literals. *)
Definition test_alternation (ignoreCase : bool) (alts : list jsstring)
    (s : jsstring) : bool :=
  existsb (fun p => search ignoreCase p s) alts.

(** WhiteSpace and LineTerminator code units, stripped by
    [String.prototype.trim]. *)
Definition isWhiteSpace (c : N) : bool :=
  between 9 13 c || (c =? 32) || (c =? 160) || (c =? 5760)
  || between 8192 8202 c || (c =? 8232) || (c =? 8233) || (c =? 8239)
  || (c =? 8287) || (c =? 12288) || (c =? 65279).

Fixpoint trimStart (s : jsstring) : jsstring :=
  match s with
  | [] => []
  | c :: s' => if isWhiteSpace c then trimStart s' else s
  end.

(** Drops the trailing white space: a unit stays when it is not white
    space, or when a unit that is not white space follows it. *)
Fixpoint trimEnd (s : jsstring) : jsstring :=
  match s with
  | [] => []
  | c :: s' =>
      match trimEnd s' with
      | [] => if isWhiteSpace c then [] else [c]
      | r => c :: r
      end
  end.

Definition trim (s : jsstring) : jsstring := trimEnd (trimStart s).

(** ToBoolean of a string. *)
Definition nonEmpty (s : jsstring) : bool :=
  match s with [] => false | _ :: _ => true end.

Definition LF : N := 10.

(** [s.split('\n')]: always at least one piece. *)
Fixpoint split_LF (s : jsstring) : list jsstring :=
  match s with
  | [] => [[]]
  | c :: s' =>
      if c =? LF then [] :: split_LF s'
      else match split_LF s' with
           | [] => [[c]]
           | l :: ls => (c :: l) :: ls
           end
  end.

Definition isDigit (c : N) : bool := between 48 57 c.

(** The leading run of decimal digits. *)
Fixpoint digit_run (s : jsstring) : jsstring :=
  match s with
  | [] => []
  | c :: s' => if isDigit c then c :: digit_run s' else []
  end.

(** [s.match(/(\d+)/)]: the first maximal run of digits, if any. *)
Fixpoint match_digits (s : jsstring) : option jsstring :=
  match s with
  | [] => None
  | c :: s' => if isDigit c then Some (digit_run s) else match_digits s'
  end.

Definition digit_value (c : N) : Z := (Z.of_N c - 48)%Z.

(** The mathematical value of a run of decimal digits, most significant
    first, continuing from [acc]. *)
Fixpoint digits_value (acc : Z) (s : jsstring) : Z :=
  match s with
  | [] => acc
  | c :: s' => digits_value (10 * acc + digit_value c)%Z s'
  end.

(** Strict equality [===] of two strings. *)
Fixpoint eqb (a b : jsstring) : bool :=
  match a, b with
  | [], [] => true
  | x :: a', y :: b' => (x =? y) && eqb a' b'
  | _, _ => false
  end.

(** [Number.prototype.toString] on an integer below 10^21 in magnitude. *)
Definition string_of_Z (z : Z) : jsstring :=
  u (NilEmpty.string_of_int (Z.to_int z)).

End Js.

(** ** Numbers: IEEE 754 binary64 *)

Definition number : Type := spec_float.

Definition prec : Z := 53.
Definition emax : Z := 1024.

(** The binary64 value nearest to an integer (ties to even). *)
Definition number_of_Z (z : Z) : number := binary_normalize prec emax z 0 false.

(** The binary64 value nearest to [m * 10^e] for [m >= 0], with sign [neg]
    (ties to even): the Number value of a decimal literal.  (An engine may
    round a literal of more than 20 significant digits less precisely.) *)
Definition number_of_decimal (neg : bool) (m e : Z) : number :=
  match m with
  | Z0 => S754_zero neg
  | _ =>
      if (0 <=? e)%Z
      then binary_normalize prec emax (cond_Zopp neg (m * 10 ^ e)) 0 neg
      else let '(q, e', l) := SFdiv_core_binary prec emax m 0 (10 ^ (- e)) 0 in
           binary_round_aux prec emax neg q e' l
  end.

(** ** Run-time values *)

#[warnings="-register-all"] Inductive JsValue : Type :=
| JUndefined
| JNull
| JBool (b : bool)
| JNumber (x : number)
| JString (s : jsstring)
| JArray (elems : list JsValue)
| JObject (props : list (jsstring * JsValue)).

(** ToBoolean. *)
Definition truthy (v : JsValue) : bool :=
  match v with
  | JUndefined | JNull => false
  | JBool b => b
  | JNumber (S754_zero _) | JNumber S754_nan => false
  | JNumber _ => true
  | JString s => Js.nonEmpty s
  | JArray _ | JObject _ => true
  end.

(** [a || b]. *)
Definition or_else (a b : JsValue) : JsValue := if truthy a then a else b.

(** The object the route returns; a missing optional field reads as
    [JUndefined]. *)
Record AnalysisResult : Type := {
  riskLevel : JsValue;
  reason : JsValue;
  businessImpact : JsValue;
  recommendedAction : JsValue;
  suggestedReply : JsValue;
  leadQualityScore : JsValue;
  businessInsight : JsValue
}.

(** ** The rule-based analyzer: [analyzeWithFallback] *)

Definition fraudKeywords : list jsstring :=
  map u ["urgent"; "wire"; "bank account"; "password"; "verify"; "suspended";
         "click here"; "act now"; "limited time"]%string.

Definition salesKeywords : list jsstring :=
  map u ["interested"; "quote"; "pricing"; "demo"; "meeting"; "budget";
         "looking for"; "need"]%string.

Definition complaintKeywords : list jsstring :=
  map u ["disappointed"; "unhappy"; "refund"; "complaint"; "terrible"; "awful";
         "never again"]%string.

Definition lowerMessage (message : jsstring) : jsstring := Js.toLowerCase message.

Definition isFraud (message : jsstring) : bool :=
  Js.some fraudKeywords (fun keyword => Js.includes (lowerMessage message) keyword).

Definition isSales (message : jsstring) : bool :=
  Js.some salesKeywords (fun keyword => Js.includes (lowerMessage message) keyword).

Definition isComplaint (message : jsstring) : bool :=
  Js.some complaintKeywords (fun keyword => Js.includes (lowerMessage message) keyword).

(** [/https?:\/\//.test(message)]: the optional [s] gives two literals. *)
Definition hasUrl (message : jsstring) : bool :=
  Js.test_alternation false (map u ["http://"; "https://"]%string) message.

(** [/urgent|immediately|asap|right now|act now/i.test(message)] *)
Definition hasUrgency (message : jsstring) : bool :=
  Js.test_alternation true
    (map u ["urgent"; "immediately"; "asap"; "right now"; "act now"]%string)
    message.

(** [/password|account|credit card|ssn|social security/i.test(message)] *)
Definition requestsInfo (message : jsstring) : bool :=
  Js.test_alternation true
    (map u ["password"; "account"; "credit card"; "ssn"; "social security"]%string)
    message.

Definition nl : jsstring := [Js.LF].

Definition reason_safe : jsstring :=
  u "Message appears to be a normal business communication with no obvious risk indicators.".
Definition reason_fraud : jsstring :=
  u "Message contains multiple fraud indicators: urgency pressure, requests for sensitive information, and external links. Pattern consistent with phishing or social engineering attacks.".
Definition reason_suspicious : jsstring :=
  u "Message contains potential risk indicators such as urgency language, requests for information, or suspicious links. Requires careful verification before responding.".

Definition impact_default : jsstring := u "Minimal risk to business operations.".
Definition impact_fraud : jsstring :=
  u "High risk of financial loss, data breach, or security compromise. Could lead to unauthorized access to systems, financial accounts, or sensitive business information.".
Definition impact_suspicious : jsstring :=
  u "Moderate risk of security incident or fraud. Could potentially lead to data exposure or financial loss if not properly verified.".
Definition impact_complaint : jsstring :=
  u "Customer satisfaction and reputation risk. Requires prompt attention to prevent escalation and negative reviews.".
Definition impact_sales : jsstring :=
  u "Potential revenue opportunity. Timely response could lead to new business.".

Definition action_fraud : jsstring :=
  u "DO NOT RESPOND. Do not click any links. Report to IT security team immediately. Block sender and mark as spam.".
Definition action_suspicious : jsstring :=
  u "Verify sender identity through separate communication channel before responding. Do not click links or provide information. Consult security team if uncertain.".
Definition action_complaint : jsstring :=
  u "Respond within 24 hours. Acknowledge issue, apologize, and offer resolution. Escalate to customer service manager if needed.".
Definition action_sales : jsstring :=
  u "Follow up within 24-48 hours. Qualify lead by understanding needs, budget, and timeline. Schedule discovery call if appropriate.".
Definition action_default : jsstring :=
  u "Respond professionally within 1-2 business days. Address inquiry directly and provide requested information.".

Definition reply_sales : jsstring :=
  u "Thank you for your interest in our services. I'd be happy to discuss how we can help meet your needs."
  ++ nl ++ nl ++ u "Could you provide more details about:"
  ++ nl ++ u "- Your specific requirements"
  ++ nl ++ u "- Timeline for implementation"
  ++ nl ++ u "- Budget considerations"
  ++ nl ++ nl ++ u "I'm available for a brief call this week to explore further. Please let me know your availability."
  ++ nl ++ nl ++ u "Best regards".

Definition reply_complaint : jsstring :=
  u "Thank you for bringing this to our attention. I sincerely apologize for any inconvenience you've experienced."
  ++ nl ++ nl ++ u "We take these matters seriously and would like to resolve this as quickly as possible. Could you please provide additional details so we can investigate and address your concerns?"
  ++ nl ++ nl ++ u "I'm personally committed to ensuring we find a satisfactory resolution."
  ++ nl ++ nl ++ u "Best regards".

Definition reply_generic : jsstring :=
  u "Thank you for reaching out."
  ++ nl ++ nl ++ u "[Address the specific inquiry or request here]"
  ++ nl ++ nl ++ u "Please let me know if you need any additional information."
  ++ nl ++ nl ++ u "Best regards".

Definition insight_sales (leadQualityScore : Z) : jsstring :=
  u "This appears to be a sales opportunity. Lead quality: "
  ++ Js.string_of_Z leadQualityScore
  ++ u "/10. Priority response recommended to maximize conversion potential.".
Definition insight_complaint : jsstring :=
  u "Customer retention risk. Immediate empathetic response required. This is an opportunity to demonstrate excellent customer service and prevent negative publicity.".
Definition insight_fraud : jsstring :=
  u "Security threat detected. This message follows common fraud patterns. Employee training on security awareness is recommended to prevent future incidents.".
Definition insight_suspicious : jsstring :=
  u "Exercise caution. Verify authenticity before engagement. Implement sender verification protocols for similar messages.".
Definition insight_default : jsstring :=
  u "Standard business communication. Respond professionally and maintain service level standards for response time.".

Definition Safe : jsstring := u "Safe".
Definition Suspicious : jsstring := u "Suspicious".
Definition HighRiskFraud : jsstring := u "High Risk Fraud".
Definition Unknown : jsstring := u "Unknown".

(** Lines 246-255: the risk level and its reason, first match wins. *)
Definition classify (message : jsstring) : jsstring * jsstring :=
  if (isFraud message || (hasUrgency message && requestsInfo message))
     && hasUrl message
  then (HighRiskFraud, reason_fraud)
  else if hasUrgency message || requestsInfo message
          || (hasUrl message && isFraud message)
  then (Suspicious, reason_suspicious)
  else (Safe, reason_safe).

(** Lines 290-298: the lead score; [message.length] counts code units. *)
Definition score (message riskLevel : jsstring) : Z :=
  if isSales message && Js.eqb riskLevel Safe
  then
    let s := 5%Z in
    let s := if Js.includes (lowerMessage message) (u "budget")
             then (s + 2)%Z else s in
    let s := if Js.includes (lowerMessage message) (u "timeline")
                || Js.includes (lowerMessage message) (u "when")
             then (s + 1)%Z else s in
    let s := if Js.includes (lowerMessage message) (u "demo")
                || Js.includes (lowerMessage message) (u "meeting")
             then (s + 1)%Z else s in
    let s := if (200 <? length message)%nat then (s + 1)%Z else s in
    Z.min s 10
  else 0%Z.

(** [senderInfo] and [context] are optional parameters: [None] when the
    caller leaves them out. *)
Definition analyzeWithFallback (message : jsstring)
    (senderInfo context : option jsstring) : AnalysisResult :=
  let '(riskLevel, reason) := classify message in
  let businessImpact :=
    if Js.eqb riskLevel HighRiskFraud then impact_fraud
    else if Js.eqb riskLevel Suspicious then impact_suspicious
    else if isComplaint message then impact_complaint
    else if isSales message then impact_sales
    else impact_default in
  let recommendedAction :=
    if Js.eqb riskLevel HighRiskFraud then action_fraud
    else if Js.eqb riskLevel Suspicious then action_suspicious
    else if isComplaint message then action_complaint
    else if isSales message then action_sales
    else action_default in
  let suggestedReply :=
    if Js.eqb riskLevel Safe && isSales message then JString reply_sales
    else if isComplaint message then JString reply_complaint
    else if Js.eqb riskLevel Safe then JString reply_generic
    else JUndefined in
  let leadQualityScore := score message riskLevel in
  let businessInsight :=
    if isSales message then insight_sales leadQualityScore
    else if isComplaint message then insight_complaint
    else if Js.eqb riskLevel HighRiskFraud then insight_fraud
    else if Js.eqb riskLevel Suspicious then insight_suspicious
    else insight_default in
  {| riskLevel := JString riskLevel;
     reason := JString reason;
     businessImpact := JString businessImpact;
     recommendedAction := JString recommendedAction;
     suggestedReply := suggestedReply;
     leadQualityScore := JNumber (number_of_Z leadQualityScore);
     businessInsight := JString businessInsight |}.

(** ** [JSON.parse] *)

Module Json.

Inductive token : Type :=
| TLBrace | TRBrace | TLBracket | TRBracket | TColon | TComma
| TString (s : jsstring)
| TNumber (x : number)
| TTrue | TFalse | TNull.

(** JSON white space: TAB, LF, CR, SP. *)
Definition isWs (c : N) : bool :=
  (c =? 9) || (c =? 10) || (c =? 13) || (c =? 32).

Definition hex_value (c : N) : option N :=
  if Js.between 48 57 c then Some (c - 48)
  else if Js.between 97 102 c then Some (c - 87)
  else if Js.between 65 70 c then Some (c - 55)
  else None.

(** The code unit named by the character after a backslash ([u] apart):
    quotation mark, reverse solidus, solidus, b, f, n, r, t. *)
Definition escape_value (c : N) : option N :=
  if c =? 34 then Some 34
  else if c =? 92 then Some 92
  else if c =? 47 then Some 47
  else if c =? 98 then Some 8
  else if c =? 102 then Some 12
  else if c =? 110 then Some 10
  else if c =? 114 then Some 13
  else if c =? 116 then Some 9
  else None.

(** Where the scanner is inside a number literal: an optional minus; a
    zero, or a digit 1-9 and any digits; an optional point and one digit
    or more; an optional [e] or [E], optional sign and one digit or more.
    [m] collects the digits of the integer and fraction parts, [k]
    counts the fraction digits, [x] is the exponent read so far. *)
Inductive numstate : Type :=
| NSign                                   (* after [-] *)
| NZero                                   (* after a leading [0] *)
| NInt (m : Z)                            (* in the integer part *)
| NDot (m : Z)                            (* after [.] *)
| NFrac (m : Z) (k : Z)                   (* in the fraction *)
| NE (m : Z) (k : Z)                      (* after [e] or [E] *)
| NESign (m : Z) (k : Z) (xneg : bool)    (* after the exponent sign *)
| NExp (m : Z) (k : Z) (xneg : bool) (x : Z).  (* in the exponent *)

Inductive mode : Type :=
| MDefault
| MStr (acc : jsstring)                   (* in a string; [acc] reversed *)
| MEsc (acc : jsstring)                   (* after a backslash *)
| MHex (acc : jsstring) (todo : nat) (v : N)  (* in [\uXXXX]: hex digits to read *)
| MLit (rest : jsstring) (t : token)      (* in [true], [false], [null] *)
| MNum (neg : bool) (st : numstate).

(** The Number value of a complete number literal, if the scanner is at a
    place where the literal may end. *)
Definition number_end (neg : bool) (st : numstate) : option number :=
  match st with
  | NZero => Some (number_of_decimal neg 0 0)
  | NInt m => Some (number_of_decimal neg m 0)
  | NFrac m k => Some (number_of_decimal neg m (- k)%Z)
  | NExp m k xneg x =>
      Some (number_of_decimal neg m ((if xneg then - x else x) - k)%Z)
  | NSign | NDot _ | NE _ _ | NESign _ _ _ => None
  end.

(** One code unit read between tokens. *)
Definition default_step (c : N) : option (list token * mode) :=
  if isWs c then Some ([], MDefault)
  else if c =? 123 then Some ([TLBrace], MDefault)
  else if c =? 125 then Some ([TRBrace], MDefault)
  else if c =? 91 then Some ([TLBracket], MDefault)
  else if c =? 93 then Some ([TRBracket], MDefault)
  else if c =? 58 then Some ([TColon], MDefault)
  else if c =? 44 then Some ([TComma], MDefault)
  else if c =? 34 then Some ([], MStr [])
  else if c =? 116 then Some ([], MLit (u "rue") TTrue)
  else if c =? 102 then Some ([], MLit (u "alse") TFalse)
  else if c =? 110 then Some ([], MLit (u "ull") TNull)
  else if c =? 45 then Some ([], MNum true NSign)
  else if c =? 48 then Some ([], MNum false NZero)
  else if Js.between 49 57 c then Some ([], MNum false (NInt (Js.digit_value c)))
  else None.

Definition isE (c : N) : bool := (c =? 101) || (c =? 69).

(** One code unit read inside a number literal: [Some st'] when the
    literal goes on, [None] when the unit is not part of it. *)
Definition num_step (st : numstate) (c : N) : option numstate :=
  let d := Js.digit_value c in
  match st with
  | NSign =>
      if c =? 48 then Some NZero
      else if Js.between 49 57 c then Some (NInt d) else None
  | NZero =>
      if c =? 46 then Some (NDot 0%Z)
      else if isE c then Some (NE 0%Z 0%Z) else None
  | NInt m =>
      if Js.isDigit c then Some (NInt (10 * m + d)%Z)
      else if c =? 46 then Some (NDot m)
      else if isE c then Some (NE m 0%Z) else None
  | NDot m =>
      if Js.isDigit c then Some (NFrac (10 * m + d)%Z 1%Z) else None
  | NFrac m k =>
      if Js.isDigit c then Some (NFrac (10 * m + d)%Z (k + 1)%Z)
      else if isE c then Some (NE m k) else None
  | NE m k =>
      if c =? 43 then Some (NESign m k false)
      else if c =? 45 then Some (NESign m k true)
      else if Js.isDigit c then Some (NExp m k false d) else None
  | NESign m k xneg =>
      if Js.isDigit c then Some (NExp m k xneg d) else None
  | NExp m k xneg x =>
      if Js.isDigit c then Some (NExp m k xneg (10 * x + d)%Z) else None
  end.

(** One step of the scanner: the tokens completed by this code unit and
    the next mode; [None] is a SyntaxError. *)
Definition lex_step (m : mode) (c : N) : option (list token * mode) :=
  match m with
  | MDefault => default_step c
  | MStr acc =>
      if c =? 34 then Some ([TString (rev acc)], MDefault)
      else if c =? 92 then Some ([], MEsc acc)
      else if c <? 32 then None
      else Some ([], MStr (c :: acc))
  | MEsc acc =>
      if c =? 117 then Some ([], MHex acc 4 0)
      else match escape_value c with
           | Some v => Some ([], MStr (v :: acc))
           | None => None
           end
  | MHex acc todo v =>
      match hex_value c, todo with
      | Some h, 1%nat => Some ([], MStr ((16 * v + h) :: acc))
      | Some h, S todo' => Some ([], MHex acc todo' (16 * v + h))
      | _, _ => None
      end
  | MLit rest t =>
      match rest with
      | [x] => if c =? x then Some ([t], MDefault) else None
      | x :: rest' => if c =? x then Some ([], MLit rest' t) else None
      | [] => None
      end
  | MNum neg st =>
      match num_step st c with
      | Some st' => Some ([], MNum neg st')
      | None =>
          match number_end neg st, default_step c with
          | Some x, Some (ts, m') => Some (TNumber x :: ts, m')
          | _, _ => None
          end
      end
  end.

(** The end of the text. *)
Definition lex_end (m : mode) : option (list token) :=
  match m with
  | MDefault => Some []
  | MNum neg st =>
      match number_end neg st with
      | Some x => Some [TNumber x]
      | None => None
      end
  | _ => None
  end.

Fixpoint lex_from (m : mode) (s : jsstring) : option (list token) :=
  match s with
  | [] => lex_end m
  | c :: s' =>
      match lex_step m c with
      | None => None
      | Some (ts, m') =>
          match lex_from m' s' with
          | None => None
          | Some rest => Some (ts ++ rest)
          end
      end
  end.

Definition lex (s : jsstring) : option (list token) := lex_from MDefault s.

(** An enclosing array or object that is still open: what it holds so
    far (latest first) and, for an object, the key whose value is being
    read. *)
Inductive frame : Type :=
| InArray (done : list JsValue)
| InObject (done : list (jsstring * JsValue)) (key : jsstring).

(** What the parser expects next. *)
Inductive pstate : Type :=
| ExpValue (st : list frame)
| ExpFirstElem (st : list frame)          (* after [[] *)
| ExpFirstKey (st : list frame)           (* after [{] *)
| ExpKey (done : list (jsstring * JsValue)) (st : list frame)
| ExpColon (done : list (jsstring * JsValue)) (key : jsstring)
    (st : list frame)
| ExpMoreArr (done : list JsValue) (st : list frame)
| ExpMoreObj (done : list (jsstring * JsValue)) (st : list frame)
| Done (v : JsValue).

(** A complete value goes to the innermost open array or object. *)
Definition deliver (v : JsValue) (st : list frame) : pstate :=
  match st with
  | [] => Done v
  | InArray done :: st' => ExpMoreArr (v :: done) st'
  | InObject done key :: st' => ExpMoreObj ((key, v) :: done) st'
  end.

Definition value_step (st : list frame) (t : token) : option pstate :=
  match t with
  | TString s => Some (deliver (JString s) st)
  | TNumber x => Some (deliver (JNumber x) st)
  | TTrue => Some (deliver (JBool true) st)
  | TFalse => Some (deliver (JBool false) st)
  | TNull => Some (deliver JNull st)
  | TLBracket => Some (ExpFirstElem st)
  | TLBrace => Some (ExpFirstKey st)
  | TRBrace | TRBracket | TColon | TComma => None
  end.

Definition parse_step (p : pstate) (t : token) : option pstate :=
  match p, t with
  | ExpValue st, _ => value_step st t
  | ExpFirstElem st, TRBracket => Some (deliver (JArray []) st)
  | ExpFirstElem st, _ => value_step (InArray [] :: st) t
  | ExpFirstKey st, TRBrace => Some (deliver (JObject []) st)
  | ExpFirstKey st, TString k => Some (ExpColon [] k st)
  | ExpKey done st, TString k => Some (ExpColon done k st)
  | ExpColon done k st, TColon => Some (ExpValue (InObject done k :: st))
  | ExpMoreArr done st, TComma => Some (ExpValue (InArray done :: st))
  | ExpMoreArr done st, TRBracket => Some (deliver (JArray (rev done)) st)
  | ExpMoreObj done st, TComma => Some (ExpKey done st)
  | ExpMoreObj done st, TRBrace => Some (deliver (JObject (rev done)) st)
  | _, _ => None
  end.

Fixpoint parse_from (p : pstate) (ts : list token) : option JsValue :=
  match ts with
  | [] => match p with Done v => Some v | _ => None end
  | t :: ts' =>
      match parse_step p t with
      | Some p' => parse_from p' ts'
      | None => None
      end
  end.

(** [JSON.parse(text)]; [None] is a SyntaxError. *)
Definition parse (text : jsstring) : option JsValue :=
  match lex text with
  | Some ts => parse_from (ExpValue []) ts
  | None => None
  end.

End Json.

(** ** The response parser: [parseAnalysisResponse] *)

(** Property read [parsed.name] on the result of [JSON.parse]: the last
    member of that name in an object, [undefined] when there is none or the
    value is a primitive or an array (the seven names read here are not
    members of any prototype); reading from [null] throws ([None]). *)
Fixpoint lookup (name : jsstring) (props : list (jsstring * JsValue))
    : option JsValue :=
  match props with
  | [] => None
  | (k, v) :: rest =>
      match lookup name rest with
      | Some v' => Some v'
      | None => if Js.eqb k name then Some v else None
      end
  end.

Definition get (parsed : JsValue) (name : jsstring) : option JsValue :=
  match parsed with
  | JObject props =>
      match lookup name props with
      | Some v => Some v
      | None => Some JUndefined
      end
  | JNull | JUndefined => None
  | _ => Some JUndefined
  end.

(** The suffix that starts at the first opening brace. *)
Fixpoint from_open_brace (s : jsstring) : option jsstring :=
  match s with
  | [] => None
  | c :: s' => if c =? 123 then Some s else from_open_brace s'
  end.

(** The longest prefix that ends with a closing brace. *)
Fixpoint upto_close_brace (s : jsstring) : option jsstring :=
  match s with
  | [] => None
  | c :: s' =>
      match upto_close_brace s' with
      | Some r => Some (c :: r)
      | None => if c =? 125 then Some [c] else None
      end
  end.

(** [text.match(/\{[\s\S]*\}/)]: the leftmost match starts at the first
    opening brace that has a closing brace after it, which is the first
    opening brace of all if any does; the star is greedy, so the match
    ends at the last closing brace. *)
Definition jsonMatch (text : jsstring) : option jsstring :=
  match from_open_brace text with
  | Some s => upto_close_brace s
  | None => None
  end.

Definition default_reason : jsstring := u "No reason provided".
Definition default_businessImpact : jsstring := u "No impact assessment provided".
Definition default_recommendedAction : jsstring := u "No action recommended".
Definition default_businessInsight : jsstring := u "No insight provided".

(** Lines 79-87: the object built from the parsed JSON value; [None] when
    a property read throws. *)
Definition fromParsed (parsed : JsValue) : option AnalysisResult :=
  match get parsed (u "riskLevel"), get parsed (u "reason"),
        get parsed (u "businessImpact"), get parsed (u "recommendedAction"),
        get parsed (u "suggestedReply"), get parsed (u "leadQualityScore"),
        get parsed (u "businessInsight") with
  | Some rl, Some re, Some bi, Some ra, Some sr, Some lq, Some ins =>
      Some {| riskLevel := or_else rl (JString Unknown);
              reason := or_else re (JString default_reason);
              businessImpact := or_else bi (JString default_businessImpact);
              recommendedAction := or_else ra (JString default_recommendedAction);
              suggestedReply := or_else sr JUndefined;
              leadQualityScore := or_else lq (JNumber (number_of_Z 0));
              businessInsight := or_else ins (JString default_businessInsight) |}
  | _, _, _, _, _, _, _ => None
  end.

(** The outcome of the [try] block, lines 75-91. *)
Inductive tryOutcome : Type :=
| Returned (r : AnalysisResult)      (* the [return] of line 79 *)
| NoMatch                            (* [jsonMatch] is null *)
| Thrown.                            (* caught: [console.error] is called *)

Definition tryJson (text : jsstring) : tryOutcome :=
  match jsonMatch text with
  | None => NoMatch
  | Some span =>
      match Json.parse span with
      | None => Thrown
      | Some parsed =>
          match fromParsed parsed with
          | Some r => Returned r
          | None => Thrown
          end
      end
  end.

(** The line scanner, lines 93-144.  Every value it stores is a string or
    a number, so its object is typed; the two optional fields start
    absent. *)
Module Scan.

Inductive field : Type :=
| F_riskLevel | F_reason | F_businessImpact | F_recommendedAction
| F_suggestedReply | F_leadQualityScore | F_businessInsight.

Record result : Type := {
  r_riskLevel : jsstring;
  r_reason : jsstring;
  r_businessImpact : jsstring;
  r_recommendedAction : jsstring;
  r_suggestedReply : option jsstring;
  r_leadQualityScore : option number;
  r_businessInsight : jsstring
}.

(** [currentField] is [''] ([None]) or the name of a field. *)
Record state : Type := {
  res : result;
  currentField : option field
}.

Definition initial : state :=
  {| res := {| r_riskLevel := Unknown;
               r_reason := [];
               r_businessImpact := [];
               r_recommendedAction := [];
               r_suggestedReply := None;
               r_leadQualityScore := None;
               r_businessInsight := [] |};
     currentField := None |}.

(** [text.split('\n').filter(line => line.trim())] *)
Definition lines (text : jsstring) : list jsstring :=
  filter (fun line => Js.nonEmpty (Js.trim line)) (Js.split_LF text).

(** [trimmed.match(/^label/i)] *)
Definition hasLabel (label : string) (trimmed : jsstring) : bool :=
  Js.matches_at true (u label) trimmed.

(** [trimmed.replace(/^label/i, '')] *)
Definition stripLabel (label : string) (trimmed : jsstring) : jsstring :=
  if hasLabel label trimmed then skipn (length (u label)) trimmed else trimmed.

(** What follows the first colon, if there is one. *)
Fixpoint afterColon (s : jsstring) : option jsstring :=
  match s with
  | [] => None
  | c :: s' => if c =? 58 then Some s' else afterColon s'
  end.

(** [trimmed.replace(/^Suggested Reply[^:]*:/i, '')]: the label, then
    all units up to the first colon, and that colon; without a colon the
    pattern does not match and nothing is replaced. *)
Definition stripReplyLabel (trimmed : jsstring) : jsstring :=
  if hasLabel "Suggested Reply" trimmed
  then match afterColon (skipn (length (u "Suggested Reply")) trimmed) with
       | Some rest => rest
       | None => trimmed
       end
  else trimmed.

(** [parseInt] of a run of decimal digits: the Number value of the
    integer they write. *)
Definition parseInt (digits : jsstring) : number :=
  number_of_Z (Js.digits_value 0 digits).

Definition set_riskLevel (v : jsstring) (r : result) : result :=
  {| r_riskLevel := v; r_reason := r_reason r;
     r_businessImpact := r_businessImpact r;
     r_recommendedAction := r_recommendedAction r;
     r_suggestedReply := r_suggestedReply r;
     r_leadQualityScore := r_leadQualityScore r;
     r_businessInsight := r_businessInsight r |}.

Definition set_reason (v : jsstring) (r : result) : result :=
  {| r_riskLevel := r_riskLevel r; r_reason := v;
     r_businessImpact := r_businessImpact r;
     r_recommendedAction := r_recommendedAction r;
     r_suggestedReply := r_suggestedReply r;
     r_leadQualityScore := r_leadQualityScore r;
     r_businessInsight := r_businessInsight r |}.

Definition set_businessImpact (v : jsstring) (r : result) : result :=
  {| r_riskLevel := r_riskLevel r; r_reason := r_reason r;
     r_businessImpact := v;
     r_recommendedAction := r_recommendedAction r;
     r_suggestedReply := r_suggestedReply r;
     r_leadQualityScore := r_leadQualityScore r;
     r_businessInsight := r_businessInsight r |}.

Definition set_recommendedAction (v : jsstring) (r : result) : result :=
  {| r_riskLevel := r_riskLevel r; r_reason := r_reason r;
     r_businessImpact := r_businessImpact r;
     r_recommendedAction := v;
     r_suggestedReply := r_suggestedReply r;
     r_leadQualityScore := r_leadQualityScore r;
     r_businessInsight := r_businessInsight r |}.

Definition set_suggestedReply (v : jsstring) (r : result) : result :=
  {| r_riskLevel := r_riskLevel r; r_reason := r_reason r;
     r_businessImpact := r_businessImpact r;
     r_recommendedAction := r_recommendedAction r;
     r_suggestedReply := Some v;
     r_leadQualityScore := r_leadQualityScore r;
     r_businessInsight := r_businessInsight r |}.

Definition set_leadQualityScore (v : number) (r : result) : result :=
  {| r_riskLevel := r_riskLevel r; r_reason := r_reason r;
     r_businessImpact := r_businessImpact r;
     r_recommendedAction := r_recommendedAction r;
     r_suggestedReply := r_suggestedReply r;
     r_leadQualityScore := Some v;
     r_businessInsight := r_businessInsight r |}.

Definition set_businessInsight (v : jsstring) (r : result) : result :=
  {| r_riskLevel := r_riskLevel r; r_reason := r_reason r;
     r_businessImpact := r_businessImpact r;
     r_recommendedAction := r_recommendedAction r;
     r_suggestedReply := r_suggestedReply r;
     r_leadQualityScore := r_leadQualityScore r;
     r_businessInsight := v |}.

(** [result.suggestedReply || ''] *)
Definition replyOrEmpty (r : result) : jsstring :=
  match r_suggestedReply r with
  | Some s => if Js.nonEmpty s then s else []
  | None => []
  end.

(** Lines 131-141: a line without label, under the cursor [f].  The
    score is a number when present, so a line under its cursor changes
    nothing. *)
Definition continue (f : field) (trimmed : jsstring) (r : result) : result :=
  match f with
  | F_suggestedReply => set_suggestedReply (replyOrEmpty r ++ [Js.LF] ++ trimmed) r
  | F_riskLevel => set_riskLevel (r_riskLevel r ++ [32] ++ trimmed) r
  | F_reason => set_reason (r_reason r ++ [32] ++ trimmed) r
  | F_businessImpact => set_businessImpact (r_businessImpact r ++ [32] ++ trimmed) r
  | F_recommendedAction =>
      set_recommendedAction (r_recommendedAction r ++ [32] ++ trimmed) r
  | F_businessInsight => set_businessInsight (r_businessInsight r ++ [32] ++ trimmed) r
  | F_leadQualityScore => r
  end.

(** The body of the loop, lines 106-141. *)
Definition step (st : state) (line : jsstring) : state :=
  let trimmed := Js.trim line in
  let r := res st in
  if hasLabel "Risk Level:" trimmed then
    {| currentField := Some F_riskLevel;
       res := set_riskLevel (Js.trim (stripLabel "Risk Level:" trimmed)) r |}
  else if hasLabel "Reason:" trimmed then
    {| currentField := Some F_reason;
       res := set_reason (Js.trim (stripLabel "Reason:" trimmed)) r |}
  else if hasLabel "Business Impact:" trimmed then
    {| currentField := Some F_businessImpact;
       res := set_businessImpact
                (Js.trim (stripLabel "Business Impact:" trimmed)) r |}
  else if hasLabel "Recommended Action:" trimmed then
    {| currentField := Some F_recommendedAction;
       res := set_recommendedAction
                (Js.trim (stripLabel "Recommended Action:" trimmed)) r |}
  else if hasLabel "Suggested Reply" trimmed then
    let reply := Js.trim (stripReplyLabel trimmed) in
    {| currentField := Some F_suggestedReply;
       res := if Js.nonEmpty reply then set_suggestedReply reply r else r |}
  else if hasLabel "Lead Quality Score" trimmed then
    {| currentField := Some F_leadQualityScore;
       res := match Js.match_digits trimmed with
              | Some digits => set_leadQualityScore (parseInt digits) r
              | None => r
              end |}
  else if hasLabel "Business Insight:" trimmed then
    {| currentField := Some F_businessInsight;
       res := set_businessInsight
                (Js.trim (stripLabel "Business Insight:" trimmed)) r |}
  else
    match Js.nonEmpty trimmed, currentField st with
    | true, Some f => {| currentField := Some f; res := continue f trimmed r |}
    | _, _ => st
    end.

(** The loop over the lines. *)
Definition scan (ls : list jsstring) (st : state) : state :=
  fold_left step ls st.

Definition opt {A : Type} (inj : A -> JsValue) (o : option A) : JsValue :=
  match o with Some a => inj a | None => JUndefined end.

(** The scanner's object as the route returns it. *)
Definition toResult (r : result) : AnalysisResult :=
  {| riskLevel := JString (r_riskLevel r);
     reason := JString (r_reason r);
     businessImpact := JString (r_businessImpact r);
     recommendedAction := JString (r_recommendedAction r);
     suggestedReply := opt JString (r_suggestedReply r);
     leadQualityScore := opt JNumber (r_leadQualityScore r);
     businessInsight := JString (r_businessInsight r) |}.

End Scan.

(** The second path, lines 93-144. *)
Definition scanLines (text : jsstring) : AnalysisResult :=
  Scan.toResult (Scan.res (Scan.scan (Scan.lines text) Scan.initial)).

(** What the function writes with [console.error]: one entry per call. *)
Inductive logEntry : Type := JsonParsingFailed.

(** [parseAnalysisResponse] with its effect on the console: the result and
    the console afterwards. *)
Definition parseAnalysisResponse_io (text : jsstring) (console : list logEntry)
    : AnalysisResult * list logEntry :=
  match tryJson text with
  | Returned r => (r, console)
  | NoMatch => (scanLines text, console)
  | Thrown => (scanLines text, console ++ [JsonParsingFailed])
  end.

Definition parseAnalysisResponse (text : jsstring) : AnalysisResult :=
  fst (parseAnalysisResponse_io text []).

(** ** [JSON.stringify] of a result, as [NextResponse.json] sends it *)

Module Stringify.

Definition isHigh (c : N) : bool := Js.between 55296 56319 c.
Definition isLow (c : N) : bool := Js.between 56320 57343 c.

Definition hex_digit (n : N) : N := if n <? 10 then 48 + n else 87 + n.

(** UnicodeEscape: a backslash, [u] and four lower-case hex digits. *)
Definition unicodeEscape (c : N) : jsstring :=
  [92; 117; hex_digit ((c / 4096) mod 16); hex_digit ((c / 256) mod 16);
   hex_digit ((c / 16) mod 16); hex_digit (c mod 16)].

(** One code unit that is not a surrogate, inside QuoteJSONString. *)
Definition quoteUnit (c : N) : jsstring :=
  if c =? 8 then [92; 98]
  else if c =? 9 then [92; 116]
  else if c =? 10 then [92; 110]
  else if c =? 12 then [92; 102]
  else if c =? 13 then [92; 114]
  else if c =? 34 then [92; 34]
  else if c =? 92 then [92; 92]
  else if c <? 32 then unicodeEscape c
  else [c].

(** QuoteJSONString goes through the code points: a surrogate pair is
    copied, a surrogate on its own is escaped. *)
Fixpoint quoteUnits (s : jsstring) : jsstring :=
  match s with
  | [] => []
  | c :: s' =>
      if isHigh c then
        match s' with
        | d :: s'' =>
            if isLow d then c :: d :: quoteUnits s''
            else unicodeEscape c ++ quoteUnits s'
        | [] => unicodeEscape c
        end
      else if isLow c then unicodeEscape c ++ quoteUnits s'
      else quoteUnit c ++ quoteUnits s'
  end.

Definition quote (s : jsstring) : jsstring := [34] ++ quoteUnits s ++ [34].

(** The integer a finite number is, if it is one. *)
Definition integer_of_number (x : number) : option Z :=
  match x with
  | S754_zero _ => Some 0%Z
  | S754_finite s m e =>
      let z := cond_Zopp s (Z.pos m) in
      if (0 <=? e)%Z then Some (z * 2 ^ e)%Z
      else if (Z.pos m mod 2 ^ (- e) =? 0)%Z then Some (z / 2 ^ (- e))%Z
      else None
  | _ => None
  end.

(** A number as [JSON.stringify] writes it: [null] when it is not finite,
    the decimal digits of an integer below 10^21 in magnitude.  Other
    numbers are outside this embedding ([None]). *)
Definition numberText (x : number) : option jsstring :=
  match x with
  | S754_nan | S754_infinity _ => Some (u "null")
  | _ =>
      match integer_of_number x with
      | Some z => if (Z.abs z <? 10 ^ 21)%Z then Some (Js.string_of_Z z) else None
      | None => None
      end
  end.

Definition member (name : string) (value : jsstring) : jsstring :=
  quote (u name) ++ [58] ++ value.

(** The members of an object, with a comma between two of them. *)
Fixpoint join (members : list jsstring) : jsstring :=
  match members with
  | [] => []
  | [m] => m
  | m :: rest => m ++ [44] ++ join rest
  end.

Definition object (members : list jsstring) : jsstring :=
  [123] ++ join members ++ [125].

(** [JSON.stringify(result)] for a result whose fields have the types
    the interface declares; the members come in the order of the object
    literal, an undefined [suggestedReply] is left out. *)
Definition result (r : AnalysisResult) : option jsstring :=
  match riskLevel r, reason r, businessImpact r, recommendedAction r,
        leadQualityScore r, businessInsight r with
  | JString rl, JString re, JString bi, JString ra, JNumber lq, JString ins =>
      match numberText lq, suggestedReply r with
      | Some digits, JUndefined =>
          Some (object [member "riskLevel" (quote rl);
                        member "reason" (quote re);
                        member "businessImpact" (quote bi);
                        member "recommendedAction" (quote ra);
                        member "leadQualityScore" digits;
                        member "businessInsight" (quote ins)])
      | Some digits, JString sr =>
          Some (object [member "riskLevel" (quote rl);
                        member "reason" (quote re);
                        member "businessImpact" (quote bi);
                        member "recommendedAction" (quote ra);
                        member "suggestedReply" (quote sr);
                        member "leadQualityScore" digits;
                        member "businessInsight" (quote ins)])
      | _, _ => None
      end
  | _, _, _, _, _, _ => None
  end.

End Stringify.

(** ** The vocabulary of the specification *)

(** A text written with an apostrophe where JSON has a quotation mark. *)
Definition q (s : string) : jsstring :=
  map (fun c => if c =? 39 then 34 else c) (u s).

(** The two conditions of the risk classification. *)
Definition highRisk (message : jsstring) : bool :=
  (isFraud message || (hasUrgency message && requestsInfo message))
  && hasUrl message.

Definition suspicious (message : jsstring) : bool :=
  hasUrgency message || requestsInfo message
  || (hasUrl message && isFraud message).

(** The specification's reading of the signal [hasUrl]: its table heads all
    six signals as tests without regard to case. *)
Definition hasUrl_spec (message : jsstring) : bool :=
  Js.test_alternation true (map u ["http://"; "https://"]%string) message.

(** The risk level the specification gives with that reading. *)
Definition riskLevel_spec (message : jsstring) : jsstring :=
  if (isFraud message || (hasUrgency message && requestsInfo message))
     && hasUrl_spec message
  then HighRiskFraud
  else if hasUrgency message || requestsInfo message
          || (hasUrl_spec message && isFraud message)
  then Suspicious
  else Safe.

(** ASCII letters turned to upper case, to state that a test ignores case. *)
Definition upperCase (s : jsstring) : jsstring := map Js.canonicalize s.

(** The lead score as the specification computes it. *)
Definition b2z (b : bool) : Z := if b then 1%Z else 0%Z.

Definition contains (message : jsstring) (word : string) : bool :=
  Js.includes (lowerMessage message) (u word).

Definition score_spec (message : jsstring) : Z :=
  Z.min (5 + 2 * b2z (contains message "budget")
           + b2z (contains message "timeline" || contains message "when")
           + b2z (contains message "demo" || contains message "meeting")
           + b2z (200 <? length message)%nat)%Z 10.

(** One of the defined risk levels. *)
Definition isLevel (v : JsValue) : Prop :=
  v = JString Safe \/ v = JString Suspicious \/ v = JString HighRiskFraud
  \/ v = JString Unknown.

(** An integer score between 0 and 10. *)
Definition isScore (v : JsValue) : Prop :=
  exists n : Z, (0 <= n <= 10)%Z /\ v = JNumber (number_of_Z n).

Definition isNonEmptyString (v : JsValue) : Prop :=
  exists s, v = JString s /\ s <> [].

(** A valid result as the round-trip property takes it: a defined level,
    the four narrative fields not empty, an integer score in 0..10, and a
    reply that is absent or a string. *)
Definition valid (r : AnalysisResult) : Prop :=
  isLevel (riskLevel r)
  /\ isNonEmptyString (reason r)
  /\ isNonEmptyString (businessImpact r)
  /\ isNonEmptyString (recommendedAction r)
  /\ isNonEmptyString (businessInsight r)
  /\ (suggestedReply r = JUndefined \/ exists s, suggestedReply r = JString s)
  /\ isScore (leadQualityScore r).

(** No label of the line scanner starts the (trimmed) line. *)
Definition noLabel (trimmed : jsstring) : Prop :=
  Scan.hasLabel "Risk Level:" trimmed = false
  /\ Scan.hasLabel "Reason:" trimmed = false
  /\ Scan.hasLabel "Business Impact:" trimmed = false
  /\ Scan.hasLabel "Recommended Action:" trimmed = false
  /\ Scan.hasLabel "Suggested Reply" trimmed = false
  /\ Scan.hasLabel "Lead Quality Score" trimmed = false
  /\ Scan.hasLabel "Business Insight:" trimmed = false.

(** The same as a test. *)
Definition noLabelb (trimmed : jsstring) : bool :=
  negb (Scan.hasLabel "Risk Level:" trimmed
        || Scan.hasLabel "Reason:" trimmed
        || Scan.hasLabel "Business Impact:" trimmed
        || Scan.hasLabel "Recommended Action:" trimmed
        || Scan.hasLabel "Suggested Reply" trimmed
        || Scan.hasLabel "Lead Quality Score" trimmed
        || Scan.hasLabel "Business Insight:" trimmed).

(** The result of the line scanner when it has stored nothing. *)
Definition emptyResult : AnalysisResult :=
  {| riskLevel := JString Unknown;
     reason := JString [];
     businessImpact := JString [];
     recommendedAction := JString [];
     suggestedReply := JUndefined;
     leadQualityScore := JUndefined;
     businessInsight := JString [] |}.

(** The value of a member, [undefined] when there is none. *)
Definition prop (name : string) (props : list (jsstring * JsValue)) : JsValue :=
  match lookup (u name) props with
  | Some v => v
  | None => JUndefined
  end.

(** A valid result whose reply is present and empty. *)
Definition emptyReplyResult : AnalysisResult :=
  {| riskLevel := JString Safe;
     reason := JString reason_safe;
     businessImpact := JString impact_default;
     recommendedAction := JString action_default;
     suggestedReply := JString [];
     leadQualityScore := JNumber (number_of_Z 0);
     businessInsight := JString insight_default |}.

(** ** Invariant of the JSON parser: what is open at the bottom *)

Definition isObjectFrame (f : Json.frame) : bool :=
  match f with Json.InObject _ _ => true | Json.InArray _ => false end.

(** The outermost open container is an object. *)
Definition bottomObject (st : list Json.frame) : bool :=
  isObjectFrame (last st (Json.InArray [])).

(** The same, when an object is being read inside [st]. *)
Definition insideObject (st : list Json.frame) : bool :=
  match st with [] => true | _ :: _ => bottomObject st end.

Definition isObject (v : JsValue) : bool :=
  match v with JObject _ => true | _ => false end.

(** The parser is reading a text whose outermost value is an object. *)
Definition readsObject (p : Json.pstate) : bool :=
  match p with
  | Json.ExpValue st | Json.ExpFirstElem st | Json.ExpMoreArr _ st =>
      bottomObject st
  | Json.ExpFirstKey st | Json.ExpKey _ st | Json.ExpColon _ _ st
  | Json.ExpMoreObj _ st => insideObject st
  | Json.Done v => isObject v
  end.

(** ** The model-backed analyzers and the route handler [POST] *)

(** What a call to a remote model amounts to for the route: the text of
    the answer, or a failure (the request fails, the status is not ok, the
    answer is not of the expected shape or its text is not a string: each
    makes [analyzeWithClaude] or [analyzeWithOpenAI] throw).  The request
    they build and the remote service are outside this embedding. *)
Inductive apiReply : Type :=
| ApiFailed
| ApiText (text : jsstring).

(** A remote model, asked with the three values the handler passes on. *)
Definition provider : Type := jsstring -> JsValue -> JsValue -> apiReply.

(** Lines 147-185 and 187-229: the answer's text goes through the
    response parser; [None] when the function throws. *)
Definition analyzeWith (remote : provider) (message : jsstring)
    (senderInfo context : JsValue) : option AnalysisResult :=
  match remote message senderInfo context with
  | ApiText text => Some (parseAnalysisResponse text)
  | ApiFailed => None
  end.

(** [process.env]: a variable is a string or missing. *)
Record env : Type := {
  ANTHROPIC_API_KEY : option jsstring;
  OPENAI_API_KEY : option jsstring
}.

(** ToBoolean of an environment variable. *)
Definition isSet (variable : option jsstring) : bool :=
  match variable with
  | Some s => Js.nonEmpty s
  | None => false
  end.

(** What the handler answers. *)
Inductive response : Type :=
| Ok (result : AnalysisResult)     (* status 200, the result as JSON *)
| BadRequest                       (* status 400, Message is required *)
| ServerError.                     (* status 500, Failed to analyze message *)

(** An optional string parameter as the fallback analyzer declares it. *)
Definition optionalString (v : JsValue) : option jsstring :=
  match v with
  | JString s => Some s
  | _ => None
  end.

(** Lines 336-358: the choice of the analyzer.  A failure of OpenAI after
    a failure of Claude is not caught by the inner handler and reaches the
    outer one. *)
Definition selectAnalyzer (claude openai : provider) (e : env)
    (message : jsstring) (senderInfo context : JsValue) : response :=
  let fallback :=
    Ok (analyzeWithFallback message (optionalString senderInfo)
          (optionalString context)) in
  if isSet (ANTHROPIC_API_KEY e) then
    match analyzeWith claude message senderInfo context with
    | Some result => Ok result
    | None =>
        if isSet (OPENAI_API_KEY e) then
          match analyzeWith openai message senderInfo context with
          | Some result => Ok result
          | None => ServerError
          end
        else fallback
    end
  else if isSet (OPENAI_API_KEY e) then
    match analyzeWith openai message senderInfo context with
    | Some result => Ok result
    | None => fallback
    end
  else fallback.

(** Lines 324-368: [POST], on the text of the request body.
    [request.json()] rejects a body that is not JSON, and destructuring
    [null] throws: both end in the outer handler. *)
Definition POST (claude openai : provider) (e : env) (body : jsstring)
    : response :=
  match Json.parse body with
  | None => ServerError
  | Some parsed =>
      match get parsed (u "message"), get parsed (u "senderInfo"),
            get parsed (u "context") with
      | Some message, Some senderInfo, Some context =>
          match message with
          | JString m =>
              if Js.nonEmpty m
              then selectAnalyzer claude openai e m senderInfo context
              else BadRequest
          | _ => BadRequest
          end
      | _, _, _ => ServerError
      end
  end.

(** ** The page: [src/app/page.tsx] *)

Module Page.

Definition green : jsstring := u "text-green-600 bg-green-50 border-green-200".
Definition yellow : jsstring := u "text-yellow-600 bg-yellow-50 border-yellow-200".
Definition red : jsstring := u "text-red-600 bg-red-50 border-red-200".
Definition gray : jsstring := u "text-gray-600 bg-gray-50 border-gray-200".

(** Lines 60-66. *)
Definition getRiskColor (riskLevel : jsstring) : jsstring :=
  let level := Js.toLowerCase riskLevel in
  if Js.includes level (u "safe") then green
  else if Js.includes level (u "suspicious") then yellow
  else if Js.includes level (u "high") || Js.includes level (u "fraud") then red
  else gray.

(** What [analyzeMessage] does with the form: it shows an error and sends
    nothing, or it sends a request with this body. *)
Inductive submission : Type :=
| Refused (error : jsstring)
| Sent (body : jsstring).

(** Lines 39-43: [JSON.stringify] of the three fields of the form, which
    are strings. *)
Definition requestBody (message senderInfo context : jsstring) : jsstring :=
  Stringify.object
    [Stringify.member "message" (Stringify.quote message);
     Stringify.member "senderInfo" (Stringify.quote senderInfo);
     Stringify.member "context" (Stringify.quote context)].

(** Lines 23-45. *)
Definition analyzeMessage (message senderInfo context : jsstring) : submission :=
  if Js.nonEmpty (Js.trim message)
  then Sent (requestBody message senderInfo context)
  else Refused (u "Please enter a message to analyze").

End Page.

(** ** Further vocabulary *)

(** A value that is neither [undefined] nor [null]. *)
Definition isDefined (v : JsValue) : Prop := v <> JUndefined /\ v <> JNull.

(** What the line scanner can hold as reply: nothing, or a string that is
    not empty. *)
Definition replyRead (o : option jsstring) : Prop :=
  o = None \/ exists s, o = Some s /\ s <> [].

(** No unit of the string is the given one. *)
Definition without (c : N) (s : jsstring) : Prop := Forall (fun x => x <> c) s.

(** The three levels of the fallback analyzer in their order of severity. *)
Definition severity (message : jsstring) : nat :=
  let level := fst (classify message) in
  if Js.eqb level HighRiskFraud then 2%nat
  else if Js.eqb level Suspicious then 1%nat
  else 0%nat.

(** An environment without keys. *)
Definition noKeys : env :=
  {| ANTHROPIC_API_KEY := None; OPENAI_API_KEY := None |}.

(** ** The line path, line by line *)

(** The texts of the labels, lines 108-129. *)
Definition labelText (f : Scan.field) : string :=
  match f with
  | Scan.F_riskLevel => "Risk Level:"
  | Scan.F_reason => "Reason:"
  | Scan.F_businessImpact => "Business Impact:"
  | Scan.F_recommendedAction => "Recommended Action:"
  | Scan.F_suggestedReply => "Suggested Reply"
  | Scan.F_leadQualityScore => "Lead Quality Score"
  | Scan.F_businessInsight => "Business Insight:"
  end.

(** The label that starts a trimmed line: the first test of the loop that
    succeeds, in the order of the source. *)
Definition labelOf (trimmed : jsstring) : option Scan.field :=
  if Scan.hasLabel "Risk Level:" trimmed then Some Scan.F_riskLevel
  else if Scan.hasLabel "Reason:" trimmed then Some Scan.F_reason
  else if Scan.hasLabel "Business Impact:" trimmed then Some Scan.F_businessImpact
  else if Scan.hasLabel "Recommended Action:" trimmed
       then Some Scan.F_recommendedAction
  else if Scan.hasLabel "Suggested Reply" trimmed then Some Scan.F_suggestedReply
  else if Scan.hasLabel "Lead Quality Score" trimmed
       then Some Scan.F_leadQualityScore
  else if Scan.hasLabel "Business Insight:" trimmed
       then Some Scan.F_businessInsight
  else None.

(** A field of the result, by its name. *)
Definition fieldOf (f : Scan.field) (r : AnalysisResult) : JsValue :=
  match f with
  | Scan.F_riskLevel => riskLevel r
  | Scan.F_reason => reason r
  | Scan.F_businessImpact => businessImpact r
  | Scan.F_recommendedAction => recommendedAction r
  | Scan.F_suggestedReply => suggestedReply r
  | Scan.F_leadQualityScore => leadQualityScore r
  | Scan.F_businessInsight => businessInsight r
  end.

(** The fields that are strings from the start of the loop; the reply is
    unset at first and the score is a number. *)
Definition isStringField (f : Scan.field) : bool :=
  match f with
  | Scan.F_suggestedReply | Scan.F_leadQualityScore => false
  | _ => true
  end.

(** The lines without label at the head of [ls]: those that continue the
    label line before them. *)
Fixpoint continuation (ls : list jsstring) : list jsstring :=
  match ls with
  | [] => []
  | l :: ls' =>
      match labelOf (Js.trim l) with
      | None => l :: continuation ls'
      | Some _ => []
      end
  end.

(** [value], then each line, trimmed, after the separator. *)
Definition joined (sep value : jsstring) (ls : list jsstring) : jsstring :=
  fold_left (fun acc l => acc ++ sep ++ Js.trim l) ls value.

(** The score a line gives: it starts with the score label and has a
    digit. *)
Definition scoreOnLine (line : jsstring) : option number :=
  match labelOf (Js.trim line) with
  | Some Scan.F_leadQualityScore =>
      option_map Scan.parseInt (Js.match_digits (Js.trim line))
  | _ => None
  end.

(** The result of the JSON path when no member is kept. *)
Definition placeholders : AnalysisResult :=
  {| riskLevel := JString Unknown;
     reason := JString default_reason;
     businessImpact := JString default_businessImpact;
     recommendedAction := JString default_recommendedAction;
     suggestedReply := JUndefined;
     leadQualityScore := JNumber (number_of_Z 0);
     businessInsight := JString default_businessInsight |}.

(** The JSON path does not return: there is no brace span, or
    [JSON.parse] rejects it. *)
Definition linePath (text : jsstring) : Prop :=
  jsonMatch text = None
  \/ exists span, jsonMatch text = Some span /\ Json.parse span = None.

(** * Properties *)

(** ** The rule-based analyzer *)

Lemma levels_distinct :
  Safe <> Suspicious /\ Safe <> HighRiskFraud /\ Suspicious <> HighRiskFraud.
Proof. repeat split; discriminate. Qed.

(** The three outcomes of [classify], by the two conditions. *)
Lemma classify_cases (message : jsstring) :
  (highRisk message = true /\ classify message = (HighRiskFraud, reason_fraud))
  \/ (highRisk message = false /\ suspicious message = true
      /\ classify message = (Suspicious, reason_suspicious))
  \/ (highRisk message = false /\ suspicious message = false
      /\ classify message = (Safe, reason_safe)).
Proof.
  unfold classify, highRisk, suspicious.
  destruct ((isFraud message || hasUrgency message && requestsInfo message)
            && hasUrl message); [left; auto|].
  destruct (hasUrgency message || requestsInfo message
            || hasUrl message && isFraud message); right; [left|right]; auto.
Qed.

Lemma riskLevel_analyze (message : jsstring) (senderInfo context : option jsstring) :
  riskLevel (analyzeWithFallback message senderInfo context)
  = JString (fst (classify message)).
Proof.
  unfold analyzeWithFallback. destruct (classify message) as [rl re]. reflexivity.
Qed.

Lemma suggestedReply_analyze (message : jsstring) (senderInfo context : option jsstring) :
  suggestedReply (analyzeWithFallback message senderInfo context)
  = let riskLevel := fst (classify message) in
    if Js.eqb riskLevel Safe && isSales message then JString reply_sales
    else if isComplaint message then JString reply_complaint
    else if Js.eqb riskLevel Safe then JString reply_generic
    else JUndefined.
Proof.
  unfold analyzeWithFallback. destruct (classify message) as [rl re]. reflexivity.
Qed.

Lemma leadQualityScore_analyze (message : jsstring) (senderInfo context : option jsstring) :
  leadQualityScore (analyzeWithFallback message senderInfo context)
  = JNumber (number_of_Z (score message (fst (classify message)))).
Proof.
  unfold analyzeWithFallback. destruct (classify message) as [rl re]. reflexivity.
Qed.

(** *** Case and the six signals *)

Lemma between_spec (lo hi c : N) :
  Js.between lo hi c = true <-> lo <= c <= hi.
Proof.
  unfold Js.between. rewrite andb_true_iff, !N.leb_le. tauto.
Qed.

Lemma canonicalize_idem (c : N) :
  Js.canonicalize (Js.canonicalize c) = Js.canonicalize c.
Proof.
  unfold Js.canonicalize.
  destruct (Js.between 97 122 c) eqn:E; [|rewrite E; reflexivity].
  apply between_spec in E.
  destruct (Js.between 97 122 (c - 32)) eqn:E'; [|reflexivity].
  apply between_spec in E'. lia.
Qed.

Lemma toLowerCase_canonicalize (c : N) :
  Js.toLowerCase_unit (Js.canonicalize c) = Js.toLowerCase_unit c.
Proof.
  unfold Js.canonicalize.
  destruct (Js.between 97 122 c) eqn:E; [|reflexivity].
  apply between_spec in E. unfold Js.toLowerCase_unit.
  assert (H1 : Js.between 65 90 (c - 32) = true) by (apply between_spec; lia).
  rewrite H1. cbn [orb].
  assert (H2 : Js.between 65 90 c = false).
  { destruct (Js.between 65 90 c) eqn:F; [apply between_spec in F; lia|reflexivity]. }
  assert (H3 : Js.between 192 222 c = false).
  { destruct (Js.between 192 222 c) eqn:F; [apply between_spec in F; lia|reflexivity]. }
  rewrite H2, H3. cbn [orb andb].
  assert (H4 : (c =? 304) = false) by (apply N.eqb_neq; lia).
  assert (H5 : (c =? 8490) = false) by (apply N.eqb_neq; lia).
  rewrite H4, H5. f_equal. lia.
Qed.

Lemma toLowerCase_upperCase (s : jsstring) :
  Js.toLowerCase (upperCase s) = Js.toLowerCase s.
Proof.
  unfold Js.toLowerCase, upperCase.
  induction s as [|c s IH]; [reflexivity|].
  cbn [map flat_map]. rewrite toLowerCase_canonicalize, IH. reflexivity.
Qed.

Lemma matches_at_upperCase (p s : jsstring) :
  Js.matches_at true p (upperCase s) = Js.matches_at true p s.
Proof.
  revert s. induction p as [|a p IH]; intros [|b s]; try reflexivity.
  cbn [upperCase map Js.matches_at Js.unit_eqb].
  rewrite canonicalize_idem. f_equal. apply IH.
Qed.

Lemma search_upperCase (p s : jsstring) :
  Js.search true p (upperCase s) = Js.search true p s.
Proof.
  induction s as [|b s IH].
  - reflexivity.
  - change (upperCase (b :: s)) with (Js.canonicalize b :: upperCase s).
    cbn [Js.search]. rewrite IH. f_equal.
    apply (matches_at_upperCase p (b :: s)).
Qed.

Lemma test_ignoreCase_upperCase (alts : list jsstring) (s : jsstring) :
  Js.test_alternation true alts (upperCase s) = Js.test_alternation true alts s.
Proof.
  unfold Js.test_alternation. induction alts as [|p alts IH]; [reflexivity|].
  cbn [existsb]. rewrite search_upperCase, IH. reflexivity.
Qed.

(** The five signals other than [hasUrl] do not see the case of ASCII
    letters. *)
Lemma signals_ignore_case (message : jsstring) :
  isFraud (upperCase message) = isFraud message
  /\ isSales (upperCase message) = isSales message
  /\ isComplaint (upperCase message) = isComplaint message
  /\ hasUrgency (upperCase message) = hasUrgency message
  /\ requestsInfo (upperCase message) = requestsInfo message.
Proof.
  unfold isFraud, isSales, isComplaint, lowerMessage, hasUrgency, requestsInfo.
  rewrite toLowerCase_upperCase, !test_ignoreCase_upperCase. repeat split.
Qed.

(** *** C1: the risk classification *)

(** C1: the claim takes all six signals as tests that ignore case, and
    so do five of them in the code; [hasUrl] alone lacks the flag [i] its
    two sibling patterns have.  On a message with a fraud keyword and a URL
    whose scheme is written Https the claim gives High Risk Fraud and
    the analyzer answers Safe; with the scheme in lower case it answers
    High Risk Fraud. *)
Theorem C1_mixed_case_scheme_is_missed :
  let message := u "Verify your login at Https://evil.example" in
  let lower := u "Verify your login at https://evil.example" in
  isFraud message = true
  /\ hasUrl_spec message = true
  /\ hasUrl message = false
  /\ riskLevel_spec message = HighRiskFraud
  /\ riskLevel (analyzeWithFallback message None None) = JString Safe
  /\ riskLevel (analyzeWithFallback lower None None) = JString HighRiskFraud
  /\ riskLevel (analyzeWithFallback message None None)
     <> JString (riskLevel_spec message).
Proof.
  vm_compute. repeat split; discriminate.
Qed.

(** The three rules as the code evaluates them: the risk level is High
    Risk Fraud exactly when (isFraud or (hasUrgency and requestsInfo)) and
    hasUrl; otherwise Suspicious exactly when hasUrgency or requestsInfo or
    (hasUrl and isFraud); otherwise Safe; first match wins.  The signals
    isFraud, hasUrgency and requestsInfo (and isSales, isComplaint) ignore
    the case of the message; hasUrl here is the test of the source, which
    does not. *)
Theorem C1_risk_classification
    (message : jsstring) (senderInfo context : option jsstring) :
  let r := analyzeWithFallback message senderInfo context in
  (riskLevel r = JString HighRiskFraud <-> highRisk message = true)
  /\ (riskLevel r = JString Suspicious
      <-> highRisk message = false /\ suspicious message = true)
  /\ (riskLevel r = JString Safe
      <-> highRisk message = false /\ suspicious message = false)
  /\ isFraud (upperCase message) = isFraud message
  /\ hasUrgency (upperCase message) = hasUrgency message
  /\ requestsInfo (upperCase message) = requestsInfo message.
Proof.
  cbv zeta. rewrite riskLevel_analyze.
  destruct (signals_ignore_case message) as (Hf & _ & _ & Hu & Hr).
  destruct levels_distinct as (D1 & D2 & D3).
  destruct (classify_cases message) as [(H & E)|[(H & S & E)|(H & S & E)]];
    rewrite E, H; cbn [fst]; repeat split; auto;
    try (intros X; injection X as X; congruence);
    try (intros X; destruct X; congruence);
    try congruence.
Qed.

(** A message with "urgent" and no URL is Suspicious, not High Risk Fraud. *)
Lemma urgent_alone_is_suspicious :
  riskLevel (analyzeWithFallback (u "This is urgent") None None)
  = JString Suspicious.
Proof. vm_compute. reflexivity. Qed.

Lemma fraud_with_url_is_high_risk :
  riskLevel (analyzeWithFallback
               (u "urgent: wire the money, send password at https://x.com")
               None None)
  = JString HighRiskFraud.
Proof. vm_compute. reflexivity. Qed.

(** The risk level is Safe exactly when neither condition holds. *)
Lemma classify_safe (message : jsstring) :
  Js.eqb (fst (classify message)) Safe
  = negb (highRisk message) && negb (suspicious message).
Proof.
  destruct (classify_cases message) as [(H & E)|[(H & S & E)|(H & S & E)]];
    rewrite E, H; try rewrite S; reflexivity.
Qed.

Lemma riskLevel_safe_iff
    (message : jsstring) (senderInfo context : option jsstring) :
  riskLevel (analyzeWithFallback message senderInfo context) = JString Safe
  <-> negb (highRisk message) && negb (suspicious message) = true.
Proof.
  rewrite riskLevel_analyze.
  destruct levels_distinct as (D1 & D2 & D3).
  destruct (classify_cases message) as [(H & E)|[(H & S & E)|(H & S & E)]];
    rewrite E, H; try rewrite S; cbn [fst negb andb]; split; intros X;
    try reflexivity; try discriminate; injection X as X; congruence.
Qed.

Lemma JString_inj (a b : jsstring) : JString a = JString b -> a = b.
Proof. intros H. injection H as H. exact H. Qed.

Lemma replies_distinct :
  reply_sales <> reply_complaint /\ reply_sales <> reply_generic
  /\ reply_complaint <> reply_generic.
Proof. repeat split; discriminate. Qed.

(** *** C4: the suggested reply *)

(** C4, as stated, fails in its last clause: a risk level that is not Safe
    does not override the complaint reply.  "urgent refund" is Suspicious
    and a complaint, and gets the apology template. *)
Lemma C4_complaint_reply_despite_risk :
  ~ (forall message senderInfo context,
       let r := analyzeWithFallback message senderInfo context in
       suggestedReply r = JString reply_complaint ->
       riskLevel r = JString Safe).
Proof.
  intros H. specialize (H (u "urgent refund") None None).
  cbv zeta in H.
  assert (E : suggestedReply (analyzeWithFallback (u "urgent refund") None None)
              = JString reply_complaint) by (vm_compute; reflexivity).
  specialize (H E). vm_compute in H. discriminate H.
Qed.

(** C4, amended: the reply is the sales template when the risk level is
    Safe and isSales holds; otherwise the apology template when isComplaint
    holds, whatever the risk level; otherwise the generic template when the
    risk level is Safe; otherwise unset.  So it is set exactly when the
    risk level is Safe or isComplaint holds, and a risk level that is not
    Safe never takes the complaint reply away. *)
Theorem C4_suggested_reply
    (message : jsstring) (senderInfo context : option jsstring) :
  let r := analyzeWithFallback message senderInfo context in
  let safe := negb (highRisk message) && negb (suspicious message) in
  (riskLevel r = JString Safe <-> safe = true)
  /\ suggestedReply r
     = (if safe && isSales message then JString reply_sales
        else if isComplaint message then JString reply_complaint
        else if safe then JString reply_generic
        else JUndefined)
  /\ (suggestedReply r <> JUndefined
      <-> safe = true \/ isComplaint message = true).
Proof.
  cbv zeta.
  destruct (riskLevel_safe_iff message senderInfo context) as [Hs1 Hs2].
  rewrite suggestedReply_analyze. cbv zeta. rewrite classify_safe.
  split; [split; assumption|].
  split; [reflexivity|].
  destruct (negb (highRisk message) && negb (suspicious message));
    destruct (isSales message); destruct (isComplaint message); cbn [andb];
    split; intros X; auto; try discriminate; try congruence;
    destruct X; discriminate.
Qed.

(** *** C10: the sales reply comes before the complaint reply *)

(** C10: when the risk level is Safe and both isSales and isComplaint
    hold, the reply is the sales template and not the apology template. *)
Theorem C10_sales_before_complaint
    (message : jsstring) (senderInfo context : option jsstring) :
  riskLevel (analyzeWithFallback message senderInfo context) = JString Safe ->
  isSales message = true ->
  isComplaint message = true ->
  suggestedReply (analyzeWithFallback message senderInfo context)
  = JString reply_sales
  /\ suggestedReply (analyzeWithFallback message senderInfo context)
     <> JString reply_complaint.
Proof.
  intros Hsafe Hsales Hcomplaint.
  apply riskLevel_safe_iff in Hsafe.
  rewrite suggestedReply_analyze. cbv zeta.
  rewrite classify_safe, Hsafe, Hsales. cbn [andb].
  split; [reflexivity|].
  intros X. exact (proj1 replies_distinct (JString_inj _ _ X)).
Qed.

Lemma C10_sales_before_complaint_witness :
  let message := u "I am interested in a demo, but first I want a refund" in
  riskLevel (analyzeWithFallback message None None) = JString Safe
  /\ isSales message = true
  /\ isComplaint message = true
  /\ suggestedReply (analyzeWithFallback message None None) = JString reply_sales
  /\ suggestedReply (analyzeWithFallback message None None)
     <> JString reply_complaint.
Proof.
  cbv zeta.
  assert (H1 : riskLevel (analyzeWithFallback
                 (u "I am interested in a demo, but first I want a refund")
                 None None) = JString Safe) by (vm_compute; reflexivity).
  assert (H2 : isSales (u "I am interested in a demo, but first I want a refund")
               = true) by (vm_compute; reflexivity).
  assert (H3 : isComplaint (u "I am interested in a demo, but first I want a refund")
               = true) by (vm_compute; reflexivity).
  split; [exact H1|]. split; [exact H2|]. split; [exact H3|].
  exact (C10_sales_before_complaint _ None None H1 H2 H3).
Defined.

(** *** C5: the lead quality score *)

Lemma score_spec_range (message : jsstring) :
  (5 <= score_spec message <= 10)%Z.
Proof.
  unfold score_spec, b2z.
  destruct (contains message "budget");
    destruct (contains message "timeline" || contains message "when");
    destruct (contains message "demo" || contains message "meeting");
    destruct (200 <? length message)%nat; vm_compute; split; discriminate.
Qed.

Lemma score_classify (message : jsstring) :
  score message (fst (classify message))
  = if isSales message && (negb (highRisk message) && negb (suspicious message))
    then score_spec message else 0%Z.
Proof.
  unfold score. rewrite classify_safe.
  destruct (isSales message && (negb (highRisk message) && negb (suspicious message)));
    [|reflexivity].
  unfold score_spec, contains, b2z.
  destruct (Js.includes (lowerMessage message) (u "budget"));
    destruct (Js.includes (lowerMessage message) (u "timeline")
              || Js.includes (lowerMessage message) (u "when"));
    destruct (Js.includes (lowerMessage message) (u "demo")
              || Js.includes (lowerMessage message) (u "meeting"));
    destruct (200 <? length message)%nat; reflexivity.
Qed.

(** C5: the score is 0 unless isSales holds and the risk level is Safe;
    then it is min(5 + 2 [budget] + [timeline or when] + [demo or meeting]
    + [more than 200 code units], 10), the words looked up in the lowered
    message.  So it is 0 or between 5 and 10, and the empty message is Safe
    with score 0. *)
Theorem C5_lead_quality_score
    (message : jsstring) (senderInfo context : option jsstring) :
  let r := analyzeWithFallback message senderInfo context in
  let safe := negb (highRisk message) && negb (suspicious message) in
  let s := if isSales message && safe then score_spec message else 0%Z in
  (riskLevel r = JString Safe <-> safe = true)
  /\ leadQualityScore r = JNumber (number_of_Z s)
  /\ (s = 0%Z \/ (5 <= s <= 10)%Z)
  /\ riskLevel (analyzeWithFallback [] senderInfo context) = JString Safe
  /\ leadQualityScore (analyzeWithFallback [] senderInfo context)
     = JNumber (number_of_Z 0).
Proof.
  cbv zeta. split; [apply riskLevel_safe_iff|].
  split; [rewrite leadQualityScore_analyze, score_classify; reflexivity|].
  split.
  - destruct (isSales message && (negb (highRisk message) && negb (suspicious message)));
      [right; apply score_spec_range | left; reflexivity].
  - split; reflexivity.
Qed.

(** The example of the specification: budget and demo, short message. *)
Lemma score_example :
  leadQualityScore
    (analyzeWithFallback
       (u "Interested in pricing, our budget is set, need a demo next week")
       None None)
  = JNumber (number_of_Z 8).
Proof. vm_compute. reflexivity. Qed.

(** *** C8: both functions are functions of their input alone *)

(** C8: the analyzer's result depends on the message only, whatever
    senderInfo and context are; the parser's result depends on the text
    only, whatever the console holds, so a second call with the same input
    gives the same result. *)
Theorem C8_deterministic_and_pure :
  (forall message senderInfo1 context1 senderInfo2 context2,
     analyzeWithFallback message senderInfo1 context1
     = analyzeWithFallback message senderInfo2 context2)
  /\ (forall text console1 console2,
        fst (parseAnalysisResponse_io text console1)
        = fst (parseAnalysisResponse_io text console2))
  /\ (forall text console,
        let first := parseAnalysisResponse_io text console in
        let second := parseAnalysisResponse_io text (snd first) in
        fst second = fst first /\ fst first = parseAnalysisResponse text).
Proof.
  split; [reflexivity|].
  assert (H : forall text console,
             fst (parseAnalysisResponse_io text console)
             = parseAnalysisResponse text).
  { intros text console. unfold parseAnalysisResponse, parseAnalysisResponse_io.
    destruct (tryJson text); reflexivity. }
  split.
  - intros text console1 console2. rewrite !H. reflexivity.
  - intros text console. cbv zeta. rewrite !H. split; reflexivity.
Qed.

(** ** The line scanner *)

Lemma noLabelb_spec (trimmed : jsstring) :
  noLabelb trimmed = true -> noLabel trimmed.
Proof.
  unfold noLabelb, noLabel. rewrite negb_true_iff, !orb_false_iff. tauto.
Qed.

Lemma Forall_noLabel (ls : list jsstring) :
  forallb (fun line => noLabelb (Js.trim line)) ls = true ->
  Forall (fun line => noLabel (Js.trim line)) ls.
Proof.
  rewrite forallb_forall, Forall_forall. intros H line Hin.
  apply noLabelb_spec, H, Hin.
Qed.

Lemma step_noLabel (st : Scan.state) (line : jsstring) :
  noLabel (Js.trim line) ->
  Scan.step st line
  = match Js.nonEmpty (Js.trim line), Scan.currentField st with
    | true, Some f =>
        {| Scan.currentField := Some f;
           Scan.res := Scan.continue f (Js.trim line) (Scan.res st) |}
    | _, _ => st
    end.
Proof.
  intros (H1 & H2 & H3 & H4 & H5 & H6 & H7).
  unfold Scan.step. rewrite H1, H2, H3, H4, H5, H6, H7. reflexivity.
Qed.

(** Lines without label leave the scanner where it started. *)
Lemma scan_before_first_label (pre : list jsstring) :
  Forall (fun line => noLabel (Js.trim line)) pre ->
  Scan.scan pre Scan.initial = Scan.initial.
Proof.
  unfold Scan.scan. induction 1 as [|line pre Hline _ IH]; [reflexivity|].
  cbn [fold_left]. rewrite (step_noLabel _ _ Hline).
  cbn [Scan.currentField Scan.initial].
  destruct (Js.nonEmpty (Js.trim line)); exact IH.
Qed.

Lemma scan_app (pre rest : list jsstring) (st : Scan.state) :
  Scan.scan (pre ++ rest) st = Scan.scan rest (Scan.scan pre st).
Proof. unfold Scan.scan. apply fold_left_app. Qed.

(** When the JSON path does not return, the line scanner decides. *)
Lemma parse_falls_through (text : jsstring) :
  tryJson text = NoMatch \/ tryJson text = Thrown ->
  parseAnalysisResponse text = scanLines text.
Proof.
  intros [H|H]; unfold parseAnalysisResponse, parseAnalysisResponse_io;
    rewrite H; reflexivity.
Qed.

Lemma tryJson_fails (text : jsstring) :
  jsonMatch text = None
  \/ (exists span, jsonMatch text = Some span /\ Json.parse span = None) ->
  tryJson text = NoMatch \/ tryJson text = Thrown.
Proof.
  unfold tryJson. intros [->|(span & -> & ->)]; auto.
Qed.

Lemma split_LF_app (a b : jsstring) :
  Js.split_LF (a ++ Js.LF :: b) = Js.split_LF a ++ Js.split_LF b.
Proof.
  induction a as [|c a IH]; [reflexivity|].
  cbn [app Js.split_LF]. rewrite IH.
  destruct (c =? Js.LF); [reflexivity|].
  destruct (Js.split_LF a) as [|l ls] eqn:E; [|reflexivity].
  destruct a as [|x a]; [discriminate E|].
  cbn [Js.split_LF] in E. destruct (x =? Js.LF); [discriminate E|].
  destruct (Js.split_LF a); discriminate E.
Qed.

Lemma lines_app (a b : jsstring) :
  Scan.lines (a ++ Js.LF :: b) = Scan.lines a ++ Scan.lines b.
Proof. unfold Scan.lines. rewrite split_LF_app. apply filter_app. Qed.

Lemma labelOf_none (trimmed : jsstring) :
  labelOf trimmed = None <-> noLabel trimmed.
Proof.
  unfold labelOf, noLabel. split.
  - repeat match goal with
           | |- context [if Scan.hasLabel ?l trimmed then _ else _] =>
               destruct (Scan.hasLabel l trimmed); [discriminate|]
           end.
    intros _. repeat split.
  - intros (H1 & H2 & H3 & H4 & H5 & H6 & H7).
    rewrite H1, H2, H3, H4, H5, H6, H7. reflexivity.
Qed.

(** The loop body, by the label of the line. *)
Lemma step_labelled (st : Scan.state) (line : jsstring) (f : Scan.field) :
  labelOf (Js.trim line) = Some f ->
  Scan.currentField (Scan.step st line) = Some f
  /\ forall g, g <> f ->
       fieldOf g (Scan.toResult (Scan.res (Scan.step st line)))
       = fieldOf g (Scan.toResult (Scan.res st)).
Proof.
  unfold labelOf, Scan.step.
  repeat match goal with
         | |- context [if Scan.hasLabel ?l ?t then _ else _] =>
             destruct (Scan.hasLabel l t);
             [intros [= <-]; split; [reflexivity|];
              intros g Hg; destruct g; try contradiction; 
              cbn [Scan.res];
              try (destruct (Js.nonEmpty _)); try (destruct (Js.match_digits _));
              reflexivity|]
         end.
  discriminate.
Qed.

Lemma step_unlabelled (st : Scan.state) (line : jsstring) :
  labelOf (Js.trim line) = None ->
  Js.nonEmpty (Js.trim line) = true ->
  Scan.step st line
  = match Scan.currentField st with
    | Some f => {| Scan.currentField := Some f;
                   Scan.res := Scan.continue f (Js.trim line) (Scan.res st) |}
    | None => st
    end.
Proof.
  intros H Hne. rewrite (step_noLabel st line (proj1 (labelOf_none _) H)), Hne.
  reflexivity.
Qed.

(** A line without label touches the field under the cursor only. *)
Lemma step_unlabelled_other (st : Scan.state) (line : jsstring) (g : Scan.field) :
  labelOf (Js.trim line) = None ->
  Scan.currentField st <> Some g ->
  Scan.currentField (Scan.step st line) = Scan.currentField st
  /\ fieldOf g (Scan.toResult (Scan.res (Scan.step st line)))
     = fieldOf g (Scan.toResult (Scan.res st)).
Proof.
  intros H Hg. rewrite (step_noLabel st line (proj1 (labelOf_none _) H)).
  destruct (Js.nonEmpty (Js.trim line)); [|split; reflexivity].
  destruct (Scan.currentField st) as [f|] eqn:E; [|rewrite E; split; reflexivity].
  split; [reflexivity|].
  destruct f, g; try reflexivity; exfalso; apply Hg; reflexivity.
Qed.

(** Without its label and away from its cursor a field keeps its value. *)
Lemma scan_keeps_field (g : Scan.field) (ls : list jsstring) (st : Scan.state) :
  Scan.currentField st <> Some g ->
  Forall (fun x => labelOf (Js.trim x) <> Some g) ls ->
  fieldOf g (Scan.toResult (Scan.res (Scan.scan ls st)))
  = fieldOf g (Scan.toResult (Scan.res st)).
Proof.
  unfold Scan.scan. intros Hc H. revert st Hc.
  induction H as [|x ls Hx _ IH]; intros st Hc; [reflexivity|].
  cbn [fold_left].
  destruct (labelOf (Js.trim x)) as [f|] eqn:E.
  - destruct (step_labelled st x f E) as (C & K).
    rewrite IH; [apply K; congruence|]. rewrite C. congruence.
  - destruct (step_unlabelled_other st x g E Hc) as (C & K).
    rewrite IH; [exact K|]. rewrite C. exact Hc.
Qed.

Lemma continuation_split (ls : list jsstring) :
  exists rest,
    ls = continuation ls ++ rest
    /\ Forall (fun x => labelOf (Js.trim x) = None) (continuation ls)
    /\ match rest with
       | [] => True
       | h :: _ => labelOf (Js.trim h) <> None
       end.
Proof.
  induction ls as [|l ls (rest & E & F & R)].
  - exists []. repeat split. constructor.
  - cbn [continuation]. destruct (labelOf (Js.trim l)) as [f|] eqn:L.
    + exists (l :: ls). split; [reflexivity|]. split; [constructor|].
      rewrite L. discriminate.
    + exists rest. split; [cbn [app]; f_equal; exact E|].
      split; [constructor; assumption|exact R].
Qed.

(** After the lines that continue it, a field is not touched before its
    label comes again. *)
Lemma scan_rest_keeps_field (g : Scan.field) (rest : list jsstring)
    (st : Scan.state) :
  match rest with
  | [] => True
  | h :: _ => labelOf (Js.trim h) <> None
  end ->
  Forall (fun x => labelOf (Js.trim x) <> Some g) rest ->
  fieldOf g (Scan.toResult (Scan.res (Scan.scan rest st)))
  = fieldOf g (Scan.toResult (Scan.res st)).
Proof.
  destruct rest as [|h t]; [reflexivity|]. intros Hh H.
  inversion H as [|? ? Hg Ht]; subst.
  destruct (labelOf (Js.trim h)) as [f|] eqn:E; [|contradiction].
  destruct (step_labelled st h f E) as (C & K).
  change (Scan.scan (h :: t) st) with (Scan.scan t (Scan.step st h)).
  rewrite scan_keeps_field; [apply K; congruence| |exact Ht].
  rewrite C. congruence.
Qed.

(** Lines without label under the cursor of a string field are joined to
    its value with spaces. *)
Lemma scan_continuation (f : Scan.field) (ls : list jsstring) (st : Scan.state)
    (v : jsstring) :
  isStringField f = true ->
  Scan.currentField st = Some f ->
  fieldOf f (Scan.toResult (Scan.res st)) = JString v ->
  Forall (fun x => labelOf (Js.trim x) = None) ls ->
  Forall (fun x => Js.nonEmpty (Js.trim x) = true) ls ->
  Scan.currentField (Scan.scan ls st) = Some f
  /\ fieldOf f (Scan.toResult (Scan.res (Scan.scan ls st)))
     = JString (joined [32] v ls).
Proof.
  unfold Scan.scan, joined. intros Hf Hc Hv H. revert st v Hc Hv.
  induction H as [|x ls Hx _ IH]; intros st v Hc Hv Hne;
    [split; assumption|].
  inversion Hne as [|? ? Hx' Hne']; subst.
  cbn [fold_left]. apply IH; try assumption.
  - rewrite (step_unlabelled st x Hx Hx'), Hc. reflexivity.
  - rewrite (step_unlabelled st x Hx Hx'), Hc.
    destruct f; try discriminate Hf; cbn in Hv |- *;
      injection Hv as <-; reflexivity.
Qed.



Lemma lines_nonblank (text : jsstring) :
  Forall (fun x => Js.nonEmpty (Js.trim x) = true) (Scan.lines text).
Proof.
  apply Forall_forall. intros x Hx. unfold Scan.lines in Hx.
  apply filter_In in Hx. exact (proj2 Hx).
Qed.

(** What a label line stores in its field. *)
Lemma step_label_string (st : Scan.state) (line : jsstring) (f : Scan.field) :
  labelOf (Js.trim line) = Some f ->
  isStringField f = true ->
  fieldOf f (Scan.toResult (Scan.res (Scan.step st line)))
  = JString (Js.trim (Scan.stripLabel (labelText f) (Js.trim line))).
Proof.
  unfold labelOf, Scan.step.
  repeat match goal with
         | |- context [if Scan.hasLabel ?l ?t then _ else _] =>
             destruct (Scan.hasLabel l t);
             [intros [= <-] Hf; try discriminate Hf; reflexivity|]
         end.
  discriminate.
Qed.


Lemma step_score (st : Scan.state) (line : jsstring) :
  Scan.r_leadQualityScore (Scan.res (Scan.step st line))
  = match scoreOnLine line with
    | Some v => Some v
    | None => Scan.r_leadQualityScore (Scan.res st)
    end.
Proof.
  unfold scoreOnLine, labelOf, Scan.step.
  repeat match goal with
         | |- context [if Scan.hasLabel ?l ?t then _ else _] =>
             destruct (Scan.hasLabel l t);
             [cbn [Scan.res]; try (destruct (Js.nonEmpty _));
              try (destruct (Js.match_digits _)); reflexivity|]
         end.
  destruct (Js.nonEmpty (Js.trim line)); [|reflexivity].
  destruct (Scan.currentField st) as [f|]; [|reflexivity].
  destruct f; reflexivity.
Qed.

Lemma scan_score_kept (ls : list jsstring) (st : Scan.state) :
  Forall (fun x => scoreOnLine x = None) ls ->
  Scan.r_leadQualityScore (Scan.res (Scan.scan ls st))
  = Scan.r_leadQualityScore (Scan.res st).
Proof.
  unfold Scan.scan. intros H. revert st.
  induction H as [|x ls Hx _ IH]; intros st; [reflexivity|].
  cbn [fold_left]. rewrite IH, step_score, Hx. reflexivity.
Qed.

Lemma scan_cons (l : jsstring) (ls : list jsstring) (st : Scan.state) :
  Scan.scan (l :: ls) st = Scan.scan ls (Scan.step st l).
Proof. reflexivity. Qed.

(** The score the line path returns is the one of the last line that
    gives one. *)
Lemma score_of_last_line (pre post : list jsstring) (l : jsstring) (v : number)
    (st : Scan.state) :
  scoreOnLine l = Some v ->
  Forall (fun x => scoreOnLine x = None) post ->
  Scan.r_leadQualityScore (Scan.res (Scan.scan (pre ++ l :: post) st)) = Some v.
Proof.
  intros Hl Hpost. rewrite scan_app, scan_cons, (scan_score_kept post _ Hpost).
  rewrite step_score, Hl. reflexivity.
Qed.

(** The value of a string field after its last label line. *)
Lemma string_of_last_label (pre post : list jsstring) (l : jsstring)
    (f : Scan.field) (st : Scan.state) :
  labelOf (Js.trim l) = Some f ->
  isStringField f = true ->
  Forall (fun x => Js.nonEmpty (Js.trim x) = true) post ->
  Forall (fun x => labelOf (Js.trim x) <> Some f) post ->
  fieldOf f (Scan.toResult (Scan.res (Scan.scan (pre ++ l :: post) st)))
  = JString (joined [32] (Js.trim (Scan.stripLabel (labelText f) (Js.trim l)))
               (continuation post)).
Proof.
  intros Hl Hf Hne Hpost. rewrite scan_app, scan_cons.
  destruct (continuation_split post) as (rest & E & Hcont & Hrest).
  set (st1 := Scan.step (Scan.scan pre st) l).
  rewrite E at 1. rewrite scan_app.
  rewrite E in Hne, Hpost.
  apply Forall_app in Hne. apply Forall_app in Hpost.
  rewrite (scan_rest_keeps_field f rest _ Hrest (proj2 Hpost)).
  apply scan_continuation; try assumption.
  - apply step_labelled, Hl.
  - apply step_label_string; assumption.
  - exact (proj1 Hne).
Qed.







Lemma level_without_label (text : jsstring) :
  Forall (fun x => labelOf (Js.trim x) <> Some Scan.F_riskLevel) (Scan.lines text) ->
  riskLevel (scanLines text) = JString Unknown.
Proof.
  intros H. unfold scanLines.
  apply (scan_keeps_field Scan.F_riskLevel (Scan.lines text) Scan.initial);
    [discriminate|exact H].
Qed.

Lemma score_without_digits (text : jsstring) :
  Forall (fun x => scoreOnLine x = None) (Scan.lines text) ->
  leadQualityScore (scanLines text) = JUndefined.
Proof.
  intros H. unfold scanLines, Scan.toResult. cbn [leadQualityScore].
  rewrite (scan_score_kept _ Scan.initial H). reflexivity.
Qed.

(** Two labels whose first units differ, case ignored, never start the
    same line. *)
Lemma labels_differ (p q : N) (ps qs s : jsstring) :
  Js.canonicalize p <> Js.canonicalize q ->
  Js.matches_at true (p :: ps) s = true ->
  Js.matches_at true (q :: qs) s = false.
Proof.
  intros Hpq. destruct s as [|c s]; [discriminate|].
  cbn [Js.matches_at]. unfold Js.unit_eqb.
  destruct (Js.canonicalize p =? Js.canonicalize c) eqn:E; [|discriminate].
  intros _. apply N.eqb_eq in E.
  destruct (Js.canonicalize q =? Js.canonicalize c) eqn:F; [|reflexivity].
  apply N.eqb_eq in F. congruence.
Qed.

Lemma score_label_is_first (trimmed : jsstring) :
  Scan.hasLabel "Lead Quality Score" trimmed = true ->
  labelOf trimmed = Some Scan.F_leadQualityScore.
Proof.
  intros H. unfold labelOf. rewrite H.
  unfold Scan.hasLabel in H |- *.
  change (u "Lead Quality Score") with (76 :: u "ead Quality Score") in H.
  change (u "Risk Level:") with (82 :: u "isk Level:").
  change (u "Reason:") with (82 :: u "eason:").
  change (u "Business Impact:") with (66 :: u "usiness Impact:").
  change (u "Recommended Action:") with (82 :: u "ecommended Action:").
  change (u "Suggested Reply") with (83 :: u "uggested Reply").
  rewrite !(labels_differ 76 _ _ _ trimmed) by (exact H || discriminate).
  reflexivity.
Qed.

(** *** C7: lines without label *)




(** Under the score cursor a line without label is dropped; and a line is
    a label line for "Suggested Reply" even without colon. *)
Lemma scan_examples :
  scanLines (u "Lead Quality Score: 7
of ten")
  = scanLines (u "Lead Quality Score: 7")
  /\ suggestedReply (scanLines (u "Suggested Reply
Dear customer"))
     = JString (u "Suggested Reply" ++ [Js.LF] ++ u "Dear customer").
Proof. vm_compute. split; reflexivity. Qed.

(** ** [JSON.parse] of a text that starts with a brace *)

Lemma bottomObject_cons (f : Json.frame) (st : list Json.frame) :
  bottomObject (f :: st)
  = match st with [] => isObjectFrame f | _ :: _ => bottomObject st end.
Proof. destruct st; reflexivity. Qed.

Lemma bottomObject_inside (st : list Json.frame) :
  bottomObject st = true -> insideObject st = true.
Proof. destruct st; [discriminate|auto]. Qed.

Lemma deliver_reads (v : JsValue) (st : list Json.frame) :
  bottomObject st = true -> readsObject (Json.deliver v st) = true.
Proof.
  destruct st as [|[done|done key] st]; [discriminate| |];
    rewrite bottomObject_cons; destruct st; cbn; auto; discriminate.
Qed.

Lemma deliver_object_reads (props : list (jsstring * JsValue))
    (st : list Json.frame) :
  insideObject st = true -> readsObject (Json.deliver (JObject props) st) = true.
Proof.
  destruct st as [|f st]; [reflexivity|]. intros H. apply deliver_reads, H.
Qed.

Lemma value_step_reads (st : list Json.frame) (t : Json.token) (p : Json.pstate) :
  bottomObject st = true -> Json.value_step st t = Some p ->
  readsObject p = true.
Proof.
  intros H E. destruct t; cbn in E; try discriminate; injection E as <-;
    try (apply deliver_reads, H); cbn; auto using bottomObject_inside.
Qed.

Lemma parse_step_reads (p p' : Json.pstate) (t : Json.token) :
  readsObject p = true -> Json.parse_step p t = Some p' ->
  readsObject p' = true.
Proof.
  intros H E. destruct p; cbn in H.
  - eapply value_step_reads; eauto.
  - assert (H' : bottomObject (Json.InArray [] :: st) = true).
    { rewrite bottomObject_cons. destruct st; [discriminate|exact H]. }
    destruct t; cbn [Json.parse_step] in E;
      try (eapply value_step_reads; [exact H'|exact E]).
    injection E as <-. apply deliver_reads, H.
  - destruct t; cbn in E; try discriminate; injection E as <-.
    + apply deliver_object_reads, H.
    + exact H.
  - destruct t; cbn in E; try discriminate; injection E as <-. exact H.
  - destruct t; cbn in E; try discriminate; injection E as <-.
    cbn. rewrite bottomObject_cons. destruct st; [reflexivity|exact H].
  - destruct t; cbn in E; try discriminate; injection E as <-.
    + apply deliver_reads, H.
    + cbn. rewrite bottomObject_cons. destruct st; [discriminate|exact H].
  - destruct t; cbn in E; try discriminate; injection E as <-.
    + apply deliver_object_reads, H.
    + exact H.
  - destruct t; discriminate.
Qed.

Lemma parse_from_reads (ts : list Json.token) (p : Json.pstate) (v : JsValue) :
  readsObject p = true -> Json.parse_from p ts = Some v -> isObject v = true.
Proof.
  revert p. induction ts as [|t ts IH]; intros p H E; cbn in E.
  - destruct p; try discriminate. injection E as <-. exact H.
  - destruct (Json.parse_step p t) as [p'|] eqn:S; [|discriminate].
    eapply IH; [|exact E]. eapply parse_step_reads; eauto.
Qed.

(** A text that starts with an opening brace parses to an object or not
    at all. *)
Lemma parse_brace_object (s : jsstring) (v : JsValue) :
  Json.parse (123 :: s) = Some v -> exists props, v = JObject props.
Proof.
  unfold Json.parse, Json.lex. cbn [Json.lex_from].
  change (Json.lex_step Json.MDefault 123) with (Some ([Json.TLBrace], Json.MDefault)).
  cbv beta iota.
  destruct (Json.lex_from Json.MDefault s) as [ts|]; [|discriminate].
  cbn [app Json.parse_from Json.parse_step Json.value_step].
  intros E. apply parse_from_reads in E; [|reflexivity].
  destruct v; try discriminate. eexists; reflexivity.
Qed.

Lemma from_open_brace_head (text s : jsstring) :
  from_open_brace text = Some s -> exists s', s = 123 :: s'.
Proof.
  induction text as [|c text IH]; [discriminate|]. cbn.
  destruct (c =? 123) eqn:E; [|exact IH].
  intros [= <-]. apply N.eqb_eq in E. subst c. eexists; reflexivity.
Qed.

Lemma upto_close_brace_head (c : N) (s r : jsstring) :
  upto_close_brace (c :: s) = Some r -> exists r', r = c :: r'.
Proof.
  cbn. destruct (upto_close_brace s).
  - intros [= <-]. eexists; reflexivity.
  - destruct (c =? 125); [|discriminate]. intros [= <-]. eexists; reflexivity.
Qed.

Lemma jsonMatch_head (text span : jsstring) :
  jsonMatch text = Some span -> exists s, span = 123 :: s.
Proof.
  unfold jsonMatch. destruct (from_open_brace text) as [s|] eqn:E; [|discriminate].
  apply from_open_brace_head in E as [s' ->]. apply upto_close_brace_head.
Qed.

(** When the brace span parses, the first path returns: no property read
    throws. *)
Lemma tryJson_returns (text span : jsstring) (parsed : JsValue) :
  jsonMatch text = Some span -> Json.parse span = Some parsed ->
  exists props,
    parsed = JObject props
    /\ tryJson text
       = Returned
           {| riskLevel := or_else (prop "riskLevel" props) (JString Unknown);
              reason := or_else (prop "reason" props) (JString default_reason);
              businessImpact :=
                or_else (prop "businessImpact" props)
                        (JString default_businessImpact);
              recommendedAction :=
                or_else (prop "recommendedAction" props)
                        (JString default_recommendedAction);
              suggestedReply := or_else (prop "suggestedReply" props) JUndefined;
              leadQualityScore :=
                or_else (prop "leadQualityScore" props) (JNumber (number_of_Z 0));
              businessInsight :=
                or_else (prop "businessInsight" props)
                        (JString default_businessInsight) |}.
Proof.
  intros Hm Hp. destruct (jsonMatch_head _ _ Hm) as [s ->].
  destruct (parse_brace_object _ _ Hp) as [props ->].
  exists props. split; [reflexivity|].
  unfold tryJson. rewrite Hm, Hp. unfold fromParsed, get, prop.
  destruct (lookup (u "riskLevel") props); destruct (lookup (u "reason") props);
    destruct (lookup (u "businessImpact") props);
    destruct (lookup (u "recommendedAction") props);
    destruct (lookup (u "suggestedReply") props);
    destruct (lookup (u "leadQualityScore") props);
    destruct (lookup (u "businessInsight") props); reflexivity.
Qed.

Lemma parse_returned (text : jsstring) (r : AnalysisResult) :
  tryJson text = Returned r -> parseAnalysisResponse text = r.
Proof.
  intros H. unfold parseAnalysisResponse, parseAnalysisResponse_io.
  rewrite H. reflexivity.
Qed.

(** ** The response parser *)

Lemma or_else_falsy (v d : JsValue) : truthy v = false -> or_else v d = d.
Proof. unfold or_else. intros ->. reflexivity. Qed.

Lemma or_else_truthy (v d : JsValue) : truthy v = true -> or_else v d = v.
Proof. unfold or_else. intros ->. reflexivity. Qed.

Lemma or_else_not_empty (v d : JsValue) :
  d <> JString [] -> or_else v d <> JString [].
Proof.
  unfold or_else. intros Hd. destruct (truthy v) eqn:E; [|exact Hd].
  intros ->. discriminate E.
Qed.

Lemma scanLines_without_label (text : jsstring) :
  Forall (fun line => noLabel (Js.trim line)) (Scan.lines text) ->
  scanLines text = emptyResult.
Proof.
  intros H. unfold scanLines. rewrite (scan_before_first_label _ H). reflexivity.
Qed.

(** On every text the parser returns: what the JSON path built, or what
    the line scanner built. *)
Lemma parse_always_returns (text : jsstring) :
  (exists r, tryJson text = Returned r /\ parseAnalysisResponse text = r)
  \/ parseAnalysisResponse text = scanLines text.
Proof.
  destruct (tryJson text) as [r| |] eqn:E.
  - left. exists r. split; [reflexivity|apply parse_returned, E].
  - right. apply parse_falls_through. left. exact E.
  - right. apply parse_falls_through. right. exact E.
Qed.

(** *** C3: no fatal error; what is left when nothing is extracted *)

(** C3, as stated, fails in its second part: when the JSON path fails and
    no line carries a label, the four narrative fields are empty strings,
    not the placeholder texts of the JSON path. *)
Lemma C3_line_path_leaves_empty_strings :
  let text := u "{the model answered without JSON}" in
  jsonMatch text = Some text
  /\ Json.parse text = None
  /\ reason (parseAnalysisResponse text) = JString []
  /\ businessImpact (parseAnalysisResponse text) = JString []
  /\ recommendedAction (parseAnalysisResponse text) = JString []
  /\ businessInsight (parseAnalysisResponse text) = JString []
  /\ reason (parseAnalysisResponse text) <> JString default_reason.
Proof. vm_compute. repeat split. discriminate. Qed.

(** C3, amended: the parser raises nothing.  Without a brace span the
    line scanner decides; a span that [JSON.parse] rejects is logged once
    and the line scanner decides; a span it accepts is an object, so
    reading its members cannot fail, and nothing is logged.  When nothing
    is extracted: on the JSON path (no member with a truthy value) the
    result has the documented placeholders, riskLevel Unknown, score 0
    and no suggestedReply; on the line path (no line with a label) it has
    riskLevel Unknown, the four narrative fields present as empty
    strings, and suggestedReply and leadQualityScore unset. *)
Theorem C3_fall_through_and_empty_fields
    (text : jsstring) (console : list logEntry) :
  (jsonMatch text = None ->
   parseAnalysisResponse_io text console = (scanLines text, console))
  /\ (forall span,
        jsonMatch text = Some span -> Json.parse span = None ->
        parseAnalysisResponse_io text console
        = (scanLines text, console ++ [JsonParsingFailed]))
  /\ (forall span parsed,
        jsonMatch text = Some span -> Json.parse span = Some parsed ->
        exists props,
          parsed = JObject props
          /\ snd (parseAnalysisResponse_io text console) = console
          /\ (truthy (prop "riskLevel" props) = false ->
              truthy (prop "reason" props) = false ->
              truthy (prop "businessImpact" props) = false ->
              truthy (prop "recommendedAction" props) = false ->
              truthy (prop "suggestedReply" props) = false ->
              truthy (prop "leadQualityScore" props) = false ->
              truthy (prop "businessInsight" props) = false ->
              parseAnalysisResponse text = placeholders))
  /\ (linePath text ->
      Forall (fun line => noLabel (Js.trim line)) (Scan.lines text) ->
      parseAnalysisResponse text = emptyResult).
Proof.
  split; [|split; [|split]].
  - intros Hm. unfold parseAnalysisResponse_io, tryJson. rewrite Hm. reflexivity.
  - intros span Hm Hp. unfold parseAnalysisResponse_io, tryJson.
    rewrite Hm, Hp. reflexivity.
  - intros span parsed Hm Hp.
    destruct (tryJson_returns text span parsed Hm Hp) as (props & -> & E).
    exists props. split; [reflexivity|].
    split; [unfold parseAnalysisResponse_io; rewrite E; reflexivity|].
    intros H1 H2 H3 H4 H5 H6 H7. rewrite (parse_returned _ _ E).
    rewrite (or_else_falsy _ _ H1), (or_else_falsy _ _ H2),
      (or_else_falsy _ _ H3), (or_else_falsy _ _ H4), (or_else_falsy _ _ H5),
      (or_else_falsy _ _ H6), (or_else_falsy _ _ H7).
    reflexivity.
  - intros Hpath Hlines.
    rewrite (parse_falls_through text (tryJson_fails text Hpath)).
    apply scanLines_without_label, Hlines.
Qed.

Lemma C3_fall_through_and_empty_fields_witness :
  let json := q "I found nothing: {'status':'done','reason':''}" in
  let prose := u "Sorry, {I cannot} help with that.
Please try again." in
  parseAnalysisResponse json = placeholders
  /\ linePath prose
  /\ Forall (fun line => noLabel (Js.trim line)) (Scan.lines prose)
  /\ parseAnalysisResponse prose = emptyResult
  /\ parseAnalysisResponse_io prose []
     = (scanLines prose, [JsonParsingFailed]).
Proof.
  cbv zeta.
  assert (H1 : linePath (u "Sorry, {I cannot} help with that.
Please try again.")).
  { right. exists (u "{I cannot}"). split; vm_compute; reflexivity. }
  assert (H2 : Forall (fun line => noLabel (Js.trim line))
                 (Scan.lines (u "Sorry, {I cannot} help with that.
Please try again."))).
  { apply Forall_noLabel. vm_compute. reflexivity. }
  split.
  { destruct (proj1 (proj2 (proj2
                (C3_fall_through_and_empty_fields
                   (q "I found nothing: {'status':'done','reason':''}") [])))
                (q "{'status':'done','reason':''}")
                (JObject [(u "status", JString (u "done"));
                          (u "reason", JString [])]))
      as (props & E & _ & P); [vm_compute; reflexivity|vm_compute; reflexivity|].
    injection E as <-. apply P; reflexivity. }
  split; [exact H1|]. split; [exact H2|]. split.
  - exact (proj2 (proj2 (proj2 (C3_fall_through_and_empty_fields _ [])))
                 H1 H2).
  - apply (proj1 (proj2 (C3_fall_through_and_empty_fields _ []))
                 (u "{I cannot}")); vm_compute; reflexivity.
Defined.

(** A label line does extract, also after a failure of [JSON.parse]. *)
Lemma line_path_example :
  let r := parseAnalysisResponse (u "{broken
Risk Level: Suspicious
Reason: asks for a password
 right now
Lead Quality Score: 0 out of 10") in
  riskLevel r = JString Suspicious
  /\ reason r = JString (u "asks for a password right now")
  /\ leadQualityScore r = JNumber (number_of_Z 0)
  /\ businessInsight r = JString [].
Proof. vm_compute. repeat split. Qed.

(** *** The score read by the line scanner *)

Lemma digit_value_nonneg (c : N) : Js.isDigit c = true -> (0 <= Js.digit_value c)%Z.
Proof.
  unfold Js.isDigit, Js.digit_value. intros H. apply between_spec in H. lia.
Qed.

Lemma digits_value_run_nonneg (s : jsstring) (acc : Z) :
  (0 <= acc)%Z -> (0 <= Js.digits_value acc (Js.digit_run s))%Z.
Proof.
  revert acc. induction s as [|c s IH]; intros acc Hacc;
    cbn [Js.digit_run Js.digits_value]; [exact Hacc|].
  destruct (Js.isDigit c) eqn:E; cbn [Js.digits_value]; [|exact Hacc].
  apply IH. pose proof (digit_value_nonneg c E). lia.
Qed.

Lemma match_digits_nonneg (s digits : jsstring) :
  Js.match_digits s = Some digits -> (0 <= Js.digits_value 0 digits)%Z.
Proof.
  revert digits. induction s as [|c s IH]; intros digits; [discriminate|].
  cbn [Js.match_digits]. destruct (Js.isDigit c) eqn:E; [|apply IH].
  intros [= <-].
  exact (digits_value_run_nonneg (c :: s) 0 (Z.le_refl 0)).
Qed.

(** *** C2: levels and score bounds *)

Lemma small_score_cases (n : Z) :
  (0 <= n <= 10)%Z -> In n [0; 1; 2; 3; 4; 5; 6; 7; 8; 9; 10]%Z.
Proof. cbn [In]. lia. Qed.

(** Splits a goal about a score in 0..10 into its eleven cases. *)
Ltac score_cases n Hn :=
  let C := fresh "C" in
  pose proof (small_score_cases n Hn) as C; cbn [In] in C;
  repeat (destruct C as [C|C]; [subst n|]); [..|contradiction].

(** C2, as stated, fails: the parser neither checks the risk level against
    the defined levels nor clamps the score, on either path. *)
Lemma C2_parse_does_not_validate :
  let json := q "{'riskLevel':'Banana','leadQualityScore':99}" in
  let lines := u "Risk Level: Banana
Lead Quality Score: 99" in
  riskLevel (parseAnalysisResponse json) = JString (u "Banana")
  /\ leadQualityScore (parseAnalysisResponse json) = JNumber (number_of_Z 99)
  /\ riskLevel (parseAnalysisResponse lines) = JString (u "Banana")
  /\ leadQualityScore (parseAnalysisResponse lines) = JNumber (number_of_Z 99)
  /\ ~ isLevel (riskLevel (parseAnalysisResponse json))
  /\ ~ (leadQualityScore (parseAnalysisResponse json) = JUndefined
        \/ isScore (leadQualityScore (parseAnalysisResponse json))).
Proof.
  cbv zeta.
  assert (E1 : riskLevel (parseAnalysisResponse
                 (q "{'riskLevel':'Banana','leadQualityScore':99}"))
               = JString (u "Banana")) by (vm_compute; reflexivity).
  assert (E2 : leadQualityScore (parseAnalysisResponse
                 (q "{'riskLevel':'Banana','leadQualityScore':99}"))
               = JNumber (number_of_Z 99)) by (vm_compute; reflexivity).
  split; [exact E1|]. split; [exact E2|].
  split; [vm_compute; reflexivity|]. split; [vm_compute; reflexivity|].
  rewrite E1, E2. split.
  - intros [H|[H|[H|H]]]; vm_compute in H; discriminate H.
  - intros [H|(n & Hn & H)]; [discriminate H|].
    score_cases n Hn; vm_compute in H; discriminate H.
Qed.

(** C2, amended: the parser passes riskLevel and leadQualityScore through
    without validation.  When the brace span parses, riskLevel is the
    parsed member when truthy and Unknown otherwise, leadQualityScore the
    parsed member when truthy and 0 otherwise; so the result has a defined
    level exactly when the member is falsy, missing or a defined level, and
    an integer score in 0..10 exactly when the member is falsy, missing or
    such a score.  On the line path riskLevel is Unknown when no line has
    the label, and otherwise the text after the label on the last such
    line, with the lines without label that follow it; leadQualityScore is
    unset when no score line has a digit, and otherwise the Number value of
    the first run of digits of the last score line that has one,
    unclamped. *)
Theorem C2_levels_and_scores_pass_through (text : jsstring) :
  let r := parseAnalysisResponse text in
  (forall span parsed,
     jsonMatch text = Some span ->
     Json.parse span = Some parsed ->
     exists props,
       parsed = JObject props
       /\ riskLevel r = or_else (prop "riskLevel" props) (JString Unknown)
       /\ leadQualityScore r
          = or_else (prop "leadQualityScore" props) (JNumber (number_of_Z 0))
       /\ (isLevel (riskLevel r)
           <-> truthy (prop "riskLevel" props) = false
               \/ isLevel (prop "riskLevel" props))
       /\ (isScore (leadQualityScore r)
           <-> truthy (prop "leadQualityScore" props) = false
               \/ isScore (prop "leadQualityScore" props)))
  /\ (linePath text ->
      r = scanLines text
      /\ (Forall (fun x => labelOf (Js.trim x) <> Some Scan.F_riskLevel)
            (Scan.lines text) ->
          riskLevel r = JString Unknown)
      /\ (forall pre l post,
            Scan.lines text = pre ++ l :: post ->
            labelOf (Js.trim l) = Some Scan.F_riskLevel ->
            Forall (fun x => labelOf (Js.trim x) <> Some Scan.F_riskLevel) post ->
            riskLevel r
            = JString (joined [32]
                         (Js.trim (Scan.stripLabel "Risk Level:" (Js.trim l)))
                         (continuation post)))
      /\ (Forall (fun x => scoreOnLine x = None) (Scan.lines text) ->
          leadQualityScore r = JUndefined)
      /\ (forall pre l post digits,
            Scan.lines text = pre ++ l :: post ->
            labelOf (Js.trim l) = Some Scan.F_leadQualityScore ->
            Js.match_digits (Js.trim l) = Some digits ->
            Forall (fun x => scoreOnLine x = None) post ->
            leadQualityScore r
            = JNumber (number_of_Z (Js.digits_value 0 digits))
            /\ (0 <= Js.digits_value 0 digits)%Z)).
Proof.
  cbv zeta. split.
  - intros span parsed Hm Hp.
    destruct (tryJson_returns text span parsed Hm Hp) as (props & -> & E).
    exists props. rewrite (parse_returned _ _ E).
    cbn [riskLevel leadQualityScore].
    split; [reflexivity|]. split; [reflexivity|]. split; [reflexivity|]. split.
    + destruct (truthy (prop "riskLevel" props)) eqn:T.
      * rewrite (or_else_truthy _ _ T). split; [auto|].
        intros [X|X]; [discriminate X|exact X].
      * rewrite (or_else_falsy _ _ T). split; [auto|].
        intros _. right. right. right. reflexivity.
    + destruct (truthy (prop "leadQualityScore" props)) eqn:T.
      * rewrite (or_else_truthy _ _ T). split; [auto|].
        intros [X|X]; [discriminate X|exact X].
      * rewrite (or_else_falsy _ _ T). split; [auto|].
        intros _. exists 0%Z. split; [lia|reflexivity].
  - intros Hpath.
    rewrite (parse_falls_through text (tryJson_fails text Hpath)).
    split; [reflexivity|]. split; [apply level_without_label|]. split.
    { intros pre l post Hlines Hl Hpost. unfold scanLines. rewrite Hlines.
      assert (Hne : Forall (fun x => Js.nonEmpty (Js.trim x) = true) post).
      { pose proof (lines_nonblank text) as N. rewrite Hlines in N.
        apply Forall_app in N. destruct N as (_ & N).
        inversion N; assumption. }
      apply (string_of_last_label pre post l _ Scan.initial Hl eq_refl Hne Hpost). }
    split; [apply score_without_digits|].
    intros pre l post digits Hlines Hl Hd Hpost.
    split; [|eapply match_digits_nonneg, Hd].
    unfold scanLines, Scan.toResult. cbn [leadQualityScore]. rewrite Hlines.
    rewrite (score_of_last_line pre post l (Scan.parseInt digits));
      [reflexivity| |exact Hpost].
    unfold scoreOnLine. rewrite Hl, Hd. reflexivity.
Qed.

Lemma C2_levels_and_scores_pass_through_witness :
  let text := u "Risk Level: Banana
  split
Reason: none
Lead Quality Score (1-10): 99 of 10" in
  linePath text
  /\ riskLevel (parseAnalysisResponse text) = JString (u "Banana split")
  /\ leadQualityScore (parseAnalysisResponse text) = JNumber (number_of_Z 1).
Proof.
  cbv zeta.
  assert (H : linePath (u "Risk Level: Banana
  split
Reason: none
Lead Quality Score (1-10): 99 of 10")) by (left; reflexivity).
  destruct (proj2 (C2_levels_and_scores_pass_through _) H)
    as (_ & _ & L & _ & S).
  split; [exact H|]. split.
  - refine (eq_trans (L [] (u "Risk Level: Banana")
                        [u "  split"; u "Reason: none";
                         u "Lead Quality Score (1-10): 99 of 10"] _ _ _) _).
    + reflexivity.
    + reflexivity.
    + repeat constructor; discriminate.
    + reflexivity.
  - refine (eq_trans (proj1 (S [u "Risk Level: Banana"; u "  split"; u "Reason: none"]
                               (u "Lead Quality Score (1-10): 99 of 10") []
                               (u "1") _ _ _ _)) _).
    + reflexivity.
    + reflexivity.
    + reflexivity.
    + constructor.
    + reflexivity.
Defined.

(** A run of digits too long for a double is read as Infinity. *)
Lemma long_score_is_infinity :
  leadQualityScore
    (parseAnalysisResponse
       (u "Lead Quality Score: " ++ repeat 57 400))
  = JNumber (S754_infinity false).
Proof. vm_compute. reflexivity. Qed.

(** *** C9: falsy members on the JSON path *)

(** C9: when the brace span parses, it parses to an object, the JSON path
    returns, and falsy members are replaced: an empty string in riskLevel,
    reason, businessImpact, recommendedAction or businessInsight gives the
    default text, an empty suggestedReply gives an unset suggestedReply, a
    leadQualityScore of 0, null or missing gives 0.  So none of the five
    always-present fields is the empty string. *)
Theorem C9_falsy_members_get_defaults (text span : jsstring) (parsed : JsValue) :
  jsonMatch text = Some span ->
  Json.parse span = Some parsed ->
  let r := parseAnalysisResponse text in
  exists props,
    parsed = JObject props
    /\ tryJson text = Returned r
    /\ (prop "riskLevel" props = JString [] -> riskLevel r = JString Unknown)
    /\ (prop "reason" props = JString [] -> reason r = JString default_reason)
    /\ (prop "businessImpact" props = JString [] ->
        businessImpact r = JString default_businessImpact)
    /\ (prop "recommendedAction" props = JString [] ->
        recommendedAction r = JString default_recommendedAction)
    /\ (prop "businessInsight" props = JString [] ->
        businessInsight r = JString default_businessInsight)
    /\ (prop "suggestedReply" props = JString [] -> suggestedReply r = JUndefined)
    /\ ((exists sign, prop "leadQualityScore" props = JNumber (S754_zero sign))
        \/ prop "leadQualityScore" props = JNull
        \/ lookup (u "leadQualityScore") props = None ->
        leadQualityScore r = JNumber (number_of_Z 0))
    /\ riskLevel r <> JString []
    /\ reason r <> JString []
    /\ businessImpact r <> JString []
    /\ recommendedAction r <> JString []
    /\ businessInsight r <> JString [].
Proof.
  intros Hm Hp. cbv zeta.
  destruct (tryJson_returns text span parsed Hm Hp) as (props & -> & E).
  exists props. rewrite (parse_returned _ _ E).
  cbn [riskLevel reason businessImpact recommendedAction suggestedReply
       leadQualityScore businessInsight].
  split; [reflexivity|]. split; [exact E|].
  repeat split;
    try (intros ->; reflexivity);
    try (apply or_else_not_empty; discriminate).
  intros [(sign & H)|[H|H]].
  - rewrite H. reflexivity.
  - rewrite H. reflexivity.
  - unfold prop. rewrite H. reflexivity.
Qed.

Lemma C9_falsy_members_get_defaults_witness :
  let text :=
    q "Here is the analysis: {'riskLevel':'Safe','reason':'','suggestedReply':'','leadQualityScore':0,'businessInsight':''} Regards" in
  let span :=
    q "{'riskLevel':'Safe','reason':'','suggestedReply':'','leadQualityScore':0,'businessInsight':''}" in
  let parsed :=
    JObject [(u "riskLevel", JString Safe); (u "reason", JString []);
             (u "suggestedReply", JString []);
             (u "leadQualityScore", JNumber (number_of_Z 0));
             (u "businessInsight", JString [])] in
  jsonMatch text = Some span
  /\ Json.parse span = Some parsed
  /\ parseAnalysisResponse text
     = {| riskLevel := JString Safe;
          reason := JString default_reason;
          businessImpact := JString default_businessImpact;
          recommendedAction := JString default_recommendedAction;
          suggestedReply := JUndefined;
          leadQualityScore := JNumber (number_of_Z 0);
          businessInsight := JString default_businessInsight |}
  /\ reason (parseAnalysisResponse text) <> JString [].
Proof.
  cbv zeta.
  assert (H1 : jsonMatch (q "Here is the analysis: {'riskLevel':'Safe','reason':'','suggestedReply':'','leadQualityScore':0,'businessInsight':''} Regards")
               = Some (q "{'riskLevel':'Safe','reason':'','suggestedReply':'','leadQualityScore':0,'businessInsight':''}"))
    by (vm_compute; reflexivity).
  assert (H2 : Json.parse (q "{'riskLevel':'Safe','reason':'','suggestedReply':'','leadQualityScore':0,'businessInsight':''}")
               = Some (JObject
                         [(u "riskLevel", JString Safe); (u "reason", JString []);
                          (u "suggestedReply", JString []);
                          (u "leadQualityScore", JNumber (number_of_Z 0));
                          (u "businessInsight", JString [])]))
    by (vm_compute; reflexivity).
  split; [exact H1|]. split; [exact H2|].
  split; [vm_compute; reflexivity|].
  destruct (C9_falsy_members_get_defaults _ _ _ H1 H2) as (props & _ & _ & H).
  destruct H as (_ & _ & _ & _ & _ & _ & _ & _ & Hreason & _). exact Hreason.
Defined.

(** ** [JSON.parse] reads back what [JSON.stringify] writes *)

Lemma lex_from_step (m m' : Json.mode) (c : N) (ts : list Json.token)
    (s : jsstring) :
  Json.lex_step m c = Some (ts, m') ->
  Json.lex_from m (c :: s)
  = match Json.lex_from m' s with
    | Some rest => Some (ts ++ rest)
    | None => None
    end.
Proof. intros H. cbn [Json.lex_from]. rewrite H. reflexivity. Qed.

Lemma lex_from_silent (m m' : Json.mode) (c : N) (s : jsstring) :
  Json.lex_step m c = Some ([], m') ->
  Json.lex_from m (c :: s) = Json.lex_from m' s.
Proof.
  intros H. rewrite (lex_from_step _ _ _ _ _ H).
  destruct (Json.lex_from m' s); reflexivity.
Qed.

Lemma between_false (lo hi c : N) :
  c < lo \/ hi < c -> Js.between lo hi c = false.
Proof.
  intros H. destruct (Js.between lo hi c) eqn:E; [|reflexivity].
  apply between_spec in E. lia.
Qed.

Lemma hex_digit_value (n : N) :
  n < 16 -> Json.hex_value (Stringify.hex_digit n) = Some n.
Proof.
  intros H. unfold Stringify.hex_digit, Json.hex_value.
  destruct (n <? 10) eqn:E.
  - apply N.ltb_lt in E.
    rewrite (proj2 (between_spec 48 57 (48 + n))) by lia. f_equal. lia.
  - apply N.ltb_ge in E.
    rewrite (between_false 48 57 (87 + n)) by lia.
    rewrite (proj2 (between_spec 97 102 (87 + n))) by lia. f_equal. lia.
Qed.

Lemma hex_digits_value (c : N) :
  c < 65536 ->
  16 * (16 * (16 * (16 * 0 + (c / 4096) mod 16) + (c / 256) mod 16)
        + (c / 16) mod 16) + c mod 16 = c.
Proof.
  intros H.
  pose proof (N.div_mod c 16 ltac:(lia)) as H0.
  pose proof (N.div_mod (c / 16) 16 ltac:(lia)) as H1.
  pose proof (N.div_mod (c / 256) 16 ltac:(lia)) as H2.
  assert (E1 : c / 256 = c / 16 / 16) by (rewrite N.Div0.div_div; reflexivity).
  assert (E2 : c / 4096 = c / 256 / 16) by (rewrite N.Div0.div_div; reflexivity).
  assert (S : c / 4096 < 16) by (apply N.Div0.div_lt_upper_bound; lia).
  rewrite (N.mod_small (c / 4096) 16 S).
  rewrite E2. rewrite E1 in *. lia.
Qed.

(** An escape written by [JSON.stringify] is read back as its code unit. *)
Lemma lex_unicodeEscape (c : N) (acc rest : jsstring) :
  c < 65536 ->
  Json.lex_from (Json.MStr acc) (Stringify.unicodeEscape c ++ rest)
  = Json.lex_from (Json.MStr (c :: acc)) rest.
Proof.
  intros H. unfold Stringify.unicodeEscape. cbn [app].
  rewrite (lex_from_silent (Json.MStr acc) (Json.MEsc acc)) by reflexivity.
  rewrite (lex_from_silent (Json.MEsc acc) (Json.MHex acc 4 0)) by reflexivity.
  assert (M : forall x, x mod 16 < 16) by (intros x; apply N.mod_lt; lia).
  rewrite (lex_from_silent _ (Json.MHex acc 3 (16 * 0 + (c / 4096) mod 16)))
    by (cbn [Json.lex_step]; rewrite hex_digit_value by apply M; reflexivity).
  rewrite (lex_from_silent _ (Json.MHex acc 2
             (16 * (16 * 0 + (c / 4096) mod 16) + (c / 256) mod 16)))
    by (cbn [Json.lex_step]; rewrite hex_digit_value by apply M; reflexivity).
  rewrite (lex_from_silent _ (Json.MHex acc 1
             (16 * (16 * (16 * 0 + (c / 4096) mod 16) + (c / 256) mod 16)
              + (c / 16) mod 16)))
    by (cbn [Json.lex_step]; rewrite hex_digit_value by apply M; reflexivity).
  rewrite (lex_from_silent _ (Json.MStr (c :: acc))); [reflexivity|].
  cbn [Json.lex_step]. rewrite hex_digit_value by apply M.
  rewrite (hex_digits_value c H). reflexivity.
Qed.

(** A code unit copied by [JSON.stringify] is read back as it is. *)
Lemma lex_copied (c : N) (acc rest : jsstring) :
  (c =? 34) = false -> (c =? 92) = false -> (c <? 32) = false ->
  Json.lex_from (Json.MStr acc) (c :: rest)
  = Json.lex_from (Json.MStr (c :: acc)) rest.
Proof.
  intros H1 H2 H3. apply lex_from_silent.
  cbn [Json.lex_step]. rewrite H1, H2, H3. reflexivity.
Qed.

Lemma lex_quoteUnit (c : N) (acc rest : jsstring) :
  Json.lex_from (Json.MStr acc) (Stringify.quoteUnit c ++ rest)
  = Json.lex_from (Json.MStr (c :: acc)) rest.
Proof.
  unfold Stringify.quoteUnit.
  destruct (c =? 8) eqn:E8;
    [apply N.eqb_eq in E8; subst c; cbn [app];
     rewrite (lex_from_silent _ (Json.MEsc acc)) by reflexivity;
     apply lex_from_silent; reflexivity|].
  destruct (c =? 9) eqn:E9;
    [apply N.eqb_eq in E9; subst c; cbn [app];
     rewrite (lex_from_silent _ (Json.MEsc acc)) by reflexivity;
     apply lex_from_silent; reflexivity|].
  destruct (c =? 10) eqn:E10;
    [apply N.eqb_eq in E10; subst c; cbn [app];
     rewrite (lex_from_silent _ (Json.MEsc acc)) by reflexivity;
     apply lex_from_silent; reflexivity|].
  destruct (c =? 12) eqn:E12;
    [apply N.eqb_eq in E12; subst c; cbn [app];
     rewrite (lex_from_silent _ (Json.MEsc acc)) by reflexivity;
     apply lex_from_silent; reflexivity|].
  destruct (c =? 13) eqn:E13;
    [apply N.eqb_eq in E13; subst c; cbn [app];
     rewrite (lex_from_silent _ (Json.MEsc acc)) by reflexivity;
     apply lex_from_silent; reflexivity|].
  destruct (c =? 34) eqn:E34;
    [apply N.eqb_eq in E34; subst c; cbn [app];
     rewrite (lex_from_silent _ (Json.MEsc acc)) by reflexivity;
     apply lex_from_silent; reflexivity|].
  destruct (c =? 92) eqn:E92;
    [apply N.eqb_eq in E92; subst c; cbn [app];
     rewrite (lex_from_silent _ (Json.MEsc acc)) by reflexivity;
     apply lex_from_silent; reflexivity|].
  destruct (c <? 32) eqn:E32.
  - apply lex_unicodeEscape. apply N.ltb_lt in E32. lia.
  - cbn [app]. apply lex_copied; assumption.
Qed.

Lemma surrogate_copied (c : N) :
  Stringify.isHigh c = true \/ Stringify.isLow c = true ->
  (c =? 34) = false /\ (c =? 92) = false /\ (c <? 32) = false /\ c < 65536.
Proof.
  unfold Stringify.isHigh, Stringify.isLow.
  intros [H|H]; apply between_spec in H;
    (split; [apply N.eqb_neq; lia|]); (split; [apply N.eqb_neq; lia|]);
    (split; [apply N.ltb_ge; lia|lia]).
Qed.

Lemma lex_close_quote (acc rest : jsstring) :
  Json.lex_from (Json.MStr acc) (34 :: rest)
  = match Json.lex_from Json.MDefault rest with
    | Some ts => Some (Json.TString (rev acc) :: ts)
    | None => None
    end.
Proof.
  rewrite (lex_from_step (Json.MStr acc) Json.MDefault 34
             [Json.TString (rev acc)]) by reflexivity.
  destruct (Json.lex_from Json.MDefault rest); reflexivity.
Qed.

(** The body of a quoted string is read back, up to the closing quote.
    [quoteUnits] looks one unit ahead, so the induction carries the
    statement for the string and for the string with one more unit. *)
Lemma lex_quoteUnits (s : jsstring) :
  (forall acc rest,
     Json.lex_from (Json.MStr acc) (Stringify.quoteUnits s ++ 34 :: rest)
     = match Json.lex_from Json.MDefault rest with
       | Some ts => Some (Json.TString (rev acc ++ s) :: ts)
       | None => None
       end)
  /\ (forall c acc rest,
        Json.lex_from (Json.MStr acc)
          (Stringify.quoteUnits (c :: s) ++ 34 :: rest)
        = match Json.lex_from Json.MDefault rest with
          | Some ts => Some (Json.TString (rev acc ++ c :: s) :: ts)
          | None => None
          end).
Proof.
  induction s as [|d s [IH0 IH1]].
  - assert (B : forall acc rest,
               Json.lex_from (Json.MStr acc) (Stringify.quoteUnits [] ++ 34 :: rest)
               = match Json.lex_from Json.MDefault rest with
                 | Some ts => Some (Json.TString (rev acc ++ []) :: ts)
                 | None => None
                 end).
    { intros acc rest. cbn [Stringify.quoteUnits app].
      rewrite app_nil_r. apply lex_close_quote. }
    split; [exact B|].
    intros c acc rest. cbn [Stringify.quoteUnits].
    destruct (Stringify.isHigh c) eqn:Eh.
    + destruct (surrogate_copied c (or_introl Eh)) as (_ & _ & _ & Hc).
      rewrite (lex_unicodeEscape c acc _ Hc).
      rewrite lex_close_quote. reflexivity.
    + destruct (Stringify.isLow c) eqn:El.
      * destruct (surrogate_copied c (or_intror El)) as (_ & _ & _ & Hc).
        cbn [Stringify.quoteUnits]. rewrite app_nil_r.
        rewrite (lex_unicodeEscape c acc _ Hc).
        rewrite lex_close_quote. reflexivity.
      * cbn [Stringify.quoteUnits]. rewrite app_nil_r, lex_quoteUnit.
        rewrite lex_close_quote. reflexivity.
  - split; [exact (IH1 d)|].
    intros c acc rest.
    change (Stringify.quoteUnits (c :: d :: s))
      with (if Stringify.isHigh c
            then if Stringify.isLow d
                 then c :: d :: Stringify.quoteUnits s
                 else Stringify.unicodeEscape c ++ Stringify.quoteUnits (d :: s)
            else if Stringify.isLow c
                 then Stringify.unicodeEscape c ++ Stringify.quoteUnits (d :: s)
                 else Stringify.quoteUnit c ++ Stringify.quoteUnits (d :: s)).
    destruct (Stringify.isHigh c) eqn:Eh.
    + destruct (surrogate_copied c (or_introl Eh)) as (C1 & C2 & C3 & Hc).
      destruct (Stringify.isLow d) eqn:El.
      * destruct (surrogate_copied d (or_intror El)) as (D1 & D2 & D3 & _).
        cbn [app]. rewrite (lex_copied c acc _ C1 C2 C3).
        rewrite (lex_copied d (c :: acc) _ D1 D2 D3).
        rewrite IH0. cbn [rev]. rewrite <- !app_assoc. reflexivity.
      * rewrite <- app_assoc, (lex_unicodeEscape c acc _ Hc), IH1.
        cbn [rev]. rewrite <- app_assoc. reflexivity.
    + destruct (Stringify.isLow c) eqn:El.
      * destruct (surrogate_copied c (or_intror El)) as (_ & _ & _ & Hc).
        rewrite <- app_assoc, (lex_unicodeEscape c acc _ Hc), IH1.
        cbn [rev]. rewrite <- app_assoc. reflexivity.
      * rewrite <- app_assoc, lex_quoteUnit, IH1.
        cbn [rev]. rewrite <- app_assoc. reflexivity.
Qed.

(** A quoted string is read back as one string token. *)
Lemma lex_quote (s rest : jsstring) :
  Json.lex_from Json.MDefault (Stringify.quote s ++ rest)
  = match Json.lex_from Json.MDefault rest with
    | Some ts => Some (Json.TString s :: ts)
    | None => None
    end.
Proof.
  unfold Stringify.quote. cbn [app].
  rewrite (lex_from_silent Json.MDefault (Json.MStr [])) by reflexivity.
  rewrite <- app_assoc. cbn [app].
  exact (proj1 (lex_quoteUnits s) [] rest).
Qed.

Lemma lex_punct (c : N) (t : Json.token) (rest : jsstring) :
  Json.default_step c = Some ([t], Json.MDefault) ->
  Json.lex_from Json.MDefault (c :: rest)
  = match Json.lex_from Json.MDefault rest with
    | Some ts => Some (t :: ts)
    | None => None
    end.
Proof.
  intros H. rewrite (lex_from_step Json.MDefault Json.MDefault c [t]) by exact H.
  destruct (Json.lex_from Json.MDefault rest); reflexivity.
Qed.

(** Runs the scanner over the code units that are known. *)
Ltac lex_run :=
  repeat match goal with
         | |- context [Json.lex_from ?m (?c :: ?r)] =>
             let x := eval vm_compute in (Json.lex_step m c) in
             match x with
             | Some (?ts, ?m') =>
                 rewrite (lex_from_step m m' c ts r) by (vm_compute; reflexivity)
             end
         end.

(** A score written in decimal and followed by a comma is read back. *)
Lemma lex_score (n : Z) (rest : jsstring) :
  (0 <= n <= 10)%Z ->
  Json.lex_from Json.MDefault (Js.string_of_Z n ++ 44 :: rest)
  = match Json.lex_from Json.MDefault rest with
    | Some ts => Some (Json.TNumber (number_of_Z n) :: Json.TComma :: ts)
    | None => None
    end.
Proof.
  intros Hn.
  score_cases n Hn;
    match goal with
    | |- context [Js.string_of_Z ?k] =>
        let d := eval vm_compute in (Js.string_of_Z k) in
        change (Js.string_of_Z k) with d
    end; cbn [app]; lex_run;
    destruct (Json.lex_from Json.MDefault rest); reflexivity.
Qed.

Lemma numberText_score (n : Z) :
  (0 <= n <= 10)%Z ->
  Stringify.numberText (number_of_Z n) = Some (Js.string_of_Z n).
Proof.
  intros Hn. score_cases n Hn; reflexivity.
Qed.

Lemma or_else_score (n : Z) :
  (0 <= n <= 10)%Z ->
  or_else (JNumber (number_of_Z n)) (JNumber (number_of_Z 0))
  = JNumber (number_of_Z n).
Proof.
  intros Hn. score_cases n Hn; reflexivity.
Qed.

Lemma upto_close_brace_app (l : jsstring) :
  upto_close_brace (l ++ [125]) = Some (l ++ [125]).
Proof.
  induction l as [|c l IH]; [reflexivity|].
  cbn [app upto_close_brace]. rewrite IH. reflexivity.
Qed.

(** A text from an opening brace to a closing brace is its own span. *)
Lemma jsonMatch_braces (l : jsstring) :
  jsonMatch (123 :: l ++ [125]) = Some (123 :: l ++ [125]).
Proof.
  unfold jsonMatch. cbn [from_open_brace N.eqb Pos.eqb].
  apply (upto_close_brace_app (123 :: l)).
Qed.

(** Rewrites the scanner over a serialized object, token by token. *)
Ltac lex_members :=
  repeat first
    [ rewrite lex_quote
    | rewrite lex_score by assumption
    | rewrite (lex_punct 123 Json.TLBrace) by reflexivity
    | rewrite (lex_punct 125 Json.TRBrace) by reflexivity
    | rewrite (lex_punct 58 Json.TColon) by reflexivity
    | rewrite (lex_punct 44 Json.TComma) by reflexivity ].

Lemma parse_serialized_without_reply (rl re bi ra ins : jsstring) (n : Z) :
  (0 <= n <= 10)%Z ->
  Json.parse
    (Stringify.object
       [Stringify.member "riskLevel" (Stringify.quote rl);
        Stringify.member "reason" (Stringify.quote re);
        Stringify.member "businessImpact" (Stringify.quote bi);
        Stringify.member "recommendedAction" (Stringify.quote ra);
        Stringify.member "leadQualityScore" (Js.string_of_Z n);
        Stringify.member "businessInsight" (Stringify.quote ins)])
  = Some (JObject [(u "riskLevel", JString rl); (u "reason", JString re);
                   (u "businessImpact", JString bi);
                   (u "recommendedAction", JString ra);
                   (u "leadQualityScore", JNumber (number_of_Z n));
                   (u "businessInsight", JString ins)]).
Proof.
  intros Hn.
  unfold Json.parse, Json.lex, Stringify.object, Stringify.member.
  cbn [Stringify.join]. rewrite <- !app_assoc. cbn [app].
  lex_members. reflexivity.
Qed.

Lemma parse_serialized_with_reply (rl re bi ra sr ins : jsstring) (n : Z) :
  (0 <= n <= 10)%Z ->
  Json.parse
    (Stringify.object
       [Stringify.member "riskLevel" (Stringify.quote rl);
        Stringify.member "reason" (Stringify.quote re);
        Stringify.member "businessImpact" (Stringify.quote bi);
        Stringify.member "recommendedAction" (Stringify.quote ra);
        Stringify.member "suggestedReply" (Stringify.quote sr);
        Stringify.member "leadQualityScore" (Js.string_of_Z n);
        Stringify.member "businessInsight" (Stringify.quote ins)])
  = Some (JObject [(u "riskLevel", JString rl); (u "reason", JString re);
                   (u "businessImpact", JString bi);
                   (u "recommendedAction", JString ra);
                   (u "suggestedReply", JString sr);
                   (u "leadQualityScore", JNumber (number_of_Z n));
                   (u "businessInsight", JString ins)]).
Proof.
  intros Hn.
  unfold Json.parse, Json.lex, Stringify.object, Stringify.member.
  cbn [Stringify.join]. rewrite <- !app_assoc. cbn [app].
  lex_members. reflexivity.
Qed.

Lemma jsonMatch_object (members : list jsstring) :
  jsonMatch (Stringify.object members) = Some (Stringify.object members).
Proof. apply jsonMatch_braces. Qed.

Lemma truthy_nonEmpty (s : jsstring) : s <> [] -> truthy (JString s) = true.
Proof. destruct s; [contradiction|reflexivity]. Qed.

(** The round trip, on the fields of a result. *)
Lemma round_trip_fields (rl re bi ra ins : jsstring) (sr : JsValue) (n : Z) :
  rl <> [] -> re <> [] -> bi <> [] -> ra <> [] -> ins <> [] ->
  (0 <= n <= 10)%Z ->
  sr = JUndefined \/ (exists s, sr = JString s /\ s <> []) ->
  let r := {| riskLevel := JString rl; reason := JString re;
              businessImpact := JString bi; recommendedAction := JString ra;
              suggestedReply := sr;
              leadQualityScore := JNumber (number_of_Z n);
              businessInsight := JString ins |} in
  exists text,
    Stringify.result r = Some text
    /\ jsonMatch text = Some text
    /\ tryJson text = Returned r.
Proof.
  intros Hrl Hre Hbi Hra Hins Hn Hsr. cbv zeta.
  unfold Stringify.result.
  cbn [riskLevel reason businessImpact recommendedAction suggestedReply
       leadQualityScore businessInsight].
  rewrite (numberText_score n Hn).
  destruct Hsr as [->|(s & -> & Hs)].
  - eexists. split; [reflexivity|]. split; [apply jsonMatch_object|].
    unfold tryJson. rewrite jsonMatch_object.
    rewrite (parse_serialized_without_reply rl re bi ra ins n Hn).
    unfold fromParsed, get.
    repeat match goal with
           | |- context [lookup (u ?k) ?props] =>
               let x := eval cbv [lookup Js.eqb u map list_ascii_of_string
                                  N_of_ascii N_of_digits N.eqb Pos.eqb andb
                                  N.add N.mul Pos.add Pos.mul Pos.succ]
                        in (lookup (u k) props) in
               change (lookup (u k) props) with x
           end.
    cbv beta iota.
    rewrite (or_else_truthy (JString rl)), (or_else_truthy (JString re)),
      (or_else_truthy (JString bi)), (or_else_truthy (JString ra)),
      (or_else_truthy (JString ins))
      by (apply truthy_nonEmpty; assumption).
    rewrite (or_else_score n Hn). reflexivity.
  - eexists. split; [reflexivity|]. split; [apply jsonMatch_object|].
    unfold tryJson. rewrite jsonMatch_object.
    rewrite (parse_serialized_with_reply rl re bi ra s ins n Hn).
    unfold fromParsed, get.
    repeat match goal with
           | |- context [lookup (u ?k) ?props] =>
               let x := eval cbv [lookup Js.eqb u map list_ascii_of_string
                                  N_of_ascii N_of_digits N.eqb Pos.eqb andb
                                  N.add N.mul Pos.add Pos.mul Pos.succ]
                        in (lookup (u k) props) in
               change (lookup (u k) props) with x
           end.
    cbv beta iota.
    rewrite (or_else_truthy (JString rl)), (or_else_truthy (JString re)),
      (or_else_truthy (JString bi)), (or_else_truthy (JString ra)),
      (or_else_truthy (JString s)), (or_else_truthy (JString ins))
      by (apply truthy_nonEmpty; assumption).
    rewrite (or_else_score n Hn). reflexivity.
Qed.

(** *** C6: the round trip *)

(** C6, as stated, fails: a result with a present but empty suggestedReply
    is valid in the claim's sense, and comes back with the reply unset. *)
Lemma C6_empty_reply_is_lost :
  valid emptyReplyResult
  /\ exists text,
       Stringify.result emptyReplyResult = Some text
       /\ jsonMatch text = Some text
       /\ suggestedReply (parseAnalysisResponse text) = JUndefined
       /\ parseAnalysisResponse text <> emptyReplyResult.
Proof.
  split.
  - unfold valid, emptyReplyResult, isLevel, isNonEmptyString, isScore.
    cbn [riskLevel reason businessImpact recommendedAction suggestedReply
         leadQualityScore businessInsight].
    split; [left; reflexivity|].
    split; [eexists; split; [reflexivity|discriminate]|].
    split; [eexists; split; [reflexivity|discriminate]|].
    split; [eexists; split; [reflexivity|discriminate]|].
    split; [eexists; split; [reflexivity|discriminate]|].
    split; [right; exists []; reflexivity|].
    exists 0%Z. split; [lia|reflexivity].
  - eexists. split; [vm_compute; reflexivity|].
    split; [vm_compute; reflexivity|].
    split; [vm_compute; reflexivity|].
    intros X. apply (f_equal suggestedReply) in X.
    vm_compute in X. discriminate X.
Qed.

(** C6, amended: for every valid result (a defined level, the narrative
    fields not empty, an integer score in 0..10) whose suggestedReply is
    absent or a string that is not empty, the text [JSON.stringify] writes
    is its own brace span, the JSON path returns on it, and the result
    parsed back equals the original field for field. *)
Theorem C6_round_trip (r : AnalysisResult) :
  valid r ->
  suggestedReply r <> JString [] ->
  exists text,
    Stringify.result r = Some text
    /\ jsonMatch text = Some text
    /\ tryJson text = Returned r
    /\ parseAnalysisResponse text = r.
Proof.
  destruct r as [rl re bi ra sr lq ins].
  unfold valid, isNonEmptyString, isScore.
  cbn [riskLevel reason businessImpact recommendedAction suggestedReply
       leadQualityScore businessInsight].
  intros (Hrl & (re' & -> & Hre) & (bi' & -> & Hbi) & (ra' & -> & Hra)
          & (ins' & -> & Hins) & Hsr & (n & Hn & ->)) Hne.
  assert (Hrl' : exists rl', rl = JString rl' /\ rl' <> []).
  { destruct Hrl as [->|[->|[->| ->]]]; eexists; (split; [reflexivity|]);
      discriminate. }
  destruct Hrl' as (rl' & -> & Hrl').
  assert (Hsr' : sr = JUndefined \/ (exists s, sr = JString s /\ s <> [])).
  { destruct Hsr as [->|(s & ->)]; [left; reflexivity|].
    right. exists s. split; [reflexivity|]. intros ->. apply Hne. reflexivity. }
  destruct (round_trip_fields rl' re' bi' ra' ins' sr n
              Hrl' Hre Hbi Hra Hins Hn Hsr') as (text & H1 & H2 & H3).
  exists text. split; [exact H1|]. split; [exact H2|]. split; [exact H3|].
  apply parse_returned, H3.
Qed.

Lemma C6_round_trip_witness :
  let r := analyzeWithFallback (u "Please send a quote for 20 seats") None None in
  valid r
  /\ suggestedReply r <> JString []
  /\ exists text,
       Stringify.result r = Some text /\ parseAnalysisResponse text = r.
Proof.
  cbv zeta.
  assert (H1 : valid (analyzeWithFallback
                        (u "Please send a quote for 20 seats") None None)).
  { unfold valid, isLevel, isNonEmptyString, isScore.
    split; [left; vm_compute; reflexivity|].
    split; [eexists; split; [vm_compute; reflexivity|discriminate]|].
    split; [eexists; split; [vm_compute; reflexivity|discriminate]|].
    split; [eexists; split; [vm_compute; reflexivity|discriminate]|].
    split; [eexists; split; [vm_compute; reflexivity|discriminate]|].
    split; [right; eexists; vm_compute; reflexivity|].
    exists 5%Z. split; [lia|vm_compute; reflexivity]. }
  assert (H2 : suggestedReply (analyzeWithFallback
                                 (u "Please send a quote for 20 seats") None None)
               <> JString [])
    by (vm_compute; discriminate).
  split; [exact H1|]. split; [exact H2|].
  destruct (C6_round_trip _ H1 H2) as (text & Ha & _ & _ & Hb).
  exists text. split; [exact Ha|exact Hb].
Defined.

(** * Further properties of the route and the page *)

(** ** The fallback analyzer: its result as a whole *)

Lemma level_tests :
  Js.eqb Safe Safe = true /\ Js.eqb Suspicious Safe = false
  /\ Js.eqb HighRiskFraud Safe = false
  /\ Js.eqb Safe HighRiskFraud = false /\ Js.eqb Suspicious HighRiskFraud = false
  /\ Js.eqb HighRiskFraud HighRiskFraud = true
  /\ Js.eqb Safe Suspicious = false /\ Js.eqb Suspicious Suspicious = true
  /\ Js.eqb HighRiskFraud Suspicious = false.
Proof. repeat split; reflexivity. Qed.

(** The result, by the three outcomes of the classification. *)
Lemma analyze_by_level (message : jsstring) (senderInfo context : option jsstring) :
  (highRisk message = true
   /\ analyzeWithFallback message senderInfo context
      = {| riskLevel := JString HighRiskFraud;
           reason := JString reason_fraud;
           businessImpact := JString impact_fraud;
           recommendedAction := JString action_fraud;
           suggestedReply :=
             if isComplaint message then JString reply_complaint else JUndefined;
           leadQualityScore := JNumber (number_of_Z 0);
           businessInsight :=
             JString (if isSales message then insight_sales 0
                      else if isComplaint message then insight_complaint
                      else insight_fraud) |})
  \/ (highRisk message = false /\ suspicious message = true
      /\ analyzeWithFallback message senderInfo context
         = {| riskLevel := JString Suspicious;
              reason := JString reason_suspicious;
              businessImpact := JString impact_suspicious;
              recommendedAction := JString action_suspicious;
              suggestedReply :=
                if isComplaint message then JString reply_complaint
                else JUndefined;
              leadQualityScore := JNumber (number_of_Z 0);
              businessInsight :=
                JString (if isSales message then insight_sales 0
                         else if isComplaint message then insight_complaint
                         else insight_suspicious) |})
  \/ (highRisk message = false /\ suspicious message = false
      /\ analyzeWithFallback message senderInfo context
         = {| riskLevel := JString Safe;
              reason := JString reason_safe;
              businessImpact :=
                JString (if isComplaint message then impact_complaint
                         else if isSales message then impact_sales
                         else impact_default);
              recommendedAction :=
                JString (if isComplaint message then action_complaint
                         else if isSales message then action_sales
                         else action_default);
              suggestedReply :=
                JString (if isSales message then reply_sales
                         else if isComplaint message then reply_complaint
                         else reply_generic);
              leadQualityScore :=
                JNumber (number_of_Z (if isSales message
                                      then score_spec message else 0%Z));
              businessInsight :=
                JString (if isSales message
                         then insight_sales (score_spec message)
                         else if isComplaint message then insight_complaint
                         else insight_default) |}).
Proof.
  destruct level_tests as (T1 & T2 & T3 & T4 & T5 & T6 & T7 & T8 & T9).
  pose proof (score_classify message) as Hs.
  unfold analyzeWithFallback.
  destruct (classify_cases message) as [(H & E)|[(H & S & E)|(H & S & E)]];
    rewrite E in *; cbn [fst] in Hs; rewrite Hs, H; try rewrite S;
    cbn [negb andb]; rewrite ?andb_false_r; [left|right; left|right; right];
    repeat (split; [assumption|]); try (split; [reflexivity|]);
    rewrite ?T1, ?T2, ?T3, ?T4, ?T5, ?T6, ?T7, ?T8, ?T9; cbn [andb];
    destruct (isSales message); destruct (isComplaint message); reflexivity.
Qed.

Lemma insight_sales_not_empty (n : Z) : insight_sales n <> [].
Proof. discriminate. Qed.

(** The fields of the result, as strings that are not empty and a score. *)
Lemma fallback_fields (message : jsstring) (senderInfo context : option jsstring) :
  exists (rl re bi ra ins : jsstring) (sr : JsValue) (n : Z),
    analyzeWithFallback message senderInfo context
    = {| riskLevel := JString rl; reason := JString re;
         businessImpact := JString bi; recommendedAction := JString ra;
         suggestedReply := sr; leadQualityScore := JNumber (number_of_Z n);
         businessInsight := JString ins |}
    /\ (rl = Safe \/ rl = Suspicious \/ rl = HighRiskFraud)
    /\ re <> [] /\ bi <> [] /\ ra <> [] /\ ins <> []
    /\ (sr = JUndefined \/ (exists s, sr = JString s /\ s <> []))
    /\ (n = 0 \/ 5 <= n <= 10)%Z.
Proof.
  pose proof (score_spec_range message) as Hr.
  destruct (analyze_by_level message senderInfo context)
    as [(_ & E)|[(_ & _ & E)|(_ & _ & E)]]; rewrite E;
    do 7 eexists; (split; [reflexivity|]).
  - split; [auto|]. repeat (split; [discriminate|]). split.
    + destruct (isSales message); [apply insight_sales_not_empty|].
      destruct (isComplaint message); discriminate.
    + split; [|left; reflexivity].
      destruct (isComplaint message); [right; eexists; split;
        [reflexivity|discriminate]|left; reflexivity].
  - split; [auto|]. repeat (split; [discriminate|]). split.
    + destruct (isSales message); [apply insight_sales_not_empty|].
      destruct (isComplaint message); discriminate.
    + split; [|left; reflexivity].
      destruct (isComplaint message); [right; eexists; split;
        [reflexivity|discriminate]|left; reflexivity].
  - split; [auto|]. split; [discriminate|].
    split; [destruct (isComplaint message); [|destruct (isSales message)];
            discriminate|].
    split; [destruct (isComplaint message); [|destruct (isSales message)];
            discriminate|].
    split; [destruct (isSales message); [apply insight_sales_not_empty|];
            destruct (isComplaint message); discriminate|].
    split.
    + right. eexists. split; [reflexivity|].
      destruct (isSales message); [|destruct (isComplaint message)]; discriminate.
    + destruct (isSales message); [right; exact Hr|left; reflexivity].
Qed.

(** X1: whatever the message, the fallback analyzer returns a complete
    result: the level is Safe, Suspicious or High Risk Fraud (never
    Unknown), reason, businessImpact, recommendedAction and businessInsight
    are strings that are not empty, suggestedReply is unset or a string
    that is not empty, and the score is an integer in 0..10. *)
Theorem X1_fallback_result_is_complete
    (message : jsstring) (senderInfo context : option jsstring) :
  let r := analyzeWithFallback message senderInfo context in
  (riskLevel r = JString Safe \/ riskLevel r = JString Suspicious
   \/ riskLevel r = JString HighRiskFraud)
  /\ riskLevel r <> JString Unknown
  /\ isNonEmptyString (reason r)
  /\ isNonEmptyString (businessImpact r)
  /\ isNonEmptyString (recommendedAction r)
  /\ isNonEmptyString (businessInsight r)
  /\ (suggestedReply r = JUndefined \/ isNonEmptyString (suggestedReply r))
  /\ isScore (leadQualityScore r).
Proof.
  cbv zeta.
  destruct (fallback_fields message senderInfo context)
    as (rl & re & bi & ra & ins & sr & n & E & Hrl & Hre & Hbi & Hra & Hins
        & Hsr & Hn).
  rewrite E. cbn [riskLevel reason businessImpact recommendedAction
                  suggestedReply leadQualityScore businessInsight].
  unfold isNonEmptyString, isScore.
  split; [destruct Hrl as [->|[->| ->]]; auto|].
  split; [destruct Hrl as [->|[->| ->]]; intros X;
          apply JString_inj in X; discriminate X|].
  split; [eauto|]. split; [eauto|]. split; [eauto|]. split; [eauto|].
  split; [exact Hsr|]. exists n. split; [lia|reflexivity].
Qed.

(** X2: the fallback analyzer and the response parser agree on the wire
    format: for every message, the text [JSON.stringify] writes for the
    analyzer's result is read back by [parseAnalysisResponse] as that same
    result, through the JSON path. *)
Theorem X2_parser_reads_back_fallback_result
    (message : jsstring) (senderInfo context : option jsstring) :
  exists text,
    Stringify.result (analyzeWithFallback message senderInfo context) = Some text
    /\ tryJson text = Returned (analyzeWithFallback message senderInfo context)
    /\ parseAnalysisResponse text
       = analyzeWithFallback message senderInfo context.
Proof.
  destruct (fallback_fields message senderInfo context)
    as (rl & re & bi & ra & ins & sr & n & E & Hrl & Hre & Hbi & Hra & Hins
        & Hsr & Hn).
  rewrite E.
  assert (Hrl' : rl <> []) by (destruct Hrl as [->|[->| ->]]; discriminate).
  destruct (round_trip_fields rl re bi ra ins sr n Hrl' Hre Hbi Hra Hins
              ltac:(lia) Hsr) as (text & H1 & _ & H3).
  exists text. split; [exact H1|]. split; [exact H3|].
  apply parse_returned, H3.
Qed.

(** ** Text added around a message *)

Lemma matches_at_app (i : bool) (p s b : jsstring) :
  Js.matches_at i p s = true -> Js.matches_at i p (s ++ b) = true.
Proof.
  revert s. induction p as [|x p IH]; intros s H; [reflexivity|].
  destruct s as [|y s]; [discriminate H|].
  cbn [app Js.matches_at] in *. apply andb_true_iff in H as [H1 H2].
  rewrite H1, (IH s H2). reflexivity.
Qed.

Lemma search_app_r (i : bool) (p s b : jsstring) :
  Js.search i p s = true -> Js.search i p (s ++ b) = true.
Proof.
  induction s as [|y s IH]; intros H.
  - cbn [Js.search] in H. rewrite orb_false_r in H.
    destruct p; [|discriminate H]. destruct b; reflexivity.
  - cbn [app Js.search] in *. apply orb_true_iff in H as [H|H].
    + pose proof (matches_at_app i p (y :: s) b H) as M.
      cbn [app] in M. rewrite M. reflexivity.
    + rewrite (IH H). apply orb_true_r.
Qed.

Lemma search_app_l (i : bool) (p a s : jsstring) :
  Js.search i p s = true -> Js.search i p (a ++ s) = true.
Proof.
  intros H. induction a as [|y a IH]; [exact H|].
  cbn [app Js.search]. rewrite IH. apply orb_true_r.
Qed.

Lemma search_around (i : bool) (p a s b : jsstring) :
  Js.search i p s = true -> Js.search i p (a ++ s ++ b) = true.
Proof. intros H. apply search_app_l, search_app_r, H. Qed.

Lemma toLowerCase_app (a b : jsstring) :
  Js.toLowerCase (a ++ b) = Js.toLowerCase a ++ Js.toLowerCase b.
Proof. unfold Js.toLowerCase. apply flat_map_app. Qed.

Lemma keywords_around (keywords : list jsstring) (a s b : jsstring) :
  Js.some keywords (fun keyword => Js.includes (lowerMessage s) keyword) = true ->
  Js.some keywords
    (fun keyword => Js.includes (lowerMessage (a ++ s ++ b)) keyword) = true.
Proof.
  unfold Js.some, Js.includes, lowerMessage.
  rewrite !existsb_exists. intros (k & Hin & Hk). exists k. split; [exact Hin|].
  rewrite !toLowerCase_app. apply search_around, Hk.
Qed.

Lemma test_around (i : bool) (alts : list jsstring) (a s b : jsstring) :
  Js.test_alternation i alts s = true ->
  Js.test_alternation i alts (a ++ s ++ b) = true.
Proof.
  unfold Js.test_alternation. rewrite !existsb_exists.
  intros (k & Hin & Hk). exists k. split; [exact Hin|]. apply search_around, Hk.
Qed.

Lemma severity_by_conditions (message : jsstring) :
  severity message
  = if highRisk message then 2%nat
    else if suspicious message then 1%nat else 0%nat.
Proof.
  unfold severity.
  destruct (classify_cases message) as [(H & E)|[(H & S & E)|(H & S & E)]];
    rewrite E, H; try rewrite S; reflexivity.
Qed.

(** X3: text added before and after a message never lowers its risk
    level: every signal that holds of the message holds of the longer
    text, so Safe can only become Suspicious or High Risk Fraud, and
    Suspicious can only become High Risk Fraud. *)
Theorem X3_added_text_never_lowers_risk
    (before message after : jsstring) (senderInfo context : option jsstring) :
  (severity message <= severity (before ++ message ++ after))%nat
  /\ riskLevel (analyzeWithFallback message senderInfo context)
     = JString (match severity message with
                | 0%nat => Safe
                | 1%nat => Suspicious
                | _ => HighRiskFraud
                end).
Proof.
  split.
  - rewrite !severity_by_conditions. unfold highRisk, suspicious.
    pose proof (keywords_around fraudKeywords before message after) as F.
    pose proof (test_around false (map u ["http://"; "https://"]%string)
                  before message after) as U.
    pose proof (test_around true
                  (map u ["urgent"; "immediately"; "asap"; "right now";
                          "act now"]%string) before message after) as G.
    pose proof (test_around true
                  (map u ["password"; "account"; "credit card"; "ssn";
                          "social security"]%string) before message after) as R.
    fold (isFraud message) (isFraud (before ++ message ++ after)) in F.
    fold (hasUrl message) (hasUrl (before ++ message ++ after)) in U.
    fold (hasUrgency message) (hasUrgency (before ++ message ++ after)) in G.
    fold (requestsInfo message) (requestsInfo (before ++ message ++ after)) in R.
    revert F U G R.
    generalize (isFraud message), (isFraud (before ++ message ++ after)),
      (hasUrl message), (hasUrl (before ++ message ++ after)),
      (hasUrgency message), (hasUrgency (before ++ message ++ after)),
      (requestsInfo message), (requestsInfo (before ++ message ++ after)).
    intros [] [] [] [] [] [] [] [] F U G R; cbn; try lia;
      try discriminate (F eq_refl); try discriminate (U eq_refl);
      try discriminate (G eq_refl); try discriminate (R eq_refl).
  - rewrite riskLevel_analyze, severity_by_conditions.
    destruct (classify_cases message) as [(H & E)|[(H & S & E)|(H & S & E)]];
      rewrite E, H; try rewrite S; reflexivity.
Qed.

(** ** The narrative fields of the fallback analyzer *)

Lemma texts_distinct :
  action_fraud <> action_suspicious /\ action_fraud <> action_complaint
  /\ action_fraud <> action_sales /\ action_fraud <> action_default
  /\ action_suspicious <> action_complaint /\ action_suspicious <> action_sales
  /\ action_suspicious <> action_default
  /\ impact_fraud <> impact_suspicious /\ impact_fraud <> impact_complaint
  /\ impact_fraud <> impact_sales /\ impact_fraud <> impact_default
  /\ impact_suspicious <> impact_complaint /\ impact_suspicious <> impact_sales
  /\ impact_suspicious <> impact_default.
Proof. repeat split; discriminate. Qed.

(** X4: risk comes first in the recommended action and in the business
    impact: the action is the "DO NOT RESPOND" text exactly when the level
    is High Risk Fraud and the "Verify sender identity" text exactly when it
    is Suspicious, and likewise for the two impact texts, whether or not
    the message is a complaint or a sales inquiry. *)
Theorem X4_risk_decides_action_and_impact
    (message : jsstring) (senderInfo context : option jsstring) :
  let r := analyzeWithFallback message senderInfo context in
  (recommendedAction r = JString action_fraud
   <-> riskLevel r = JString HighRiskFraud)
  /\ (recommendedAction r = JString action_suspicious
      <-> riskLevel r = JString Suspicious)
  /\ (businessImpact r = JString impact_fraud
      <-> riskLevel r = JString HighRiskFraud)
  /\ (businessImpact r = JString impact_suspicious
      <-> riskLevel r = JString Suspicious).
Proof.
  cbv zeta.
  destruct texts_distinct
    as (A1 & A2 & A3 & A4 & A5 & A6 & A7 & I1 & I2 & I3 & I4 & I5 & I6 & I7).
  destruct levels_distinct as (D1 & D2 & D3).
  destruct (analyze_by_level message senderInfo context)
    as [(_ & E)|[(_ & _ & E)|(_ & _ & E)]]; rewrite E;
    cbn [riskLevel recommendedAction businessImpact];
    destruct (isComplaint message); destruct (isSales message);
    repeat split; intros X; try reflexivity; apply JString_inj in X;
    congruence.
Qed.

(** X5: a message with a sales keyword that is not Safe is still described
    as a sales opportunity: the business insight is the sales text with
    "Lead quality: 0/10", the score is 0, and the recommended action is the
    one of the risk level. *)
Theorem X5_risky_sales_message
    (message : jsstring) (senderInfo context : option jsstring) :
  isSales message = true ->
  riskLevel (analyzeWithFallback message senderInfo context) <> JString Safe ->
  let r := analyzeWithFallback message senderInfo context in
  businessInsight r = JString (insight_sales 0)
  /\ leadQualityScore r = JNumber (number_of_Z 0)
  /\ (recommendedAction r = JString action_fraud
      \/ recommendedAction r = JString action_suspicious).
Proof.
  intros Hsales Hrisk. cbv zeta. revert Hrisk.
  destruct (analyze_by_level message senderInfo context)
    as [(_ & E)|[(_ & _ & E)|(_ & _ & E)]]; rewrite E;
    cbn [riskLevel businessInsight leadQualityScore recommendedAction];
    rewrite Hsales; intros Hrisk; auto.
  contradiction Hrisk. reflexivity.
Qed.

Lemma X5_risky_sales_message_witness :
  let message := u "URGENT: we need a quote, send your account details" in
  isSales message = true
  /\ riskLevel (analyzeWithFallback message None None) <> JString Safe
  /\ businessInsight (analyzeWithFallback message None None)
     = JString (u "This appears to be a sales opportunity. Lead quality: 0/10. Priority response recommended to maximize conversion potential.").
Proof.
  cbv zeta.
  assert (H1 : isSales (u "URGENT: we need a quote, send your account details")
               = true) by (vm_compute; reflexivity).
  assert (H2 : riskLevel (analyzeWithFallback
                 (u "URGENT: we need a quote, send your account details")
                 None None) <> JString Safe) by (vm_compute; discriminate).
  split; [exact H1|]. split; [exact H2|].
  rewrite (proj1 (X5_risky_sales_message _ None None H1 H2)).
  vm_compute. reflexivity.
Defined.

(** ** The colour of a risk level on the page *)

Lemma colours_distinct :
  Page.green <> Page.yellow /\ Page.green <> Page.red /\ Page.green <> Page.gray
  /\ Page.yellow <> Page.red /\ Page.yellow <> Page.gray
  /\ Page.red <> Page.gray.
Proof. repeat split; discriminate. Qed.

(** X6: the page recognises every level the fallback analyzer returns:
    the colour is green exactly for Safe, yellow exactly for Suspicious,
    red exactly for High Risk Fraud, and never the gray of an unknown
    level. *)
Theorem X6_fallback_levels_have_their_colour
    (message : jsstring) (senderInfo context : option jsstring) :
  exists level,
    riskLevel (analyzeWithFallback message senderInfo context) = JString level
    /\ (Page.getRiskColor level = Page.green <-> level = Safe)
    /\ (Page.getRiskColor level = Page.yellow <-> level = Suspicious)
    /\ (Page.getRiskColor level = Page.red <-> level = HighRiskFraud)
    /\ Page.getRiskColor level <> Page.gray.
Proof.
  destruct colours_distinct as (C1 & C2 & C3 & C4 & C5 & C6).
  destruct levels_distinct as (D1 & D2 & D3).
  assert (G : Page.getRiskColor Safe = Page.green) by reflexivity.
  assert (Y : Page.getRiskColor Suspicious = Page.yellow) by reflexivity.
  assert (R : Page.getRiskColor HighRiskFraud = Page.red) by reflexivity.
  exists (fst (classify message)). split; [apply riskLevel_analyze|].
  destruct (classify_cases message) as [(_ & E)|[(_ & _ & E)|(_ & _ & E)]];
    rewrite E; cbn [fst]; rewrite ?G, ?Y, ?R;
    repeat split; intros X; try reflexivity; congruence.
Qed.

(** X7: the page tests the words in a fixed order, "safe" first: a level
    text that contains "safe" in any case is shown green, whatever else it
    contains ("Unsafe", "Not safe: high risk fraud"). *)
Theorem X7_safe_anywhere_is_green (before word after : jsstring) :
  Js.toLowerCase word = u "safe" ->
  Page.getRiskColor (before ++ word ++ after) = Page.green.
Proof.
  intros H. unfold Page.getRiskColor. cbv zeta.
  rewrite !toLowerCase_app, H.
  unfold Js.includes. rewrite search_around; reflexivity.
Qed.

Lemma X7_safe_anywhere_is_green_witness :
  Js.toLowerCase (u "SAFE") = u "safe"
  /\ Page.getRiskColor (u "UN" ++ u "SAFE" ++ u ": high risk fraud") = Page.green.
Proof.
  assert (H : Js.toLowerCase (u "SAFE") = u "safe") by reflexivity.
  split; [exact H|].
  exact (X7_safe_anywhere_is_green (u "UN") (u "SAFE") (u ": high risk fraud") H).
Defined.

(** ** The route handler *)

Lemma deliver_done (v w : JsValue) (st : list Json.frame) :
  Json.deliver v st = Json.Done w -> w = v.
Proof.
  destruct st as [|[done|done key] st]; cbn; intros H;
    [injection H as <-; reflexivity|discriminate H ..].
Qed.

Lemma value_step_done (st : list Json.frame) (t : Json.token) (w : JsValue) :
  Json.value_step st t = Some (Json.Done w) -> w <> JUndefined.
Proof.
  destruct t; cbn; intros H; try discriminate H; injection H as H;
    apply deliver_done in H; subst w; discriminate.
Qed.

Lemma parse_step_done (p : Json.pstate) (t : Json.token) (w : JsValue) :
  Json.parse_step p t = Some (Json.Done w) -> w <> JUndefined.
Proof.
  destruct p; destruct t; cbn [Json.parse_step]; intros H;
    try discriminate H;
    try (eapply value_step_done; exact H);
    injection H as H; try discriminate H;
    apply deliver_done in H; subst w; discriminate.
Qed.

Lemma parse_from_defined (ts : list Json.token) (p : Json.pstate) (v : JsValue) :
  (forall w, p = Json.Done w -> w <> JUndefined) ->
  Json.parse_from p ts = Some v -> v <> JUndefined.
Proof.
  revert p. induction ts as [|t ts IH]; intros p Hp H; cbn in H.
  - destruct p; try discriminate H. injection H as <-. apply Hp. reflexivity.
  - destruct (Json.parse_step p t) as [p'|] eqn:S; [|discriminate H].
    apply (IH p'); [|exact H].
    intros w ->. eapply parse_step_done, S.
Qed.

(** [JSON.parse] never returns [undefined]. *)
Lemma parse_defined (text : jsstring) (v : JsValue) :
  Json.parse text = Some v -> v <> JUndefined.
Proof.
  unfold Json.parse. destruct (Json.lex text) as [ts|]; [|discriminate].
  apply parse_from_defined. intros w H. discriminate H.
Qed.

Lemma get_throws (parsed : JsValue) (name : jsstring) :
  get parsed name = None <-> parsed = JNull \/ parsed = JUndefined.
Proof.
  unfold get. destruct parsed; try (destruct (lookup name props));
    split; intros H; try discriminate H; auto;
    destruct H as [H|H]; discriminate H.
Qed.

Lemma get_reads (parsed : JsValue) (name : jsstring) :
  parsed <> JNull -> parsed <> JUndefined -> exists v, get parsed name = Some v.
Proof.
  intros H1 H2. destruct (get parsed name) as [v|] eqn:E; [eauto|].
  apply get_throws in E as [E|E]; contradiction.
Qed.

Lemma selectAnalyzer_not_bad (claude openai : provider) (e : env)
    (m : jsstring) (si ctx : JsValue) :
  selectAnalyzer claude openai e m si ctx <> BadRequest.
Proof.
  unfold selectAnalyzer.
  destruct (isSet (ANTHROPIC_API_KEY e)); destruct (isSet (OPENAI_API_KEY e));
    destruct (analyzeWith claude m si ctx);
    destruct (analyzeWith openai m si ctx); discriminate.
Qed.

Lemma selectAnalyzer_error (claude openai : provider) (e : env)
    (m : jsstring) (si ctx : JsValue) :
  selectAnalyzer claude openai e m si ctx = ServerError
  <-> isSet (ANTHROPIC_API_KEY e) = true /\ isSet (OPENAI_API_KEY e) = true
      /\ claude m si ctx = ApiFailed /\ openai m si ctx = ApiFailed.
Proof.
  unfold selectAnalyzer, analyzeWith.
  destruct (isSet (ANTHROPIC_API_KEY e)); destruct (isSet (OPENAI_API_KEY e));
    destruct (claude m si ctx); destruct (openai m si ctx);
    split; intros H; try discriminate H; try reflexivity; auto;
    destruct H as (H1 & H2 & H3 & H4); discriminate.
Qed.

(** The handler on a body that parses to a value other than [null]. *)
Lemma POST_parsed (claude openai : provider) (e : env) (body : jsstring)
    (parsed : JsValue) :
  Json.parse body = Some parsed -> parsed <> JNull ->
  exists message si ctx,
    get parsed (u "message") = Some message
    /\ get parsed (u "senderInfo") = Some si
    /\ get parsed (u "context") = Some ctx
    /\ POST claude openai e body
       = match message with
         | JString m =>
             if Js.nonEmpty m then selectAnalyzer claude openai e m si ctx
             else BadRequest
         | _ => BadRequest
         end.
Proof.
  intros Hp Hn. pose proof (parse_defined _ _ Hp) as Hu.
  destruct (get_reads parsed (u "message") Hn Hu) as [message Hm].
  destruct (get_reads parsed (u "senderInfo") Hn Hu) as [si Hs].
  destruct (get_reads parsed (u "context") Hn Hu) as [ctx Hc].
  exists message, si, ctx. repeat (split; [assumption|]).
  unfold POST. rewrite Hp, Hm, Hs, Hc. reflexivity.
Qed.

(** X8: the handler answers 400 exactly when the body is JSON other than
    [null] whose [message] is missing, empty or not a string; the keys in
    the environment and the remote models play no part in it. *)
Theorem X8_bad_request_exactly
    (claude openai : provider) (e : env) (body : jsstring) :
  POST claude openai e body = BadRequest
  <-> exists parsed,
        Json.parse body = Some parsed
        /\ parsed <> JNull
        /\ forall m, get parsed (u "message") = Some (JString m) -> m = [].
Proof.
  split.
  - intros H. destruct (Json.parse body) as [parsed|] eqn:Hp;
      [|unfold POST in H; rewrite Hp in H; discriminate H].
    exists parsed. split; [reflexivity|].
    assert (Hn : parsed <> JNull).
    { intros ->. unfold POST in H. rewrite Hp in H. discriminate H. }
    split; [exact Hn|]. intros m Hm.
    destruct (POST_parsed claude openai e body parsed Hp Hn)
      as (message & si & ctx & Hm' & _ & _ & E).
    rewrite Hm in Hm'. injection Hm' as <-. rewrite E in H.
    destruct m as [|c m]; [reflexivity|].
    cbn [Js.nonEmpty] in H. apply selectAnalyzer_not_bad in H. contradiction.
  - intros (parsed & Hp & Hn & Hmsg).
    destruct (POST_parsed claude openai e body parsed Hp Hn)
      as (message & si & ctx & Hm & _ & _ & E).
    rewrite E. destruct message; try reflexivity.
    rewrite (Hmsg s Hm). reflexivity.
Qed.

Lemma X8_bad_request_exactly_witness :
  let failing : provider := fun _ _ _ => ApiFailed in
  POST failing failing noKeys (q "{'message':'','context':'website'}")
  = BadRequest.
Proof.
  cbv zeta.
  apply (proj2 (X8_bad_request_exactly (fun _ _ _ => ApiFailed)
                  (fun _ _ _ => ApiFailed) noKeys
                  (q "{'message':'','context':'website'}"))).
  exists (JObject [(u "message", JString []);
                   (u "context", JString (u "website"))]).
  split; [vm_compute; reflexivity|].
  split; [discriminate|].
  intros m H. vm_compute in H. injection H as <-. reflexivity.
Defined.

(** X9: the handler answers 500 exactly when the body is not JSON, or is
    [null], or when the message is valid, both keys are set and both
    remote models fail: after a failure of Claude a failure of OpenAI is
    not followed by the fallback analyzer. *)
Theorem X9_server_error_exactly
    (claude openai : provider) (e : env) (body : jsstring) :
  POST claude openai e body = ServerError
  <-> Json.parse body = None
      \/ Json.parse body = Some JNull
      \/ exists parsed m si ctx,
           Json.parse body = Some parsed
           /\ get parsed (u "message") = Some (JString m) /\ m <> []
           /\ get parsed (u "senderInfo") = Some si
           /\ get parsed (u "context") = Some ctx
           /\ isSet (ANTHROPIC_API_KEY e) = true
           /\ isSet (OPENAI_API_KEY e) = true
           /\ claude m si ctx = ApiFailed
           /\ openai m si ctx = ApiFailed.
Proof.
  split.
  - intros H. destruct (Json.parse body) as [parsed|] eqn:Hp; [|auto].
    right. destruct parsed eqn:Hv; try (left; reflexivity); right;
      (assert (Hn : parsed <> JNull) by (subst parsed; discriminate));
      rewrite <- Hv in Hp;
      destruct (POST_parsed claude openai e body parsed Hp Hn)
        as (message & si & ctx & Hm & Hs & Hc & E);
      rewrite E in H; (destruct message as [| | | |m| |]; try discriminate H);
      (destruct m as [|c m]; [discriminate H|]); cbn [Js.nonEmpty] in H;
      apply selectAnalyzer_error in H as (H1 & H2 & H3 & H4);
      exists parsed, (c :: m), si, ctx; rewrite <- Hv;
      repeat (split; [first [assumption|reflexivity|discriminate]|]);
      assumption.
  - intros [H|[H|(parsed & m & si & ctx & Hp & Hm & Hne & Hs & Hc & H)]];
      unfold POST; rewrite ?H; try reflexivity.
    rewrite Hp, Hm, Hs, Hc. destruct m as [|c m]; [contradiction|].
    cbn [Js.nonEmpty]. apply selectAnalyzer_error, H.
Qed.

(** X10: for a body with a valid message the handler answers 200 with the
    result of the fallback analyzer whenever no key is set, or the only key
    set is the one of a remote model that fails. *)
Theorem X10_fallback_is_the_answer
    (claude openai : provider) (e : env) (body : jsstring)
    (parsed : JsValue) (m : jsstring) (si ctx : JsValue) :
  Json.parse body = Some parsed ->
  get parsed (u "message") = Some (JString m) ->
  m <> [] ->
  get parsed (u "senderInfo") = Some si ->
  get parsed (u "context") = Some ctx ->
  (isSet (ANTHROPIC_API_KEY e) = false /\ isSet (OPENAI_API_KEY e) = false)
  \/ (isSet (ANTHROPIC_API_KEY e) = true /\ isSet (OPENAI_API_KEY e) = false
      /\ claude m si ctx = ApiFailed)
  \/ (isSet (ANTHROPIC_API_KEY e) = false /\ isSet (OPENAI_API_KEY e) = true
      /\ openai m si ctx = ApiFailed) ->
  POST claude openai e body
  = Ok (analyzeWithFallback m (optionalString si) (optionalString ctx)).
Proof.
  intros Hp Hm Hne Hs Hc H. unfold POST. rewrite Hp, Hm, Hs, Hc.
  destruct m as [|c m]; [contradiction|]. cbn [Js.nonEmpty].
  unfold selectAnalyzer, analyzeWith.
  destruct H as [(A & O)|[(A & O & F)|(A & O & F)]]; rewrite A, O;
    try rewrite F; reflexivity.
Qed.

Lemma X10_fallback_is_the_answer_witness :
  let body := q "{'message':'Please send a quote','context':null}" in
  let failing : provider := fun _ _ _ => ApiFailed in
  let e := {| ANTHROPIC_API_KEY := Some (u "sk-ant-1"); OPENAI_API_KEY := Some [] |} in
  isSet (ANTHROPIC_API_KEY e) = true /\ isSet (OPENAI_API_KEY e) = false
  /\ POST failing failing e body
     = Ok (analyzeWithFallback (u "Please send a quote") None None).
Proof.
  cbv zeta. split; [reflexivity|]. split; [reflexivity|].
  apply (X10_fallback_is_the_answer _ _ _ _
           (JObject [(u "message", JString (u "Please send a quote"));
                     (u "context", JNull)])
           (u "Please send a quote") JUndefined JNull).
  - vm_compute. reflexivity.
  - vm_compute. reflexivity.
  - discriminate.
  - vm_compute. reflexivity.
  - vm_compute. reflexivity.
  - right. left. repeat split.
Defined.

(** X11: Claude comes first.  When the Anthropic key is set and Claude
    answers with a text, the handler answers 200 with what the response
    parser makes of that text, whatever the OpenAI key is and whatever
    OpenAI would answer. *)
Theorem X11_claude_answer_is_parsed
    (claude openai : provider) (e : env) (body : jsstring)
    (parsed : JsValue) (m text : jsstring) (si ctx : JsValue) :
  Json.parse body = Some parsed ->
  get parsed (u "message") = Some (JString m) ->
  m <> [] ->
  get parsed (u "senderInfo") = Some si ->
  get parsed (u "context") = Some ctx ->
  isSet (ANTHROPIC_API_KEY e) = true ->
  claude m si ctx = ApiText text ->
  POST claude openai e body = Ok (parseAnalysisResponse text).
Proof.
  intros Hp Hm Hne Hs Hc A T. unfold POST. rewrite Hp, Hm, Hs, Hc.
  destruct m as [|c m]; [contradiction|]. cbn [Js.nonEmpty].
  unfold selectAnalyzer, analyzeWith. rewrite A, T. reflexivity.
Qed.

Lemma X11_claude_answer_is_parsed_witness :
  let body := q "{'message':'hello','senderInfo':'a@b.c','context':''}" in
  let claude : provider := fun _ _ _ => ApiText (q "{'riskLevel':'Safe'}") in
  let openai : provider := fun _ _ _ => ApiText (u "Risk Level: Suspicious") in
  let e := {| ANTHROPIC_API_KEY := Some (u "k1"); OPENAI_API_KEY := Some (u "k2") |} in
  isSet (ANTHROPIC_API_KEY e) = true
  /\ riskLevel (parseAnalysisResponse (q "{'riskLevel':'Safe'}")) = JString Safe
  /\ POST claude openai e body
     = Ok (parseAnalysisResponse (q "{'riskLevel':'Safe'}")).
Proof.
  cbv zeta. split; [reflexivity|]. split; [vm_compute; reflexivity|].
  apply (X11_claude_answer_is_parsed _ _ _ _
           (JObject [(u "message", JString (u "hello"));
                     (u "senderInfo", JString (u "a@b.c"));
                     (u "context", JString [])])
           (u "hello") _ (JString (u "a@b.c")) (JString [])).
  - vm_compute. reflexivity.
  - vm_compute. reflexivity.
  - discriminate.
  - vm_compute. reflexivity.
  - vm_compute. reflexivity.
  - reflexivity.
  - reflexivity.
Defined.

(** ** The page and the route together *)

Lemma trim_empty : Js.trim [] = [].
Proof. reflexivity. Qed.

(** The handler on the body the page writes. *)
Lemma POST_requestBody (claude openai : provider) (e : env)
    (message senderInfo context : jsstring) :
  message <> [] ->
  POST claude openai e (Page.requestBody message senderInfo context)
  = selectAnalyzer claude openai e message (JString senderInfo) (JString context).
Proof.
  intros Hne.
  assert (Hp : Json.parse (Page.requestBody message senderInfo context)
               = Some (JObject [(u "message", JString message);
                                (u "senderInfo", JString senderInfo);
                                (u "context", JString context)])).
  { unfold Json.parse, Json.lex, Page.requestBody, Stringify.object,
      Stringify.member.
    cbn [Stringify.join]. rewrite <- !app_assoc. cbn [app].
    lex_members. reflexivity. }
  unfold POST. rewrite Hp.
  change (get (JObject [(u "message", JString message);
                        (u "senderInfo", JString senderInfo);
                        (u "context", JString context)]) (u "message"))
    with (Some (JString message)).
  change (get (JObject [(u "message", JString message);
                        (u "senderInfo", JString senderInfo);
                        (u "context", JString context)]) (u "senderInfo"))
    with (Some (JString senderInfo)).
  change (get (JObject [(u "message", JString message);
                        (u "senderInfo", JString senderInfo);
                        (u "context", JString context)]) (u "context"))
    with (Some (JString context)).
  destruct message as [|c m]; [contradiction|]. reflexivity.
Qed.

(** X12: the page and the route agree on the request.  For every message
    that is not blank and every senderInfo and context, the page sends a
    body that the handler reads back as exactly these three strings: it
    never answers 400 to it, and without keys it answers 200 with the
    result of the fallback analyzer on that message. *)
Theorem X12_page_request_reaches_the_analyzer
    (claude openai : provider) (e : env)
    (message senderInfo context : jsstring) :
  Js.trim message <> [] ->
  Page.analyzeMessage message senderInfo context
  = Page.Sent (Page.requestBody message senderInfo context)
  /\ POST claude openai e (Page.requestBody message senderInfo context)
     = selectAnalyzer claude openai e message (JString senderInfo)
         (JString context)
  /\ POST claude openai e (Page.requestBody message senderInfo context)
     <> BadRequest
  /\ POST claude openai noKeys (Page.requestBody message senderInfo context)
     = Ok (analyzeWithFallback message (Some senderInfo) (Some context)).
Proof.
  intros Ht.
  assert (Hne : message <> []) by (intros ->; apply Ht, trim_empty).
  split.
  - unfold Page.analyzeMessage. destruct (Js.trim message); [contradiction|].
    reflexivity.
  - rewrite !POST_requestBody by exact Hne. split; [reflexivity|].
    split; [apply selectAnalyzer_not_bad|reflexivity].
Qed.

Lemma X12_page_request_reaches_the_analyzer_witness :
  let failing : provider := fun _ _ _ => ApiFailed in
  Js.trim (u " Is the invoice \ paid? ") <> []
  /\ POST failing failing noKeys
       (Page.requestBody (u " Is the invoice \ paid? ") (u "Ann") [])
     = Ok (analyzeWithFallback (u " Is the invoice \ paid? ") (Some (u "Ann"))
             (Some [])).
Proof.
  cbv zeta.
  assert (H : Js.trim (u " Is the invoice \ paid? ") <> [])
    by (vm_compute; discriminate).
  split; [exact H|].
  exact (proj2 (proj2 (proj2
           (X12_page_request_reaches_the_analyzer
              (fun _ _ _ => ApiFailed) (fun _ _ _ => ApiFailed) noKeys
              (u " Is the invoice \ paid? ") (u "Ann") [] H)))).
Defined.

(** X13: the page refuses a message of white space only, the handler does
    not: it tests the message for emptiness without trimming, so a body
    with such a message is analysed like any other. *)
Theorem X13_blank_message_page_and_route
    (claude openai : provider) (e : env)
    (message senderInfo context : jsstring) :
  message <> [] ->
  Js.trim message = [] ->
  Page.analyzeMessage message senderInfo context
  = Page.Refused (u "Please enter a message to analyze")
  /\ POST claude openai e (Page.requestBody message senderInfo context)
     <> BadRequest
  /\ POST claude openai noKeys (Page.requestBody message senderInfo context)
     = Ok (analyzeWithFallback message (Some senderInfo) (Some context)).
Proof.
  intros Hne Ht. split.
  - unfold Page.analyzeMessage. rewrite Ht. reflexivity.
  - rewrite !POST_requestBody by exact Hne.
    split; [apply selectAnalyzer_not_bad|reflexivity].
Qed.

Lemma X13_blank_message_page_and_route_witness :
  let failing : provider := fun _ _ _ => ApiFailed in
  u "   " <> [] /\ Js.trim (u "   ") = []
  /\ POST failing failing noKeys (Page.requestBody (u "   ") [] [])
     = Ok (analyzeWithFallback (u "   ") (Some []) (Some [])).
Proof.
  cbv zeta.
  assert (H1 : u "   " <> []) by discriminate.
  assert (H2 : Js.trim (u "   ") = []) by reflexivity.
  split; [exact H1|]. split; [exact H2|].
  exact (proj2 (proj2 (X13_blank_message_page_and_route
                         (fun _ _ _ => ApiFailed) (fun _ _ _ => ApiFailed) noKeys
                         (u "   ") [] [] H1 H2))).
Defined.

(** ** The brace span of the response parser *)

Lemma from_open_brace_skip (before s : jsstring) :
  without 123 before -> from_open_brace (before ++ s) = from_open_brace s.
Proof.
  induction 1 as [|c before Hc _ IH]; [reflexivity|].
  cbn [app from_open_brace]. apply N.eqb_neq in Hc. rewrite Hc. exact IH.
Qed.

Lemma from_open_brace_app (s s' after : jsstring) :
  from_open_brace s = Some s' -> from_open_brace (s ++ after) = Some (s' ++ after).
Proof.
  induction s as [|c s IH]; [discriminate|]. cbn [app from_open_brace].
  destruct (c =? 123); [intros [= <-]; reflexivity|exact IH].
Qed.

Lemma upto_close_brace_none (s : jsstring) :
  without 125 s -> upto_close_brace s = None.
Proof.
  induction 1 as [|c s Hc _ IH]; [reflexivity|].
  cbn [upto_close_brace]. rewrite IH. apply N.eqb_neq in Hc. rewrite Hc.
  reflexivity.
Qed.

Lemma upto_close_brace_skip (s after : jsstring) :
  without 125 after -> upto_close_brace (s ++ after) = upto_close_brace s.
Proof.
  intros H. induction s as [|c s IH]; [apply upto_close_brace_none, H|].
  cbn [app upto_close_brace]. rewrite IH. reflexivity.
Qed.

Lemma from_open_brace_suffix (s s' : jsstring) :
  from_open_brace s = Some s' -> exists l, s = l ++ s'.
Proof.
  revert s'. induction s as [|c s IH]; intros s'; [discriminate|].
  cbn [from_open_brace]. destruct (c =? 123).
  - intros [= <-]. exists []. reflexivity.
  - intros H. destruct (IH s' H) as [l ->]. exists (c :: l). reflexivity.
Qed.

Lemma without_app (c : N) (a b : jsstring) :
  without c (a ++ b) -> without c b.
Proof. unfold without. rewrite Forall_app. tauto. Qed.

Lemma from_open_brace_none (s : jsstring) :
  from_open_brace s = None -> without 123 s.
Proof.
  induction s as [|c s IH]; [constructor|].
  cbn [from_open_brace]. destruct (c =? 123) eqn:C; [discriminate|].
  intros H. constructor; [apply N.eqb_neq, C|apply IH, H].
Qed.

(** Text without braces around a text does not change its brace span. *)
Lemma jsonMatch_around (before text after : jsstring) :
  without 123 before -> without 125 after ->
  jsonMatch (before ++ text ++ after) = jsonMatch text.
Proof.
  intros Hb Ha. unfold jsonMatch. rewrite (from_open_brace_skip before _ Hb).
  destruct (from_open_brace text) as [s'|] eqn:E.
  - rewrite (from_open_brace_app text s' after E).
    apply upto_close_brace_skip, Ha.
  - rewrite (from_open_brace_skip text after (from_open_brace_none text E)).
    destruct (from_open_brace after) as [s''|] eqn:E'; [|reflexivity].
    destruct (from_open_brace_suffix _ _ E') as [l ->].
    apply upto_close_brace_none. eapply without_app, Ha.
Qed.

(** X14: prose around the JSON object does not matter as long as it has no
    braces: when the JSON path returns on a text, it returns the same
    result on that text with any brace-free text before and any text
    without closing brace after it. *)
Theorem X14_prose_around_json_is_ignored
    (before text after : jsstring) (r : AnalysisResult) :
  without 123 before ->
  without 125 after ->
  tryJson text = Returned r ->
  parseAnalysisResponse (before ++ text ++ after) = r
  /\ parseAnalysisResponse text = r.
Proof.
  intros Hb Ha H. split; [|apply parse_returned, H].
  apply parse_returned. unfold tryJson in *.
  rewrite (jsonMatch_around before text after Hb Ha). exact H.
Qed.

Lemma X14_prose_around_json_is_ignored_witness :
  let before := u "Here is my analysis:
" in
  let text := q "{'riskLevel':'Suspicious','leadQualityScore':3}" in
  let after := u "
Let me know if you need more." in
  without 123 before /\ without 125 after
  /\ riskLevel (parseAnalysisResponse (before ++ text ++ after))
     = JString Suspicious.
Proof.
  cbv zeta.
  assert (Hb : without 123 (u "Here is my analysis:
")) by (repeat constructor; discriminate).
  assert (Ha : without 125 (u "
Let me know if you need more.")) by (repeat constructor; discriminate).
  assert (H : tryJson (q "{'riskLevel':'Suspicious','leadQualityScore':3}")
              = Returned (parseAnalysisResponse
                            (q "{'riskLevel':'Suspicious','leadQualityScore':3}")))
    by (vm_compute; reflexivity).
  split; [exact Hb|]. split; [exact Ha|].
  rewrite (proj1 (X14_prose_around_json_is_ignored _ _ _ _ Hb Ha H)).
  vm_compute. reflexivity.
Defined.

Lemma upto_close_brace_app_some (a b b' : jsstring) :
  upto_close_brace b = Some b' -> upto_close_brace (a ++ b) = Some (a ++ b').
Proof.
  intros H. induction a as [|c a IH]; [exact H|].
  cbn [app upto_close_brace]. rewrite IH. reflexivity.
Qed.

Lemma upto_close_brace_ends (s r : jsstring) :
  upto_close_brace s = Some r -> exists l, r = l ++ [125].
Proof.
  revert r. induction s as [|c s IH]; intros r; [discriminate|].
  cbn [upto_close_brace]. destruct (upto_close_brace s) as [r'|].
  - intros [= <-]. destruct (IH r' eq_refl) as [l ->]. exists (c :: l). reflexivity.
  - destruct (c =? 125) eqn:C; [|discriminate]. intros [= <-].
    apply N.eqb_eq in C. subst c. exists []. reflexivity.
Qed.

Lemma upto_close_brace_finds (s : jsstring) :
  In 125 s -> exists r, upto_close_brace s = Some r.
Proof.
  induction s as [|c s IH]; [contradiction|]. intros [->|H].
  - cbn [upto_close_brace]. destruct (upto_close_brace s); [eauto|].
    rewrite N.eqb_refl. eauto.
  - destruct (IH H) as [r E]. cbn [upto_close_brace]. rewrite E. eauto.
Qed.

(** A closing brace read by the scanner, at the end of a text it accepts:
    it completes a token and leaves the scanner between tokens. *)
Lemma lex_step_close_brace (m m' : Json.mode) (t1 t2 : list Json.token) :
  Json.lex_step m 125 = Some (t1, m') -> Json.lex_end m' = Some t2 ->
  m' = Json.MDefault /\ t2 = [] /\ t1 <> [].
Proof.
  destruct m as [|acc|acc|acc todo v|rest t|neg st].
  - cbn. intros [= <- <-] [= <-]. repeat split. discriminate.
  - cbn. intros [= <- <-]. discriminate.
  - cbn. discriminate.
  - cbn. discriminate.
  - destruct rest as [|x [|y rest]]; cbn [Json.lex_step]; [discriminate| |].
    + destruct (125 =? x); [|discriminate].
      intros [= <- <-] [= <-]. repeat split. discriminate.
    + destruct (125 =? x); [|discriminate]. intros [= <- <-]. discriminate.
  - cbn [Json.lex_step].
    assert (N : Json.num_step st 125 = None) by (destruct st; reflexivity).
    rewrite N. destruct (Json.number_end neg st); [|discriminate].
    cbn. intros [= <- <-] [= <-]. repeat split. discriminate.
Qed.

Lemma lex_through_close_brace (a : jsstring) :
  forall (m : Json.mode) (ts : list Json.token),
    Json.lex_from m (a ++ [125]) = Some ts ->
    ts <> []
    /\ forall b,
         Json.lex_from m (a ++ 125 :: b)
         = match Json.lex_from Json.MDefault b with
           | Some ts2 => Some (ts ++ ts2)
           | None => None
           end.
Proof.
  induction a as [|c a IH]; intros m ts; cbn [app Json.lex_from].
  - destruct (Json.lex_step m 125) as [[t1 m']|] eqn:S; [|discriminate].
    destruct (Json.lex_end m') as [t2|] eqn:E; [|discriminate].
    destruct (lex_step_close_brace m m' t1 t2 S E) as (-> & -> & Hne).
    intros [= <-]. rewrite app_nil_r. split; [exact Hne|]. reflexivity.
  - destruct (Json.lex_step m c) as [[t1 m']|]; [|discriminate].
    destruct (Json.lex_from m' (a ++ [125])) as [ts'|] eqn:E; [|discriminate].
    destruct (IH m' ts' E) as (Hne & Hb). intros [= <-]. split.
    + intros X. apply app_eq_nil in X as [_ X]. contradiction.
    + intros b. rewrite Hb.
      destruct (Json.lex_from Json.MDefault b); [|reflexivity].
      rewrite app_assoc. reflexivity.
Qed.

(** Nothing may follow a complete value. *)
Lemma parse_from_extra (ts : list Json.token) :
  forall (p : Json.pstate) (v : JsValue) (t : Json.token) (ts2 : list Json.token),
    Json.parse_from p ts = Some v -> Json.parse_from p (ts ++ t :: ts2) = None.
Proof.
  induction ts as [|x ts IH]; intros p v t ts2; cbn [app Json.parse_from].
  - destruct p; try discriminate. intros _. destruct t; reflexivity.
  - destruct (Json.parse_step p x) as [p'|]; [|discriminate]. apply IH.
Qed.

(** X15: a closing brace anywhere after the JSON object defeats the JSON
    path.  The span runs to the last closing brace of the text, so when a
    text that is a JSON object on its own is followed by text with a
    closing brace, [JSON.parse] fails on the span, the failure is logged
    and the result is the one of the line scanner. *)
Theorem X15_closing_brace_after_json_defeats_it
    (text after : jsstring) (parsed : JsValue) :
  jsonMatch text = Some text ->
  Json.parse text = Some parsed ->
  In 125 after ->
  tryJson (text ++ after) = Thrown
  /\ parseAnalysisResponse_io (text ++ after) []
     = (scanLines (text ++ after), [JsonParsingFailed]).
Proof.
  intros Hm Hp Hin.
  assert (T : tryJson (text ++ after) = Thrown).
  { destruct (upto_close_brace_finds after Hin) as [after' Ha].
    destruct (upto_close_brace_ends after after' Ha) as [l2 ->].
    destruct (jsonMatch_head text text Hm) as [s Hs].
    assert (Hu : upto_close_brace text = Some text).
    { revert Hm. unfold jsonMatch. rewrite Hs. cbn [from_open_brace N.eqb Pos.eqb].
      trivial. }
    destruct (upto_close_brace_ends text text Hu) as [l Hl].
    assert (Hspan : jsonMatch (text ++ after) = Some (text ++ l2 ++ [125])).
    { unfold jsonMatch.
      assert (F : from_open_brace (text ++ after) = Some (text ++ after))
        by (rewrite Hs; reflexivity).
      rewrite F. apply (upto_close_brace_app_some text after _ Ha). }
    unfold tryJson. rewrite Hspan.
    assert (Hnone : Json.parse (text ++ l2 ++ [125]) = None).
    { revert Hp. unfold Json.parse, Json.lex.
      destruct (Json.lex_from Json.MDefault text) as [ts|] eqn:L; [|discriminate].
      intros Hp. rewrite Hl in L |- *.
      destruct (lex_through_close_brace l Json.MDefault ts L) as (_ & Hb).
      rewrite <- app_assoc. cbn [app]. rewrite Hb.
      destruct (Json.lex_from Json.MDefault (l2 ++ [125])) as [ts2|] eqn:L2;
        [|reflexivity].
      destruct (lex_through_close_brace l2 Json.MDefault ts2 L2) as (Hne & _).
      destruct ts2 as [|t ts2]; [contradiction|].
      apply (parse_from_extra ts _ parsed t ts2 Hp). }
    rewrite Hnone. reflexivity. }
  split; [exact T|].
  unfold parseAnalysisResponse_io. rewrite T. reflexivity.
Qed.

Lemma X15_closing_brace_after_json_defeats_it_witness :
  let text := q "{'riskLevel':'High Risk Fraud','reason':'phishing'}" in
  let after := u " Reply with {name} filled in." in
  jsonMatch text = Some text
  /\ riskLevel (parseAnalysisResponse text) = JString HighRiskFraud
  /\ In 125 after
  /\ riskLevel (parseAnalysisResponse (text ++ after)) = JString Unknown.
Proof.
  cbv zeta.
  assert (H1 : jsonMatch (q "{'riskLevel':'High Risk Fraud','reason':'phishing'}")
               = Some (q "{'riskLevel':'High Risk Fraud','reason':'phishing'}"))
    by (vm_compute; reflexivity).
  assert (H2 : Json.parse (q "{'riskLevel':'High Risk Fraud','reason':'phishing'}")
               = Some (JObject [(u "riskLevel", JString HighRiskFraud);
                                (u "reason", JString (u "phishing"))]))
    by (vm_compute; reflexivity).
  assert (H3 : In 125 (u " Reply with {name} filled in."))
    by (vm_compute; tauto).
  split; [exact H1|]. split; [vm_compute; reflexivity|]. split; [exact H3|].
  pose proof (proj2 (X15_closing_brace_after_json_defeats_it _ _ _ H1 H2 H3)) as E.
  unfold parseAnalysisResponse. rewrite E. vm_compute. reflexivity.
Defined.

(** ** What the response parser returns on every text *)

Lemma truthy_defined (v : JsValue) : truthy v = true -> isDefined v.
Proof. intros H. split; intros ->; discriminate H. Qed.

Lemma or_else_default_truthy (v d : JsValue) :
  truthy d = true -> truthy (or_else v d) = true.
Proof. unfold or_else. intros Hd. destruct (truthy v) eqn:E; assumption. Qed.

Lemma step_replyRead (st : Scan.state) (line : jsstring) :
  replyRead (Scan.r_suggestedReply (Scan.res st)) ->
  replyRead (Scan.r_suggestedReply (Scan.res (Scan.step st line))).
Proof.
  intros H. unfold Scan.step.
  destruct (Scan.hasLabel "Risk Level:" (Js.trim line)); [exact H|].
  destruct (Scan.hasLabel "Reason:" (Js.trim line)); [exact H|].
  destruct (Scan.hasLabel "Business Impact:" (Js.trim line)); [exact H|].
  destruct (Scan.hasLabel "Recommended Action:" (Js.trim line)); [exact H|].
  destruct (Scan.hasLabel "Suggested Reply" (Js.trim line)).
  { cbn [Scan.res].
    destruct (Js.trim (Scan.stripReplyLabel (Js.trim line))) as [|c reply] eqn:E;
      [exact H|].
    right. eexists. split; [reflexivity|discriminate]. }
  destruct (Scan.hasLabel "Lead Quality Score" (Js.trim line)).
  { cbn [Scan.res]. destruct (Js.match_digits (Js.trim line)); exact H. }
  destruct (Scan.hasLabel "Business Insight:" (Js.trim line)); [exact H|].
  destruct (Js.nonEmpty (Js.trim line)); [|exact H].
  destruct (Scan.currentField st) as [f|]; [|exact H].
  destruct f; try exact H.
  right. eexists. split; [reflexivity|].
  intros X. apply app_eq_nil in X as [_ X]. discriminate X.
Qed.

Lemma scan_replyRead (ls : list jsstring) (st : Scan.state) :
  replyRead (Scan.r_suggestedReply (Scan.res st)) ->
  replyRead (Scan.r_suggestedReply (Scan.res (Scan.scan ls st))).
Proof.
  unfold Scan.scan. revert st. induction ls as [|l ls IH]; intros st H; [exact H|].
  cbn [fold_left]. apply IH, step_replyRead, H.
Qed.

(** X16: on every text, on either path, the response parser returns
    riskLevel, reason, businessImpact, recommendedAction and
    businessInsight defined (never undefined or null), and a suggestedReply
    that is unset or truthy: it is never the empty string. *)
Theorem X16_parser_fields_are_defined (text : jsstring) :
  let r := parseAnalysisResponse text in
  isDefined (riskLevel r)
  /\ isDefined (reason r)
  /\ isDefined (businessImpact r)
  /\ isDefined (recommendedAction r)
  /\ isDefined (businessInsight r)
  /\ (suggestedReply r = JUndefined \/ truthy (suggestedReply r) = true)
  /\ suggestedReply r <> JString [].
Proof.
  cbv zeta.
  assert (R : forall v, v = JUndefined \/ truthy v = true -> v <> JString []).
  { intros v [->| H]; [discriminate|]. intros ->. discriminate H. }
  destruct (parse_always_returns text) as [(r & T & ->)| ->].
  - unfold tryJson in T.
    destruct (jsonMatch text) as [span|] eqn:Hm; [|discriminate T].
    destruct (Json.parse span) as [parsed|] eqn:Hp; [|discriminate T].
    destruct (tryJson_returns text span parsed Hm Hp) as (props & -> & E).
    unfold tryJson in E. rewrite Hm, Hp in E. rewrite E in T.
    injection T as <-.
    cbn [riskLevel reason businessImpact recommendedAction businessInsight
         suggestedReply].
    repeat (split; [apply truthy_defined, or_else_default_truthy; reflexivity|]).
    assert (S : or_else (prop "suggestedReply" props) JUndefined = JUndefined
                \/ truthy (or_else (prop "suggestedReply" props) JUndefined) = true).
    { unfold or_else. destruct (truthy (prop "suggestedReply" props)) eqn:X; auto. }
    split; [exact S|apply R, S].
  - unfold scanLines, Scan.toResult.
    cbn [riskLevel reason businessImpact recommendedAction businessInsight
         suggestedReply].
    repeat (split; [split; discriminate|]).
    assert (S : Scan.opt JString
                  (Scan.r_suggestedReply
                     (Scan.res (Scan.scan (Scan.lines text) Scan.initial)))
                = JUndefined
                \/ truthy (Scan.opt JString
                             (Scan.r_suggestedReply
                                (Scan.res (Scan.scan (Scan.lines text)
                                             Scan.initial)))) = true).
    { destruct (scan_replyRead (Scan.lines text) Scan.initial) as [E|(s & E & Hs)];
        [left; reflexivity| |]; rewrite E; cbn [Scan.opt]; [auto|].
      right. apply truthy_nonEmpty, Hs. }
    split; [exact S|apply R, S].
Qed.

(** ** Blank lines on the line path *)

Lemma trimStart_blank (s : jsstring) :
  Forall (fun c => Js.isWhiteSpace c = true) s -> Js.trimStart s = [].
Proof.
  induction 1 as [|c s Hc _ IH]; [reflexivity|].
  cbn [Js.trimStart]. rewrite Hc. exact IH.
Qed.

Lemma split_LF_blank (s : jsstring) :
  Forall (fun c => Js.isWhiteSpace c = true) s ->
  Forall (Forall (fun c => Js.isWhiteSpace c = true)) (Js.split_LF s).
Proof.
  induction 1 as [|c s Hc _ IH]; [repeat constructor|].
  cbn [Js.split_LF]. destruct (c =? Js.LF); [constructor; [constructor|exact IH]|].
  destruct (Js.split_LF s) as [|l ls]; [repeat constructor; exact Hc|].
  inversion IH; subst. constructor; [constructor; assumption|assumption].
Qed.

Lemma lines_blank (s : jsstring) :
  Forall (fun c => Js.isWhiteSpace c = true) s -> Scan.lines s = [].
Proof.
  intros H. unfold Scan.lines.
  pose proof (split_LF_blank s H) as P.
  induction P as [|l ls Hl _ IH]; [reflexivity|].
  cbn [filter]. unfold Js.trim. rewrite (trimStart_blank l Hl). exact IH.
Qed.

(** X17: blank lines never matter on the line path: lines of white space
    only are dropped before the scan, so the line scanner returns the same
    result with or without them, between two lines as well as at the start
    or at the end of the text. *)
Theorem X17_blank_lines_are_ignored (a blank b : jsstring) :
  Forall (fun c => Js.isWhiteSpace c = true) blank ->
  scanLines (a ++ Js.LF :: blank ++ Js.LF :: b) = scanLines (a ++ Js.LF :: b)
  /\ scanLines (blank ++ Js.LF :: b) = scanLines b
  /\ scanLines (a ++ Js.LF :: blank) = scanLines a.
Proof.
  intros H. unfold scanLines.
  rewrite !lines_app, (lines_blank blank H), app_nil_r. repeat split.
Qed.

Lemma X17_blank_lines_are_ignored_witness :
  let a := u "Reason: the sender asks" in
  let blank := u "  	 " in
  let b := u "for a wire transfer" in
  Forall (fun c => Js.isWhiteSpace c = true) blank
  /\ reason (scanLines (a ++ Js.LF :: blank ++ Js.LF :: b))
     = JString (u "the sender asks for a wire transfer").
Proof.
  cbv zeta.
  assert (H : Forall (fun c => Js.isWhiteSpace c = true) (u "  	 "))
    by (repeat constructor).
  split; [exact H|].
  rewrite (proj1 (X17_blank_lines_are_ignored
                    (u "Reason: the sender asks") _ (u "for a wire transfer") H)).
  vm_compute. reflexivity.
Defined.

(** ** Label lines of the line scanner *)

Lemma match_digits_skip (before s : jsstring) :
  Forall (fun c => Js.isDigit c = false) before ->
  Js.match_digits (before ++ s) = Js.match_digits s.
Proof.
  induction 1 as [|c before Hc _ IH]; [reflexivity|].
  cbn [app Js.match_digits]. rewrite Hc. exact IH.
Qed.

Lemma digit_run_app (digits rest : jsstring) :
  Forall (fun c => Js.isDigit c = true) digits ->
  match rest with [] => True | c :: _ => Js.isDigit c = false end ->
  Js.digit_run (digits ++ rest) = digits.
Proof.
  intros H Hrest. induction H as [|c digits Hc _ IH].
  - destruct rest as [|c rest]; [reflexivity|]. cbn [app Js.digit_run].
    rewrite Hrest. reflexivity.
  - cbn [app Js.digit_run]. rewrite Hc, IH. reflexivity.
Qed.

Lemma match_digits_first (before digits rest : jsstring) :
  Forall (fun c => Js.isDigit c = false) before ->
  Forall (fun c => Js.isDigit c = true) digits ->
  digits <> [] ->
  match rest with [] => True | c :: _ => Js.isDigit c = false end ->
  Js.match_digits (before ++ digits ++ rest) = Some digits.
Proof.
  intros Hb Hd Hne Hrest. rewrite (match_digits_skip before _ Hb).
  destruct digits as [|c digits]; [contradiction|].
  pose proof (digit_run_app (c :: digits) rest Hd Hrest) as R.
  inversion Hd as [|? ? Hc _]; subst.
  cbn [app Js.match_digits]. rewrite Hc. f_equal. exact R.
Qed.

(** X18: on a line that starts with the score label, in any letter case,
    the score is the first run of digits found anywhere on the line, read
    as a natural number: what stands before it (a sign, a range in
    brackets) and after it (a fraction, a slash and 10) is ignored, and the
    value is not clamped. *)
Theorem X18_score_is_first_digit_run
    (st : Scan.state) (line before digits rest : jsstring) :
  Scan.hasLabel "Lead Quality Score" (Js.trim line) = true ->
  Js.trim line = before ++ digits ++ rest ->
  Forall (fun c => Js.isDigit c = false) before ->
  Forall (fun c => Js.isDigit c = true) digits ->
  digits <> [] ->
  match rest with [] => True | c :: _ => Js.isDigit c = false end ->
  Scan.r_leadQualityScore (Scan.res (Scan.step st line))
  = Some (number_of_Z (Js.digits_value 0 digits))
  /\ Scan.currentField (Scan.step st line) = Some Scan.F_leadQualityScore.
Proof.
  intros Hl Ht Hb Hd Hne Hrest.
  pose proof (score_label_is_first _ Hl) as L.
  split; [|apply step_labelled, L].
  rewrite step_score. unfold scoreOnLine. rewrite L, Ht.
  rewrite (match_digits_first before digits rest Hb Hd Hne Hrest). reflexivity.
Qed.

Lemma X18_score_is_first_digit_run_witness :
  let line := u "  LEAD QUALITY SCORE (1-10): 7" in
  Scan.hasLabel "Lead Quality Score" (Js.trim line) = true
  /\ Js.trim line = u "LEAD QUALITY SCORE (" ++ u "1" ++ u "-10): 7"
  /\ leadQualityScore (scanLines line) = JNumber (number_of_Z 1).
Proof.
  cbv zeta.
  assert (L : Scan.hasLabel "Lead Quality Score"
                (Js.trim (u "  LEAD QUALITY SCORE (1-10): 7")) = true)
    by reflexivity.
  assert (H : Js.trim (u "  LEAD QUALITY SCORE (1-10): 7")
              = u "LEAD QUALITY SCORE (" ++ u "1" ++ u "-10): 7")
    by reflexivity.
  split; [exact L|]. split; [exact H|].
  pose proof (X18_score_is_first_digit_run Scan.initial _ _ _ _ L H
                ltac:(repeat constructor) ltac:(repeat constructor)
                ltac:(discriminate) eq_refl) as [E _].
  unfold scanLines.
  change (Scan.lines (u "  LEAD QUALITY SCORE (1-10): 7"))
    with [u "  LEAD QUALITY SCORE (1-10): 7"].
  unfold Scan.scan. cbn [fold_left]. unfold Scan.toResult.
  cbn [leadQualityScore]. rewrite E. reflexivity.
Defined.

Lemma trimStart_head (s : jsstring) :
  Js.trimStart s = []
  \/ exists c r, Js.trimStart s = c :: r /\ Js.isWhiteSpace c = false.
Proof.
  induction s as [|c s IH]; [left; reflexivity|].
  cbn [Js.trimStart]. destruct (Js.isWhiteSpace c) eqn:E; [exact IH|].
  right. exists c, s. split; [reflexivity|exact E].
Qed.

Lemma trimEnd_head (c : N) (s : jsstring) :
  Js.isWhiteSpace c = false -> exists r, Js.trimEnd (c :: s) = c :: r.
Proof.
  intros H. cbn [Js.trimEnd]. destruct (Js.trimEnd s); [rewrite H|]; eauto.
Qed.

Lemma trimEnd_idem (s : jsstring) : Js.trimEnd (Js.trimEnd s) = Js.trimEnd s.
Proof.
  induction s as [|c s IH]; [reflexivity|].
  cbn [Js.trimEnd]. destruct (Js.trimEnd s) as [|x e] eqn:E.
  - destruct (Js.isWhiteSpace c) eqn:W; [reflexivity|].
    cbn [Js.trimEnd]. rewrite W. reflexivity.
  - change (Js.trimEnd (c :: x :: e))
      with (match Js.trimEnd (x :: e) with
            | [] => if Js.isWhiteSpace c then [] else [c]
            | r => c :: r
            end).
    rewrite IH. reflexivity.
Qed.

(** Trimming twice is trimming once. *)
Lemma trim_idem (s : jsstring) : Js.trim (Js.trim s) = Js.trim s.
Proof.
  unfold Js.trim. destruct (trimStart_head s) as [E|(c & r & E & W)]; rewrite E.
  - reflexivity.
  - destruct (trimEnd_head c r W) as [r' E']. rewrite E'.
    cbn [Js.trimStart]. rewrite W, <- E'. apply trimEnd_idem.
Qed.

Lemma afterColon_none (s : jsstring) :
  without 58 s -> Scan.afterColon s = None.
Proof.
  induction 1 as [|c s Hc _ IH]; [reflexivity|].
  cbn [Scan.afterColon]. apply N.eqb_neq in Hc. rewrite Hc. exact IH.
Qed.

Lemma without_skipn (c : N) (n : nat) (s : jsstring) :
  without c s -> without c (skipn n s).
Proof.
  revert s. induction n as [|n IH]; intros s H; [exact H|].
  destruct H as [|x s Hx H]; [constructor|]. cbn [skipn]. apply IH, H.
Qed.

(** X19: a heading line "Suggested Reply" without a colon is itself stored
    as the reply: the pattern that strips the label needs a colon, so
    without one nothing is stripped and the reply starts with the words of
    the label. *)
Theorem X19_reply_heading_without_colon (st : Scan.state) (line : jsstring) :
  Scan.hasLabel "Suggested Reply" (Js.trim line) = true ->
  without 58 (Js.trim line) ->
  Scan.r_suggestedReply (Scan.res (Scan.step st line)) = Some (Js.trim line)
  /\ Scan.currentField (Scan.step st line) = Some Scan.F_suggestedReply.
Proof.
  intros Hl Hc. unfold Scan.step.
  assert (L : Scan.hasLabel "Risk Level:" (Js.trim line) = false
              /\ Scan.hasLabel "Reason:" (Js.trim line) = false
              /\ Scan.hasLabel "Business Impact:" (Js.trim line) = false
              /\ Scan.hasLabel "Recommended Action:" (Js.trim line) = false).
  { revert Hl. unfold Scan.hasLabel. destruct (Js.trim line) as [|c t];
      [discriminate|].
    change (Js.matches_at true (u "Suggested Reply") (c :: t))
      with ((83 =? Js.canonicalize c)
            && Js.matches_at true (u "uggested Reply") t).
    intros H. apply andb_true_iff in H as [H _]. apply N.eqb_eq in H.
    change (Js.matches_at true (u "Risk Level:") (c :: t))
      with ((82 =? Js.canonicalize c) && Js.matches_at true (u "isk Level:") t).
    change (Js.matches_at true (u "Reason:") (c :: t))
      with ((82 =? Js.canonicalize c) && Js.matches_at true (u "eason:") t).
    change (Js.matches_at true (u "Business Impact:") (c :: t))
      with ((66 =? Js.canonicalize c)
            && Js.matches_at true (u "usiness Impact:") t).
    change (Js.matches_at true (u "Recommended Action:") (c :: t))
      with ((82 =? Js.canonicalize c)
            && Js.matches_at true (u "ecommended Action:") t).
    rewrite <- H. repeat split; reflexivity. }
  destruct L as (L1 & L2 & L3 & L4). rewrite L1, L2, L3, L4, Hl.
  cbn [Scan.res Scan.currentField].
  assert (S : Scan.stripReplyLabel (Js.trim line) = Js.trim line).
  { unfold Scan.stripReplyLabel. rewrite Hl.
    rewrite (afterColon_none _ (without_skipn 58 _ _ Hc)). reflexivity. }
  rewrite S, trim_idem.
  destruct (Js.trim line) as [|c t]; [discriminate Hl|].
  split; reflexivity.
Qed.

Lemma X19_reply_heading_without_colon_witness :
  let line := u "  SUGGESTED REPLY (polite)" in
  Scan.hasLabel "Suggested Reply" (Js.trim line) = true
  /\ without 58 (Js.trim line)
  /\ Scan.r_suggestedReply (Scan.res (Scan.step Scan.initial line))
     = Some (u "SUGGESTED REPLY (polite)").
Proof.
  cbv zeta.
  assert (H1 : Scan.hasLabel "Suggested Reply"
                 (Js.trim (u "  SUGGESTED REPLY (polite)")) = true)
    by reflexivity.
  assert (H2 : without 58 (Js.trim (u "  SUGGESTED REPLY (polite)")))
    by (repeat constructor; discriminate).
  split; [exact H1|]. split; [exact H2|].
  exact (proj1 (X19_reply_heading_without_colon Scan.initial _ H1 H2)).
Defined.

(** ** Guards of the fallback analyzer that never decide *)

(** X20: two guards of the analyzer never change its answer.  The third
    alternative of the Suspicious rule (a URL and a fraud keyword) is
    already taken by the High Risk Fraud rule, so a message is Suspicious
    exactly when that rule fails and hasUrgency or requestsInfo holds, and
    Safe exactly when neither holds and it has no fraud keyword or no URL:
    fraud keywords without a URL do not raise the level.  And the score of
    a sales lead is 5 plus its bonuses as they are, since they add up to
    10 at most: taking the minimum with 10 changes nothing. *)
Theorem X20_guards_that_never_decide
    (message : jsstring) (senderInfo context : option jsstring) :
  let r := analyzeWithFallback message senderInfo context in
  (riskLevel r = JString Suspicious
   <-> highRisk message = false
       /\ hasUrgency message || requestsInfo message = true)
  /\ (riskLevel r = JString Safe
      <-> hasUrgency message = false /\ requestsInfo message = false
          /\ isFraud message && hasUrl message = false)
  /\ leadQualityScore r
     = JNumber (number_of_Z
         (if isSales message
             && (negb (highRisk message) && negb (suspicious message))
          then (5 + 2 * b2z (contains message "budget")
                + b2z (contains message "timeline" || contains message "when")
                + b2z (contains message "demo" || contains message "meeting")
                + b2z (200 <? length message)%nat)%Z
          else 0%Z)).
Proof.
  cbv zeta. rewrite riskLevel_analyze.
  destruct levels_distinct as (D1 & D2 & D3).
  split; [|split].
  - destruct (classify_cases message) as [(H & E)|[(H & S & E)|(H & S & E)]];
      rewrite E, H; cbn [fst]; revert H S || revert H;
      unfold highRisk, suspicious;
      destruct (isFraud message); destruct (hasUrl message);
      destruct (hasUrgency message); destruct (requestsInfo message);
      cbn; intros; split; intros X; try discriminate; try reflexivity;
      try (apply JString_inj in X; congruence); try tauto;
      destruct X; discriminate.
  - destruct (classify_cases message) as [(H & E)|[(H & S & E)|(H & S & E)]];
      rewrite E; cbn [fst]; revert H S || revert H;
      unfold highRisk, suspicious;
      destruct (isFraud message); destruct (hasUrl message);
      destruct (hasUrgency message); destruct (requestsInfo message);
      cbn; intros; split; intros X; try discriminate; try reflexivity;
      try (apply JString_inj in X; congruence); try tauto;
      destruct X as (X1 & X2 & X3); discriminate.
  - rewrite leadQualityScore_analyze, score_classify.
    destruct (isSales message
              && (negb (highRisk message) && negb (suspicious message)));
      [|reflexivity].
    unfold score_spec, b2z.
    destruct (contains message "budget");
      destruct (contains message "timeline" || contains message "when");
      destruct (contains message "demo" || contains message "meeting");
      destruct (200 <? length message)%nat; reflexivity.
Qed.

(** A message with fraud keywords and no URL, urgency or request for
    information is Safe. *)
Lemma fraud_keywords_without_url_are_safe :
  riskLevel (analyzeWithFallback
               (u "Please wire the money, then verify. Limited time offer!")
               None None)
  = JString Safe.
Proof. vm_compute. reflexivity. Qed.

(** ** The answer of the route, read by the page *)

Lemma lookup_member (name : string) (props : list (jsstring * JsValue))
    (v : JsValue) :
  lookup (u name) props = Some v -> prop name props = v.
Proof. unfold prop. intros ->. reflexivity. Qed.

(** X21: the 200 answer for a result of the fallback analyzer reaches the
    page unchanged: the text [JSON.stringify] writes parses on the page to
    an object whose members riskLevel, reason, businessImpact,
    recommendedAction, suggestedReply, leadQualityScore and businessInsight
    are the fields of the result, the suggestedReply member being absent
    (read as undefined) exactly when the field is unset. *)
Theorem X21_page_receives_fallback_result
    (message : jsstring) (senderInfo context : option jsstring) :
  let r := analyzeWithFallback message senderInfo context in
  exists text props,
    Stringify.result r = Some text
    /\ Json.parse text = Some (JObject props)
    /\ prop "riskLevel" props = riskLevel r
    /\ prop "reason" props = reason r
    /\ prop "businessImpact" props = businessImpact r
    /\ prop "recommendedAction" props = recommendedAction r
    /\ prop "suggestedReply" props = suggestedReply r
    /\ prop "leadQualityScore" props = leadQualityScore r
    /\ prop "businessInsight" props = businessInsight r
    /\ (lookup (u "suggestedReply") props = None
        <-> suggestedReply r = JUndefined).
Proof.
  cbv zeta.
  destruct (fallback_fields message senderInfo context)
    as (rl & re & bi & ra & ins & sr & n & E & Hrl & Hre & Hbi & Hra & Hins
        & Hsr & Hn).
  assert (Hn' : (0 <= n <= 10)%Z) by lia.
  rewrite E. unfold Stringify.result.
  cbn [riskLevel reason businessImpact recommendedAction suggestedReply
       leadQualityScore businessInsight].
  rewrite (numberText_score n Hn').
  destruct Hsr as [->|(s & -> & Hs)].
  - eexists. eexists. split; [reflexivity|].
    split; [apply (parse_serialized_without_reply rl re bi ra ins n Hn')|].
    do 7 (split; [reflexivity|]).
    split; reflexivity.
  - eexists. eexists. split; [reflexivity|].
    split; [apply (parse_serialized_with_reply rl re bi ra s ins n Hn')|].
    do 7 (split; [reflexivity|]).
    split; intros X; discriminate X.
Qed.
